(** * UHF RFID reader driver: a shallow embedding of [rfid_reader.py]

    The driver talks to a RAIN RFID UHF reader module over a serial line.
    This development embeds the class [UHFReaderThread] of
    [src/rfid_reader.py]: the byte-level helpers, the frame trimming of
    [wait_for_response_short], the retry loops, every get/set operation
    and one turn of the session loop [start_reading].

    Conventions of the embedding.
    - Python [bytes] are lists of [byte]; Python [int] is [Z]; a Python
      [str] is a Rocq [string] holding its UTF-8 encoding.
    - [None] is [None] of an option type.
    - The serial port object [self.ser] (class [SerialPort] of
      [src/serial_io.py]) is an oracle: the n-th call of [serial_send] or
      [serial_receive] returns what the oracle says, so that every sequence
      of transport outcomes is covered.  The methods [serial_send] and
      [serial_receive] of that class are embedded on their own in the
      module [SerialIO], over the pyserial object they drive.
    - Python exceptions are the [Raise] outcome of a state and error monad;
      [while] loops run on fuel and [OutOfFuel] is the outcome of a loop
      that did not finish within it.
    - A float obtained by the true division [n / 100] is represented by the
      exact rational [n # 100] it is the rounding of.
    - Console output ([print]) is not part of the model. *)

From Stdlib Require Import ZArith NArith List String Ascii Bool Lia QArith.
From Stdlib Require Import Strings.Byte DecimalString HexadecimalString.
Import ListNotations.

Close Scope Q_scope.
Local Open Scope string_scope.
Local Open Scope list_scope.
Local Open Scope Z_scope.

(** ** Python values *)

Definition bytes := list byte.

(** The exceptions the modelled code can raise. *)
Inductive exn : Type :=
| AttributeError      (* [None.split(...)] *)
| TypeError           (* [None[6:8]] *)
| KeyError            (* [params[key]] on a dictionary without the key *)
| ValueError          (* [int(s, base)], [bytes.fromhex] on a malformed string *)
| OverflowError       (* [int.to_bytes] out of range, a quotient too large for a float *)
| UnicodeDecodeError. (* [bytes.decode('utf-8')] on ill-formed input *)

Inductive result (A : Type) : Type :=
| Ret (a : A)
| Raise (e : exn)
| OutOfFuel.

Arguments Ret {A} a.
Arguments Raise {A} e.
Arguments OutOfFuel {A}.

Definition rbind {A B} (r : result A) (f : A -> result B) : result B :=
  match r with
  | Ret a => f a
  | Raise e => Raise e
  | OutOfFuel => OutOfFuel
  end.

(** The second argument of [wait_for_response_short] is a [bytes] opcode at
    every call site but one: [keep_alive] passes the integer [REC_TIMEOUT]. *)
Inductive pyobj : Type :=
| PyBytes (b : bytes)
| PyInt (z : Z).

Fixpoint bytes_eqb (a b : bytes) : bool :=
  match a, b with
  | [], [] => true
  | x :: a', y :: b' => Byte.eqb x y && bytes_eqb a' b'
  | _, _ => false
  end.

(** [b == o] for a bytes object [b]: a bytes object never equals an int. *)
Definition py_eq (b : bytes) (o : pyobj) : bool :=
  match o with
  | PyBytes c => bytes_eqb b c
  | PyInt _ => false
  end.

(** [l[lo:hi]] for non-negative bounds. *)
Definition slice (lo hi : nat) (l : bytes) : bytes :=
  firstn (hi - lo) (skipn lo l).

Definition byte_val (b : byte) : Z := Z.of_N (Byte.to_N b).

Definition byte_of_Z (z : Z) : byte :=
  match Byte.of_N (Z.to_N z) with
  | Some b => b
  | None => x00
  end.

(** [int.from_bytes(l, 'big')] *)
Definition int_from_bytes (l : bytes) : Z :=
  fold_left (fun acc b => acc * 256 + byte_val b) l 0.

(** [int.from_bytes(l, byteorder='big', signed=True)] *)
Definition int_from_bytes_signed (l : bytes) : Z :=
  let u := int_from_bytes l in
  let bits := 8 * Z.of_nat (List.length l) in
  match l with
  | [] => 0
  | _ :: _ => if 2 ^ (bits - 1) <=? u then u - 2 ^ bits else u
  end.

Fixpoint be_digits (n : nat) (v : Z) : bytes :=
  match n with
  | O => []
  | S k => be_digits k (v / 256) ++ [byte_of_Z (v mod 256)]
  end.

(** [v.to_bytes(n, 'big')] *)
Definition to_bytes (v : Z) (n : nat) : result bytes :=
  if (0 <=? v) && (v <? 256 ^ Z.of_nat n) then Ret (be_digits n v)
  else Raise OverflowError.

(** *** [bytes.split(sep)] for a non-empty separator

    The buffer is scanned from the left; at each occurrence of [sep] the
    fragment read so far is closed and the scan resumes after the
    separator ([skip] counts the separator bytes still to jump over). *)
Fixpoint starts_with (sep l : bytes) : bool :=
  match sep, l with
  | [], _ => true
  | s :: sep', x :: l' => Byte.eqb s x && starts_with sep' l'
  | _ :: _, [] => false
  end.

Fixpoint split_from (sep : bytes) (skip : nat) (cur : bytes) (l : bytes)
  : list bytes :=
  match l with
  | [] => [rev cur]
  | x :: l' =>
      match skip with
      | S k => split_from sep k cur l'
      | O =>
          if starts_with sep l
          then rev cur :: split_from sep (List.length sep - 1) [] l'
          else split_from sep 0 (x :: cur) l'
      end
  end.

Definition bytes_split (l sep : bytes) : list bytes := split_from sep 0 [] l.

(** *** Strings and numbers *)

(** [str(z)] and ['{}'.format(z)] for an int. *)
Definition str_of_int (z : Z) : string :=
  DecimalString.NilZero.string_of_int (Z.to_int z).

(** [format(z, 'x')] *)
Definition format_x (z : Z) : string :=
  HexadecimalString.NilZero.string_of_int (Z.to_hex_int z).

(** [s.rjust(n, '0')] *)
Definition rjust0 (n : nat) (s : string) : string :=
  (string_of_list_ascii (repeat "0"%char (n - String.length s)) ++ s)%string.

Definition hex_digit (c : ascii) : option Z :=
  let n := Z.of_nat (nat_of_ascii c) in
  if (48 <=? n) && (n <=? 57) then Some (n - 48)
  else if (97 <=? n) && (n <=? 102) then Some (n - 87)
  else if (65 <=? n) && (n <=? 70) then Some (n - 55)
  else None.

Definition is_space (c : ascii) : bool :=
  let n := nat_of_ascii c in
  (Nat.eqb n 32 || ((9 <=? n)%nat && (n <=? 13)%nat))%bool.

(** [bytes.fromhex(s)]: two hexadecimal digits per byte, ASCII white space
    between bytes skipped. *)
Fixpoint fromhex (s : string) : result bytes :=
  match s with
  | EmptyString => Ret []
  | String c r =>
      if is_space c then fromhex r
      else
        match r with
        | EmptyString => Raise ValueError
        | String d r' =>
            match hex_digit c, hex_digit d with
            | Some h, Some l =>
                rbind (fromhex r') (fun rest => Ret (byte_of_Z (16 * h + l) :: rest))
            | _, _ => Raise ValueError
            end
        end
  end.

Fixpoint digits_value (base : Z) (digit : ascii -> option Z) (acc : Z) (s : string)
  : result Z :=
  match s with
  | EmptyString => Ret acc
  | String c r =>
      match digit c with
      | Some d => if d <? base then digits_value base digit (base * acc + d) r
                  else Raise ValueError
      | None => Raise ValueError
      end
  end.

(** [int(s, base)] on a string of digits.  (Python also accepts a sign,
    a prefix, underscores and surrounding white space; the driver only
    builds digit strings, out of literals and of rendered ints, where a
    sign makes the string invalid here as it does in Python.) *)
Definition int_of_str (s : string) (base : Z) : result Z :=
  match s with
  | EmptyString => Raise ValueError
  | _ => digits_value base hex_digit 0 s
  end.

(** [bytes(s, 'utf-8')] and [len(s)] on a [str] held as its UTF-8 encoding:
    the length counts code points, that is the bytes that are not
    continuation bytes. *)
Definition str_encode (s : string) : bytes := list_byte_of_string s.

Definition is_continuation (b : byte) : bool :=
  (128 <=? byte_val b) && (byte_val b <=? 191).

Definition str_len (s : string) : Z :=
  Z.of_nat (List.length (filter (fun b => negb (is_continuation b)) (str_encode s))).

(** [b.decode('utf-8')]: the well-formed byte sequences of RFC 3629. *)
Definition in_range (lo hi : Z) (b : byte) : bool :=
  (lo <=? byte_val b) && (byte_val b <=? hi).

Fixpoint utf8_valid (l : bytes) : bool :=
  match l with
  | [] => true
  | a :: r =>
      if in_range 0 127 a then utf8_valid r
      else if in_range 194 223 a then
        match r with
        | b :: r1 => in_range 128 191 b && utf8_valid r1
        | _ => false
        end
      else if in_range 224 239 a then
        match r with
        | b :: c :: r2 =>
            (if Z.eqb (byte_val a) 224 then in_range 160 191 b
             else if Z.eqb (byte_val a) 237 then in_range 128 159 b
             else in_range 128 191 b)
            && in_range 128 191 c && utf8_valid r2
        | _ => false
        end
      else if in_range 240 244 a then
        match r with
        | b :: c :: d :: r3 =>
            (if Z.eqb (byte_val a) 240 then in_range 144 191 b
             else if Z.eqb (byte_val a) 244 then in_range 128 143 b
             else in_range 128 191 b)
            && in_range 128 191 c && in_range 128 191 d && utf8_valid r3
        | _ => false
        end
      else false
  end.

Definition decode_utf8 (b : bytes) : result string :=
  if utf8_valid b then Ret (string_of_list_byte b) else Raise UnicodeDecodeError.

(** [n / 100] for an int [n]: the quotient as a float, or [OverflowError]
    when it rounds beyond the largest binary64 number. *)
Definition float_max_bound : Z := 2 ^ 1024 - 2 ^ 970.

Definition div100 (n : Z) : result Q :=
  if float_max_bound * 100 <=? n then Raise OverflowError
  else Ret (Qmake n 100).

(** ** Values returned by the operations *)

Record version_info := {
  FirmwareRev : string;
  SDKRev : string;
  SoftwareRev : string;
  HardwareRev : string
}.

Record op_param_info := {
  param : string;
  value : Z
}.

Record event_mask_info := {
  tag_seen : bool;
  tag_removed : bool;
  tag_power_change : bool;
  tag_report_timeout : bool;
  gen2_op_completed : bool;
  gen2_op_timeout : bool
}.

Record tx_power_info := {
  ant1power : Q;
  ant2power : Q;
  ant3power : Q;
  ant4power : Q
}.

Record ant_enables_info := {
  ant1enables : bool;
  ant2enables : bool;
  ant3enables : bool;
  ant4enables : bool
}.

Record tag_report_info := {
  replyReason : string;
  powerRSSIRaw : Z;
  powerdBm : Z;
  timestamp : Z;
  antenna : Z;
  epcLength : Z
}.

(** The dictionary [errorAll] of [start_reading]. *)
Record error_all := {
  e_keep_alive : option string;
  e_opSate_set : option string;
  e_opRegion_set : option string;
  e_SET_TX_POWER : option string;
  e_SET_ANT_ENABLES : option string;
  e_version_get : option string;
  e_temp_get : option string;
  e_op_reg_get : option string;
  e_tx_power_get : option string;
  e_GET_ANT_ENABLES : option string;
  e_op_state_get : option string;
  e_tag_report_get : option string
}.

(** The dictionary [meta_data]: the aggregate of one cycle, or the bare
    error of a port that could not be opened. *)
Inductive meta_data : Type :=
| MetaData (error : error_all) (alive : option bool)
    (version : option version_info) (temp : option Q) (op_reg : option string)
    (tx_power : option tx_power_info) (ant_enables : option ant_enables_info)
    (op_state : option string) (tag_report : option tag_report_info)
| MetaOpenError (error : option string).

(** The parameter set a producer hands over through [set_uhf_params]. *)
Record uhf_params := {
  tagReport : bool;
  soundEffect : bool;
  opRegion : string;
  ant1TxPower : Z;
  ant2TxPower : Z;
  ant3TxPower : Z;
  ant4TxPower : Z;
  ant1Enables : Z;
  ant2Enables : Z;
  ant3Enables : Z;
  ant4Enables : Z
}.

(** ** The environment: serial port, producer, observable events *)

(** [self.ser].  The outcome of the n-th [serial_send] is an optional error
    string, that of the n-th [serial_receive] an optional error string and
    the data read, which [serial_receive] leaves [None] when the port is
    not open. *)
Record SerialPort := {
  open_result : option string;
  send_result : nat -> option string;
  receive_result : nat -> option string * option bytes
}.

Inductive event : Type :=
| Opened (error : option string)
| Sent (cmd : bytes) (error : option string)
| Received (rec_timeout : Z) (error : option string) (data_in : option bytes)
| Waited (ms : Z)
| ParamsRead
| ParamsCleared
| GiveUhfMetaData (status : bool) (m : meta_data)
| TagDetectedAudio.

Record state := {
  sends : nat;          (* calls of [serial_send] so far *)
  receives : nat;       (* calls of [serial_receive] so far *)
  reads : nat;          (* calls of [get_uhf_params] so far *)
  trace : list event    (* what the driver did, oldest first *)
}.

Definition initial_state : state :=
  {| sends := 0; receives := 0; reads := 0; trace := [] |}.

(** ** The monad of the driver's methods *)

Definition M (A : Type) : Type := state -> result A * state.

Definition ret {A} (a : A) : M A := fun st => (Ret a, st).

Definition bind {A B} (m : M A) (f : A -> M B) : M B :=
  fun st =>
    match m st with
    | (Ret a, st') => f a st'
    | (Raise e, st') => (Raise e, st')
    | (OutOfFuel, st') => (OutOfFuel, st')
    end.

Definition lift {A} (r : result A) : M A := fun st => (r, st).

Definition emit (e : event) : M unit :=
  fun st =>
    (Ret tt, {| sends := sends st; receives := receives st; reads := reads st;
                trace := trace st ++ [e] |}).

Declare Scope monad_scope.
Delimit Scope monad_scope with monad.

Notation "x <- m ;; k" := (bind m (fun x => k))
  (at level 61, m at next level, right associativity) : monad_scope.
Notation "' p <- m ;; k" := (bind m (fun x => match x with p => k end))
  (at level 61, p pattern, m at next level, right associativity) : monad_scope.
Notation "m ;; k" := (bind m (fun _ => k))
  (at level 61, right associativity) : monad_scope.

Local Open Scope monad_scope.

(** A [while] loop: [cond] is the loop test on the loop variables, [body]
    returns the new variables and whether it left through [break]. *)
Fixpoint while_ {S : Type} (fuel : nat) (cond : S -> bool)
  (body : S -> M (S * bool)) (s : S) : M S :=
  fun st =>
    if cond s then
      match fuel with
      | O => (OutOfFuel, st)
      | Datatypes.S f =>
          match body s st with
          | (Ret (s', true), st') => (Ret s', st')
          | (Ret (s', false), st') => while_ f cond body s' st'
          | (Raise e, st') => (Raise e, st')
          | (OutOfFuel, st') => (OutOfFuel, st')
          end
      end
    else (Ret s, st).

(** ** Constants of the class *)

(** [REC_TIMEOUT], the receive timeout in seconds. *)
Definition REC_TIMEOUT : Z := 1.

Module UHFOperatingState.
Definition IDLE : string := "0000".
Definition TAG_READ : string := "0004".
End UHFOperatingState.

Module Events.
Definition TAG_SEEN : Z := 0.
Definition TAG_REMOVED : Z := 1.
Definition TAG_POWER_CHANGE : Z := 2.
Definition TAG_REPORT_TIMEOUT : Z := 3.
Definition GEN2_OP_COMPLETED : Z := 4.
Definition GEN2_OP_TIMEOUT : Z := 5.
End Events.

Module OPParams.
Definition TAG_TIMEOUT : string := "Tag Time Out".
Definition TAG_TIMEOUT_CODE : string := "0001".
Definition TAG_POWER_CHANGE_THRESHOLD : string := "Tag_Power_Change_Threshold".
Definition TAG_POWER_CHANGE_THRESHOLD_CODE : string := "0002".
Definition TAG_REPORT_TIMEOUT : string := "Tag_Report_Timeout".
Definition TAG_REPORT_TIMEOUT_CODE : string := "0003".
Definition TRANSIENT_DETECT_TIME : string := "Transient_Detect_Time".
Definition TRANSIENT_DETECT_TIME_CODE : string := "0004".
Definition TRANSIENT_COUNT : string := "Transient_Count".
Definition TRANSIENT_COUNT_CODE : string := "0005".
Definition TRANSIENT_INTERVAL : string := "Transient_Interval".
Definition TRANSIENT_INTERVAL_CODE : string := "0006".
Definition GEN2_OP_TIMEOUT : string := "Gen2_Op_Timeout".
Definition GEN2_OP_TIMEOUT_CODE : string := "0007".
Definition RESPONSE_NOT_DEFINED : string := "Response_Not_Defined".
End OPParams.

Module UHFBytes.
(* C/R and opcode in the response message *)
Definition GET_VERSION : bytes := [x80; x04].
Definition GET_TEMP : bytes := [x80; x13].
Definition GET_OP_REGION : bytes := [x80; x03].
Definition SET_OP_REGION : bytes := [x80; x02].
Definition GET_OP_PARAMS : bytes := [x80; x0b].
Definition SET_OP_PARAMS : bytes := [x80; x0a].
Definition GET_EVENT_MASK : bytes := [x80; x15].
Definition SET_EVENT_MASK : bytes := [x80; x14].
Definition SET_TX_POWER : bytes := [x80; x05].
Definition GET_TX_POWER : bytes := [x80; x06].
Definition SET_ANT_ENABLES : bytes := [x80; x0e].
Definition GET_ANT_ENABLES : bytes := [x80; x0f].
Definition SET_OP_STATE : bytes := [x80; x0c].
Definition GET_OP_STATE : bytes := [x80; x0d].
Definition GET_TAG_REPORT : bytes := [x80; x09].
Definition KEEP_ALIVE : bytes := [x80; x01].
(* Status bytes *)
Definition STATUS_SUCCESS : bytes := [x00; x00].
Definition STATUS_OP_REGION_INVALID : bytes := [x00; x05].
Definition STATUS_INVALID_POWER_LEVEL : bytes := [x00; x06].
Definition STATUS_INTERNAL_ERROR : bytes := [x00; x07].
(* Framing bytes *)
Definition FRAMING_BYTES : bytes := [xf6; x28].
Definition FRAMING_BYTES_LEN : Z := 2.
End UHFBytes.

(** ** Pure helpers of the class *)

(** [create_event_mask]: the six flags are rendered into a string of binary
    digits, most significant first, which is read back in base 2. *)
Definition create_event_mask
  (tag_seen tag_removed tag_power_change tag_report_timeout
     gen2_op_completed gen2_op_timeout : Z) : result Z :=
  int_of_str
    ("00" ++ str_of_int gen2_op_timeout ++ str_of_int gen2_op_completed
          ++ str_of_int tag_report_timeout ++ str_of_int tag_power_change
          ++ str_of_int tag_removed ++ str_of_int tag_seen)%string
    2.

(** [bit_status]: [x & 1 << n != 0], that is [(x & (1 << n)) != 0]. *)
Definition bit_status (x n : Z) : bool :=
  negb (Z.land x (Z.shiftl 1 n) =? 0).

(** [int_to_hex_string] *)
Definition int_to_hex_string (value : Z) (str_len : nat) : string :=
  let value_hex := format_x value in
  let hex_str := rjust0 str_len value_hex in
  hex_str.

(** The argument of [code_to_param] is a hex string or an int. *)
Inductive pycode : Type :=
| CodeStr (s : string)
| CodeInt (z : Z).

(** ['{:04x}'.format(z)] *)
Definition format_04x (z : Z) : string :=
  if z <? 0 then ("-" ++ rjust0 3 (format_x (- z)))%string
  else rjust0 4 (format_x z).

Definition code_to_param (code : pycode) : string :=
  let code_hex_string :=
    match code with
    | CodeInt z => format_04x z
    | CodeStr s => s
    end in
  if String.eqb code_hex_string "0001" then OPParams.TAG_TIMEOUT
  else if String.eqb code_hex_string "0002" then OPParams.TAG_POWER_CHANGE_THRESHOLD
  else if String.eqb code_hex_string "0003" then OPParams.TAG_REPORT_TIMEOUT
  else if String.eqb code_hex_string "0004" then OPParams.TRANSIENT_DETECT_TIME
  else if String.eqb code_hex_string "0005" then OPParams.TRANSIENT_COUNT
  else if String.eqb code_hex_string "0006" then OPParams.TRANSIENT_INTERVAL
  else if String.eqb code_hex_string "0007" then OPParams.GEN2_OP_TIMEOUT
  else OPParams.RESPONSE_NOT_DEFINED.

(** The payload of [build_cmd]: [word1] .. [word4] with their [word_type]. *)
Inductive words : Type :=
| NoWord                                 (* [word1 is None] *)
| WStr (word1 : string)                  (* ['str'] *)
| WInt (word1 : Z)                       (* ['int'], [word2] .. [word4] None *)
| WInt4 (word1 word2 word3 word4 : Z)    (* ['int'] *)
| WInt32 (word1 : Z)                     (* ['int32'] *)
| WUint32 (word1 : string) (word2 : Z)   (* ['uint32_t'] *)
| WByt (word1 : string).                 (* ['byt'] *)

Definition build_cmd (length cr_opcode : string) (w : words) : result bytes :=
  let _FRAMING_BYTES := "F6 28" in
  let msg_str := (_FRAMING_BYTES ++ " " ++ length ++ " " ++ cr_opcode)%string in
  match w with
  | NoWord => fromhex msg_str
  | _ =>
      rbind
        (rbind (fromhex msg_str) (fun head =>
           match w with
           | NoWord => Ret head
           | WStr word1 => Ret (head ++ str_encode word1 ++ [x00])
           | WInt word1 =>
               rbind (to_bytes word1 2) (fun b1 => Ret (head ++ b1))
           | WInt4 word1 word2 word3 word4 =>
               rbind (to_bytes word1 2) (fun b1 =>
               rbind (to_bytes word2 2) (fun b2 =>
               rbind (to_bytes word3 2) (fun b3 =>
               rbind (to_bytes word4 2) (fun b4 =>
               Ret (head ++ b1 ++ b2 ++ b3 ++ b4)))))
           | WInt32 word1 =>
               rbind (to_bytes word1 4) (fun b1 => Ret (head ++ b1))
           | WUint32 word1 word2 =>
               rbind (fromhex word1) (fun b1 =>
               rbind (to_bytes word2 4) (fun b2 => Ret (head ++ b1 ++ b2)))
           | WByt word1 =>
               rbind (fromhex word1) (fun b1 => Ret (head ++ b1))
           end))
        (fun msg_bytes =>
           (* zeros for the remaining bytes up to the length of the command *)
           rbind (int_of_str length 16) (fun n =>
           Ret (msg_bytes
                  ++ repeat x00 (Z.to_nat (n - Z.of_nat (List.length msg_bytes))))))
  end.

(** The frame trimming of [wait_for_response_short], applied to the bytes
    received: split on the framing bytes, pick a fragment, cut to the
    length the frame announces. *)
Definition trim_response (set_response : pyobj) (res : bytes) : bytes :=
  let res_trimmed := bytes_split res UHFBytes.FRAMING_BYTES in
  let res :=
    if (2 <? List.length res_trimmed)%nat then
      let res := UHFBytes.FRAMING_BYTES ++ nth 2 res_trimmed [] in
      if py_eq (slice 4 6 res) set_response then res
      else UHFBytes.FRAMING_BYTES ++ nth 1 res_trimmed []
    else res in
  (* cut the response to its expected length *)
  let length := int_from_bytes (slice 2 4 res) + UHFBytes.FRAMING_BYTES_LEN in
  firstn (Z.to_nat length) res.

(** ** The methods that talk to the reader *)

Section Driver.

(** The serial port of the instance, the producer that fills
    [self.uhf_params] and [self.startReading] (what the n-th call of
    [get_uhf_params] reads; [None] is a dictionary without the keys, such
    as [{}]), and the fuel of each [while] loop. *)
Variable ser : SerialPort.
Variable producer : nat -> option uhf_params * bool.
Variable fuel : nat.

(** [self.ser.serial_send(cmd)] *)
Definition serial_send (cmd : bytes) : M (option string) :=
  fun st =>
    let error := send_result ser (sends st) in
    (Ret error,
     {| sends := S (sends st); receives := receives st; reads := reads st;
        trace := trace st ++ [Sent cmd error] |}).

(** [self.ser.serial_receive(rec_timeout)] *)
Definition serial_receive (rec_timeout : Z) : M (option string * option bytes) :=
  fun st =>
    let '(error, data_in) := receive_result ser (receives st) in
    (Ret (error, data_in),
     {| sends := sends st; receives := S (receives st); reads := reads st;
        trace := trace st ++ [Received rec_timeout error data_in] |}).

(** [wait_ms(milli_seconds)] *)
Definition wait_ms (milli_seconds : Z) : M unit := emit (Waited milli_seconds).

(** [get_uhf_params]: returns [params, status]. *)
Definition get_uhf_params : M (option uhf_params * bool) :=
  fun st =>
    (Ret (producer (reads st)),
     {| sends := sends st; receives := receives st; reads := S (reads st);
        trace := trace st ++ [ParamsRead] |}).

(** [set_uhf_params(False, {})], the only call the driver itself makes. *)
Definition set_uhf_params_cleared : M unit := emit ParamsCleared.

(** [wait_for_response_short]; [res.split] raises when the port
    returned no bytes object. *)
Definition wait_for_response_short (set_response : pyobj) (rec_timeout : Z)
  : M (option string * bytes) :=
  '(error, res) <- serial_receive rec_timeout ;;
  match res with
  | None => lift (Raise AttributeError)
  | Some res => ret (error, trim_response set_response res)
  end.

(** [send_cmd] *)
Definition send_cmd (cmd : bytes) : M (option string) :=
  error <- serial_send cmd ;;
  ret error.

(** [res[lo:hi]] where [res] may still be [None]. *)
Definition subscript (res : option bytes) : M bytes :=
  match res with
  | Some b => ret b
  | None => lift (Raise TypeError)
  end.

(** [wait_for_response_long]: the loop variables are
    [(count, error, res)]. *)
Definition wait_for_response_long (set_response : pyobj)
  : M (option string * option bytes) :=
  (* build a keep-alive command *)
  msg <- lift (build_cmd "0004" "0001" NoWord) ;;
  '(_, error, res) <-
    while_ fuel
      (fun '(count, _, _) => count <? 5)
      (fun '(count, error, res) =>
         let count := count + 1 in
         error <- send_cmd msg ;;
         match error with
         | None =>
             '(error, res) <- wait_for_response_short set_response REC_TIMEOUT ;;
             if py_eq (slice 4 6 res) set_response
             then ret ((count, error, Some res), true)
             else wait_ms 1000 ;; ret ((count, error, Some res), false)
         | Some _ => wait_ms 1000 ;; ret ((count, error, res), false)
         end)
      (0, None, None) ;;
  ret (error, res).

(** The opening of every get operation: send the request and, when it
    went out, wait half a second and read the response
    ([res = None; error = send_cmd(msg); if error is None: ...]). *)
Definition request (msg : bytes) (response : bytes)
  : M (option string * option bytes) :=
  error <- send_cmd msg ;;
  match error with
  | None =>
      wait_ms 500 ;;
      '(error, res) <- wait_for_response_short (PyBytes response) REC_TIMEOUT ;;
      ret (error, Some res)
  | Some _ => ret (error, None)
  end.

(** The opening of the set operations other than [set_op_region]: wait a
    second, read the response and fall back to the long wait when it is
    empty. *)
Definition request_set (msg : bytes) (response : bytes)
  : M (option string * option bytes) :=
  error <- send_cmd msg ;;
  match error with
  | None =>
      wait_ms 1000 ;;
      '(error, res) <- wait_for_response_short (PyBytes response) REC_TIMEOUT ;;
      if bytes_eqb res []
      then wait_for_response_long (PyBytes response)
      else ret (error, Some res)
  | Some _ => ret (error, None)
  end.

(** [res[6:8] == STATUS_SUCCESS and res[4:6] == opcode] *)
Definition success_and_opcode (res : bytes) (opcode : bytes) : bool :=
  bytes_eqb (slice 6 8 res) UHFBytes.STATUS_SUCCESS
  && bytes_eqb (slice 4 6 res) opcode.

Definition get_version : M (option string * option version_info) :=
  msg <- lift (build_cmd "0004" "0004" NoWord) ;;
  '(error, res) <- request msg UHFBytes.GET_VERSION ;;
  match error with
  | None =>
      res <- subscript res ;;
      if success_and_opcode res UHFBytes.GET_VERSION then
        Firmware_rev <- lift (decode_utf8 (slice 8 13 res)) ;;
        SDK_rev <- lift (decode_utf8 (slice 14 19 res)) ;;
        Software_rev <- lift (decode_utf8 (slice 20 25 res)) ;;
        Hardware_rev <- lift (decode_utf8 (slice 26 29 res)) ;;
        ret (None,
             Some {| FirmwareRev := Firmware_rev; SDKRev := SDK_rev;
                     SoftwareRev := Software_rev; HardwareRev := Hardware_rev |})
      else ret (Some "Unable to get device version information", None)
  | Some _ => ret (error, None)
  end.

Definition get_temp : M (option string * option Q) :=
  msg <- lift (build_cmd "0004" "0013" NoWord) ;;
  '(error, res) <- request msg UHFBytes.GET_TEMP ;;
  match error with
  | None =>
      res <- subscript res ;;
      if success_and_opcode res UHFBytes.GET_TEMP then
        temperature <- lift (div100 (int_from_bytes (slice 8 (List.length res) res))) ;;
        ret (None, Some temperature)
      else ret (Some "Unable to get temperature", None)
  | Some _ => ret (error, None)
  end.

Definition get_operational_params (code : string)
  : M (option string * option op_param_info) :=
  let param := code_to_param (CodeStr code) in
  msg <- lift (build_cmd "0006" "000B" (WByt code)) ;;
  '(error, res) <- request msg UHFBytes.GET_OP_PARAMS ;;
  match error with
  | None =>
      res <- subscript res ;;
      if success_and_opcode res UHFBytes.GET_OP_PARAMS then
        let rep := int_from_bytes (slice 8 10 res) in
        let param := code_to_param (CodeInt rep) in
        let value := int_from_bytes (skipn 10 res) in
        ret (None, Some {| param := param; value := value |})
      else ret (Some "Unable to get operational parameters", None)
  | Some _ => ret (error, None)
  end.

Definition set_operational_param (code : string) (value : Z) : M (option string) :=
  let param := code_to_param (CodeStr code) in
  msg <- lift (build_cmd "000A" "000A" (WUint32 code value)) ;;
  '(error, res) <- request_set msg UHFBytes.SET_OP_PARAMS ;;
  match error with
  | None =>
      res <- subscript res ;;
      if negb (bytes_eqb (slice 6 8 res) UHFBytes.STATUS_SUCCESS)
         && bytes_eqb (slice 4 6 res) UHFBytes.SET_OP_PARAMS
      then ret (Some ("Unable to set '" ++ param ++ "' to '"
                        ++ str_of_int value ++ "'")%string)
      else ret error
  | Some _ => ret error
  end.

Definition get_event_mask : M (option string * option event_mask_info) :=
  msg <- lift (build_cmd "0004" "0015" NoWord) ;;
  '(error, res) <- request msg UHFBytes.GET_EVENT_MASK ;;
  match error with
  | None =>
      res <- subscript res ;;
      if success_and_opcode res UHFBytes.GET_EVENT_MASK then
        let mask_32bits := int_from_bytes (slice 8 (List.length res) res) in
        ret (None,
             Some {| tag_seen := bit_status mask_32bits 0;
                     tag_removed := bit_status mask_32bits 1;
                     tag_power_change := bit_status mask_32bits 2;
                     tag_report_timeout := bit_status mask_32bits 3;
                     gen2_op_completed := bit_status mask_32bits 4;
                     gen2_op_timeout := bit_status mask_32bits 5 |})
      else ret (Some "Unable to get event mask", None)
  | Some _ => ret (error, None)
  end.

(** [set_event_mask] builds the mask with the expression of
    [create_event_mask]. *)
Definition set_event_mask
  (tag_seen tag_removed tag_power_change tag_report_timeout
     gen2_op_completed gen2_op_timeout : Z) : M (option string) :=
  event_mask <- lift (create_event_mask tag_seen tag_removed tag_power_change
                        tag_report_timeout gen2_op_completed gen2_op_timeout) ;;
  msg <- lift (build_cmd "0008" "0014" (WInt32 event_mask)) ;;
  '(error, res) <- request_set msg UHFBytes.SET_EVENT_MASK ;;
  match error with
  | None =>
      res <- subscript res ;;
      if negb (bytes_eqb (slice 6 10 res) UHFBytes.STATUS_SUCCESS)
         && bytes_eqb (slice 4 6 res) UHFBytes.SET_EVENT_MASK
      then ret (Some "Unable to set event mask!")
      else ret error
  | Some _ => ret error
  end.

Definition get_op_region : M (option string * option string) :=
  msg <- lift (build_cmd "0004" "0003" NoWord) ;;
  '(error, res) <- request msg UHFBytes.GET_OP_REGION ;;
  match error with
  | None =>
      res <- subscript res ;;
      if success_and_opcode res UHFBytes.GET_OP_REGION then
        op_region <- lift (decode_utf8 (slice 8 11 res)) ;;
        ret (None, Some op_region)
      else ret (Some "Unable to get operating region", None)
  | Some _ => ret (error, None)
  end.

(** [set_op_region] reads the response at once and has no long wait. *)
Definition set_op_region (opRegion : string) : M (option string) :=
  let length := int_to_hex_string (4 + str_len opRegion + 1) 4 in
  let op_reg := opRegion in
  msg <- lift (build_cmd length "0002" (WStr op_reg)) ;;
  error <- send_cmd msg ;;
  '(error, res) <-
    match error with
    | None =>
        '(error, res) <- wait_for_response_short (PyBytes UHFBytes.SET_OP_REGION)
                           REC_TIMEOUT ;;
        ret (error, Some res)
    | Some _ => ret (error, None)
    end ;;
  match error with
  | None =>
      res <- subscript res ;;
      if success_and_opcode res UHFBytes.SET_OP_REGION then ret error
      else if negb (bytes_eqb (slice 6 8 res) UHFBytes.STATUS_SUCCESS)
      then ret (Some ("Invalid operating region: " ++ opRegion)%string)
      else ret (Some "Unable to set operating region")
  | Some _ => ret error
  end.

Definition get_tx_power : M (option string * option tx_power_info) :=
  msg <- lift (build_cmd "0004" "0006" NoWord) ;;
  '(error, res) <- request msg UHFBytes.GET_TX_POWER ;;
  match error with
  | None =>
      res <- subscript res ;;
      if success_and_opcode res UHFBytes.GET_TX_POWER then
        ant_1_power <- lift (div100 (int_from_bytes (slice 8 10 res))) ;;
        ant_2_power <- lift (div100 (int_from_bytes (slice 10 12 res))) ;;
        ant_3_power <- lift (div100 (int_from_bytes (slice 12 14 res))) ;;
        ant_4_power <- lift (div100 (int_from_bytes (slice 14 16 res))) ;;
        ret (None,
             Some {| ant1power := ant_1_power; ant2power := ant_2_power;
                     ant3power := ant_3_power; ant4power := ant_4_power |})
      else ret (Some "Unable to get TX power", None)
  | Some _ => ret (error, None)
  end.

(** [set_tx_power]: the four powers are taken as ints, for which
    [int(p * 100)] is [p * 100]. *)
Definition set_tx_power (ant1TxPower ant2TxPower ant3TxPower ant4TxPower : Z)
  : M (option string) :=
  let ant_power1 := ant1TxPower * 100 in
  let ant_power2 := ant2TxPower * 100 in
  let ant_power3 := ant3TxPower * 100 in
  let ant_power4 := ant4TxPower * 100 in
  msg <- lift (build_cmd "000C" "0005"
                 (WInt4 ant_power1 ant_power2 ant_power3 ant_power4)) ;;
  '(error, res) <- request_set msg UHFBytes.SET_TX_POWER ;;
  match error with
  | None =>
      res <- subscript res ;;
      if negb (bytes_eqb (slice 6 8 res) UHFBytes.STATUS_SUCCESS)
         && bytes_eqb (slice 4 6 res) UHFBytes.SET_TX_POWER
      then ret (Some ("Unable to set tx power to " ++ str_of_int ant1TxPower
                        ++ ", " ++ str_of_int ant2TxPower
                        ++ ", " ++ str_of_int ant3TxPower
                        ++ ", " ++ str_of_int ant4TxPower)%string)
      else ret error
  | Some _ => ret error
  end.

Definition reply_reason_of (rep : Z) : string :=
  if rep =? 1 then "New Tag Seen"
  else if rep =? 2 then "Tag Removed"
  else if rep =? 3 then "Power Changed"
  else if rep =? 4 then "GEN2 Op Completed"
  else if rep =? 5 then "Tag Report Timeout"
  else if rep =? 6 then "Report Requested"
  else "Not defined".

Definition get_tag_report : M (option string * option tag_report_info) :=
  let epc_length := "0000" in
  msg <- lift (build_cmd "0006" "0009" (WByt epc_length)) ;;
  '(error, res) <- request msg UHFBytes.GET_TAG_REPORT ;;
  match error with
  | None =>
      res <- subscript res ;;
      if success_and_opcode res UHFBytes.GET_TAG_REPORT then
        let rep := int_from_bytes (slice 8 10 res) in
        let reply_reason := reply_reason_of rep in
        let power_rssi_raw := int_from_bytes_signed (slice 10 12 res) in
        let power_dbm := int_from_bytes_signed (slice 12 14 res) in
        let timestamp := int_from_bytes (slice 14 18 res) in
        let antenna := int_from_bytes (slice 18 20 res) in
        let epc_length := int_from_bytes (slice 20 (List.length res) res) in
        ret (None,
             Some {| replyReason := reply_reason;
                     powerRSSIRaw := power_rssi_raw;
                     powerdBm := power_dbm;
                     timestamp := timestamp;
                     antenna := antenna;
                     epcLength := epc_length |})
      else ret (Some "Unable to get a tag report", None)
  | Some _ => ret (error, None)
  end.

Definition get_ant_enables : M (option string * option ant_enables_info) :=
  msg <- lift (build_cmd "0004" "000F" NoWord) ;;
  '(error, res) <- request msg UHFBytes.GET_ANT_ENABLES ;;
  match error with
  | None =>
      res <- subscript res ;;
      if success_and_opcode res UHFBytes.GET_ANT_ENABLES then
        let bit_vector := int_from_bytes (slice 8 (List.length res) res) in
        ret (None,
             Some {| ant1enables := bit_status bit_vector 0;
                     ant2enables := bit_status bit_vector 1;
                     ant3enables := bit_status bit_vector 2;
                     ant4enables := bit_status bit_vector 3 |})
      else ret (Some "Unable to get antenna enables!", None)
  | Some _ => ret (error, None)
  end.

(** The bit vector [set_ant_enables] builds out of its four flags. *)
Definition ant_enables_vector (ant1Enables ant2Enables ant3Enables ant4Enables : Z)
  : result Z :=
  int_of_str
    ("0000" ++ str_of_int ant4Enables ++ str_of_int ant3Enables
            ++ str_of_int ant2Enables ++ str_of_int ant1Enables)%string
    2.

Definition set_ant_enables (ant1Enables ant2Enables ant3Enables ant4Enables : Z)
  : M (option string) :=
  ant_enables <- lift (ant_enables_vector ant1Enables ant2Enables
                         ant3Enables ant4Enables) ;;
  msg <- lift (build_cmd "0006" "000E" (WInt ant_enables)) ;;
  '(error, res) <- request_set msg UHFBytes.SET_ANT_ENABLES ;;
  match error with
  | None =>
      res <- subscript res ;;
      if negb (bytes_eqb (slice 6 8 res) UHFBytes.STATUS_SUCCESS)
         && bytes_eqb (slice 4 6 res) UHFBytes.SET_ANT_ENABLES
      then ret (Some "Unable to set antenna enables!")
      else ret error
  | Some _ => ret error
  end.

Definition set_op_state (op_state : string) : M (option string) :=
  msg <- lift (build_cmd "0006" "000C" (WByt op_state)) ;;
  '(error, res) <- request_set msg UHFBytes.SET_OP_STATE ;;
  match error with
  | None =>
      res <- subscript res ;;
      if negb (bytes_eqb (slice 6 8 res) UHFBytes.STATUS_SUCCESS)
         && bytes_eqb (slice 4 6 res) UHFBytes.SET_OP_STATE
      then ret (Some ("Unable to set operating state to '" ++ op_state ++ "'")%string)
      else ret error
  | Some _ => ret error
  end.

Definition op_state_of (rep : Z) : string :=
  if rep =? 0 then "Idle"
  else if rep =? 1 then "CW Test"
  else if rep =? 2 then "PRBS Test"
  else if rep =? 3 then "ETSI Burst Test"
  else if rep =? 4 then "Tag Read"
  else if rep =? 5 then "Over Temp"
  else if rep =? 6 then "Reader_Error"
  else if rep =? 7 then "Hard_Reset"
  else if rep =? 8 then "SW_Mismatch"
  else if rep =? 9 then "Bootloader"
  else "Not defined".

Definition get_op_state : M (option string * option string) :=
  msg <- lift (build_cmd "0004" "000D" NoWord) ;;
  '(error, res) <- request msg UHFBytes.GET_OP_STATE ;;
  match error with
  | None =>
      res <- subscript res ;;
      if success_and_opcode res UHFBytes.GET_OP_STATE then
        let rep := int_from_bytes (slice 10 12 res) in
        ret (None, Some (op_state_of rep))
      else ret (Some "Unable to get operating state", None)
  | Some _ => ret (error, None)
  end.

(** [keep_alive]: the loop variables are [(count, error, res)]; the
    response is awaited with [REC_TIMEOUT] in the place of the expected
    opcode. *)
Definition keep_alive : M (option string * option bool) :=
  msg <- lift (build_cmd "0004" "0001" NoWord) ;;
  '(_, error, res) <-
    while_ fuel
      (fun '(count, _, _) => count <? 15)
      (fun '(count, error, res) =>
         let count := count + 1 in
         error <- send_cmd msg ;;
         match error with
         | None =>
             '(error, res) <- wait_for_response_short (PyInt REC_TIMEOUT) REC_TIMEOUT ;;
             if negb (bytes_eqb res [])
             then ret ((count, error, Some res), true)
             else wait_ms 1000 ;; ret ((count, error, Some res), false)
         | Some _ => wait_ms 1000 ;; ret ((count, error, res), false)
         end)
      (0, None, None) ;;
  match error with
  | None =>
      res <- subscript res ;;
      if success_and_opcode res UHFBytes.KEEP_ALIVE then ret (None, Some true)
      else ret (Some "Unable to keep UHF module alive", None)
  | Some _ => ret (error, None)
  end.

(** *** One turn of the loop of [start_reading] *)

(** The local variables of a turn that reach [errorAll] and
    [meta_data]; all of them start as [None]. *)
Record cycle_vars := {
  alive : option bool;
  version : option version_info;
  temp : option Q;
  op_reg : option string;
  tx_power : option tx_power_info;
  ant_enables : option ant_enables_info;
  op_state : option string;
  tag_report : option tag_report_info;
  error_keep_alive : option string;
  error_op_region_set : option string;
  error_set_tx_power : option string;
  error_set_ant_enables : option string;
  error_version_get : option string;
  error_temp_get : option string;
  error_op_reg_get : option string;
  error_tx_power_get : option string;
  error_get_ant_enables : option string;
  error_tag_report_get : option string;
  error_set_op_state : option string;
  error_op_state_get : option string
}.

(** The loop that keeps the reader alive until a client asks for a
    reading; the loop variables are
    [(startReading, params, error_keep_alive, alive)]. *)
Definition awaiting_start
  : M (option uhf_params * option string * option bool) :=
  '(_, params, error_keep_alive, alive) <-
    while_ fuel
      (fun '(startReading, _, _, _) => negb startReading)
      (fun _ =>
         '(params, startReading) <- get_uhf_params ;;
         '(error_keep_alive, alive) <- keep_alive ;;
         wait_ms 1000 ;;
         ret ((startReading, params, error_keep_alive, alive), false))
      (false, None, None, None) ;;
  ret (params, error_keep_alive, alive).

(** The polling loop of the tag reading; the loop variables are
    [(i, error_tag_report_get, tag_report)]. *)
Definition poll_tag_report
  : M (Z * option string * option tag_report_info) :=
  while_ fuel
    (fun '(i, _, _) => i <? 10)
    (fun '(i, _, _) =>
       let i := i + 1 in
       '(error_tag_report_get, tag_report) <- get_tag_report ;;
       match tag_report with
       | Some _ => ret ((i, error_tag_report_get, tag_report), true)
       | None => ret ((i, error_tag_report_get, tag_report), false)
       end)
    (0, None, None).

(** [not error]: a string is false when it is empty. *)
Definition not_error (error : option string) : bool :=
  match error with
  | None => true
  | Some s => String.eqb s ""
  end.

(** The body of [if tagReport:]. It returns [error_set_op_state],
    [error_op_state_get], [op_state], and the variables of the polling
    loop. *)
Definition read_tags (soundEffect : bool)
  : M (option string * option string * option string
       * (Z * option string * option tag_report_info)) :=
  (* must be set for tag read *)
  error_set_op_state <- set_op_state UHFOperatingState.TAG_READ ;;
  '(error_op_state_get, op_state) <- get_op_state ;;
  '(i, error_tag_report_get, tag_report) <- poll_tag_report ;;
  (* set operating state to IDLE as soon as done *)
  error_set_op_state <- set_op_state UHFOperatingState.IDLE ;;
  (if soundEffect then
     if not_error error_tag_report_get then emit TagDetectedAudio else ret tt
   else ret tt) ;;
  ret (error_set_op_state, error_op_state_get, op_state,
       (i, error_tag_report_get, tag_report)).

(** The body of [if error_keep_alive is None:]. *)
Definition configure_and_read (params : option uhf_params)
  (alive : option bool) : M cycle_vars :=
  match params with
  | None => lift (Raise KeyError)
  | Some params =>
      (* sets *)
      error_set_op_state <- set_op_state UHFOperatingState.IDLE ;;
      error_op_region_set <- set_op_region (opRegion params) ;;
      error_set_tx_power <-
        set_tx_power (ant1TxPower params) (ant2TxPower params)
          (ant3TxPower params) (ant4TxPower params) ;;
      error_set_ant_enables <-
        set_ant_enables (ant1Enables params) (ant2Enables params)
          (ant3Enables params) (ant4Enables params) ;;
      (* gets *)
      '(error_version_get, version) <- get_version ;;
      '(error_temp_get, temp) <- get_temp ;;
      '(error_op_reg_get, op_reg) <- get_op_region ;;
      '(error_tx_power_get, tx_power) <- get_tx_power ;;
      '(error_get_ant_enables, ant_enables) <- get_ant_enables ;;
      (* keep alive *)
      '(error_keep_alive, alive) <- keep_alive ;;
      '(error_keep_alive, alive) <- keep_alive ;;
      (* read tags in the range *)
      '(error_set_op_state, error_op_state_get, op_state,
        (_, error_tag_report_get, tag_report)) <-
        (if tagReport params then read_tags (soundEffect params)
         else ret (error_set_op_state, None, None, (0, None, None))) ;;
      ret {| alive := alive; version := version; temp := temp;
             op_reg := op_reg; tx_power := tx_power;
             ant_enables := ant_enables; op_state := op_state;
             tag_report := tag_report;
             error_keep_alive := error_keep_alive;
             error_op_region_set := error_op_region_set;
             error_set_tx_power := error_set_tx_power;
             error_set_ant_enables := error_set_ant_enables;
             error_version_get := error_version_get;
             error_temp_get := error_temp_get;
             error_op_reg_get := error_op_reg_get;
             error_tx_power_get := error_tx_power_get;
             error_get_ant_enables := error_get_ant_enables;
             error_tag_report_get := error_tag_report_get;
             error_set_op_state := error_set_op_state;
             error_op_state_get := error_op_state_get |}
  end.

(** The variables of a turn whose configuration was skipped. *)
Definition skipped (error_keep_alive : option string) (alive : option bool)
  : cycle_vars :=
  {| alive := alive; version := None; temp := None; op_reg := None;
     tx_power := None; ant_enables := None; op_state := None;
     tag_report := None;
     error_keep_alive := error_keep_alive;
     error_op_region_set := None; error_set_tx_power := None;
     error_set_ant_enables := None; error_version_get := None;
     error_temp_get := None; error_op_reg_get := None;
     error_tx_power_get := None; error_get_ant_enables := None;
     error_tag_report_get := None; error_set_op_state := None;
     error_op_state_get := None |}.

Definition aggregate (v : cycle_vars) : meta_data :=
  let errorAll :=
    {| e_keep_alive := error_keep_alive v;
       e_opSate_set := error_set_op_state v;
       e_opRegion_set := error_op_region_set v;
       e_SET_TX_POWER := error_set_tx_power v;
       e_SET_ANT_ENABLES := error_set_ant_enables v;
       e_version_get := error_version_get v;
       e_temp_get := error_temp_get v;
       e_op_reg_get := error_op_reg_get v;
       e_tx_power_get := error_tx_power_get v;
       e_GET_ANT_ENABLES := error_get_ant_enables v;
       e_op_state_get := error_op_state_get v;
       e_tag_report_get := error_tag_report_get v |} in
  MetaData errorAll (alive v) (version v) (temp v) (op_reg v) (tx_power v)
    (ant_enables v) (op_state v) (tag_report v).

(** One turn of [while True:] in [start_reading]. *)
Definition cycle : M unit :=
  '(params, error_keep_alive, alive) <- awaiting_start ;;
  set_uhf_params_cleared ;;
  v <- match error_keep_alive with
       | None => configure_and_read params alive
       | Some _ => ret (skipped error_keep_alive alive)
       end ;;
  (* emit the data as a dictionary *)
  emit (GiveUhfMetaData true (aggregate v)).

(** [self.ser.serial_open()] *)
Definition serial_open : M (option string) :=
  emit (Opened (open_result ser)) ;; ret (open_result ser).

Definition start_reading : M (option string) :=
  err <- serial_open ;;
  match err with
  | None =>
      while_ fuel (fun _ => true) (fun _ => cycle ;; ret (tt, false)) tt ;;
      ret err
  | Some _ =>
      emit (GiveUhfMetaData true (MetaOpenError err)) ;;
      ret err
  end.

End Driver.

(** ** Frames and ports used in the examples *)

(** A response frame: framing bytes, length, opcode, status, payload. *)
Definition response_frame (opcode status payload : bytes) : bytes :=
  UHFBytes.FRAMING_BYTES
    ++ be_digits 2 (Z.of_nat (2 + List.length opcode + List.length status
                               + List.length payload))
    ++ opcode ++ status ++ payload.

(** The reply of the reader to a keep-alive: [F6 28 00 06 80 01 00 00]. *)
Definition keep_alive_reply : bytes :=
  response_frame UHFBytes.KEEP_ALIVE UHFBytes.STATUS_SUCCESS [].

(** The GetTemperature response [F6 28 00 08 80 13 00 00 10 64]. *)
Definition temp_response : bytes :=
  [xf6; x28; x00; x08; x80; x13; x00; x00; x10; x64].

(** What [serial_receive] returns when nothing came within the timeout. *)
Definition no_bytes : option string * option bytes :=
  (Some "Err1: No bytes from the device", Some []).

(** A port that is open, sends without error and receives the scripted
    outcomes, then nothing. *)
Definition scripted (l : list (option string * option bytes)) : SerialPort :=
  {| open_result := None;
     send_result := fun _ => None;
     receive_result := fun n => nth n l no_bytes |}.

Definition received (b : bytes) : option string * option bytes := (None, Some b).

(** A producer whose first answer is a request to read. *)
Definition fcc_params (tag_report sound : bool) : uhf_params :=
  {| tagReport := tag_report; soundEffect := sound; opRegion := "FCC";
     ant1TxPower := 30; ant2TxPower := 30; ant3TxPower := 30; ant4TxPower := 30;
     ant1Enables := 1; ant2Enables := 1; ant3Enables := 0; ant4Enables := 0 |}.

Definition start_now (p : uhf_params) : nat -> option uhf_params * bool :=
  fun _ => (Some p, true).

(** The commands sent, in order. *)
Fixpoint sent_cmds (t : list event) : list bytes :=
  match t with
  | [] => []
  | Sent cmd _ :: t' => cmd :: sent_cmds t'
  | _ :: t' => sent_cmds t'
  end.

(** The keep-alive command [F6 28 00 04 00 01]. *)
Definition keep_alive_cmd : bytes := [xf6; x28; x00; x04; x00; x01].

(** The commands sent other than keep-alive probes. *)
Definition requests (t : list event) : list bytes :=
  filter (fun c => negb (bytes_eqb c keep_alive_cmd)) (sent_cmds t).

(** ** Notions used in the statements *)

(** The response that carries an event mask, and the one that carries the
    antenna bit vector. *)
Definition event_mask_response (m : Z) : bytes :=
  response_frame UHFBytes.GET_EVENT_MASK UHFBytes.STATUS_SUCCESS (be_digits 4 m).

Definition ant_enables_response (v : Z) : bytes :=
  response_frame UHFBytes.GET_ANT_ENABLES UHFBytes.STATUS_SUCCESS (be_digits 2 v).

(** The SetOpRegion command for ["FCC"] and the SetTxPower command for four
    times 30 dBm. *)
Definition set_op_region_fcc_cmd : bytes :=
  [xf6; x28; x00; x08; x00; x02; x46; x43; x43; x00].

Definition set_tx_power_30_cmd : bytes :=
  [xf6; x28; x00; x0c; x00; x05; x0b; xb8; x0b; xb8; x0b; xb8; x0b; xb8].

(** The number of places of [l] where [sep] starts. *)
Fixpoint occurrences (sep l : bytes) : nat :=
  match l with
  | [] => 0
  | _ :: l' => (if starts_with sep l then 1 else 0) + occurrences sep l'
  end.

Definition marker_count (l : bytes) : nat :=
  occurrences UHFBytes.FRAMING_BYTES l.

(** The cut of a frame to the length it announces plus the framing bytes. *)
Definition cut_to_length (res : bytes) : bytes :=
  firstn (Z.to_nat (int_from_bytes (slice 2 4 res) + 2)) res.

(** An operational-parameter response whose value, 63016 = 0xF628, holds the
    two framing bytes: [F6 28 00 0C 80 0B 00 00 00 01 00 00 F6 28]. *)
Definition op_param_response_63016 : bytes :=
  response_frame UHFBytes.GET_OP_PARAMS UHFBytes.STATUS_SUCCESS
    [x00; x01; x00; x00; xf6; x28].

(** Pacing: a command may go out at the start and after a wait of a
    second or more; [pace ready t] is [None] when some command of [t] goes
    out too early, and says otherwise whether a command may follow [t]. *)
Fixpoint pace (ready : bool) (t : list event) : option bool :=
  match t with
  | [] => Some ready
  | Sent _ _ :: t' => if ready then pace false t' else None
  | Waited ms :: t' => pace (ready || (1000 <=? ms)) t'
  | _ :: t' => pace ready t'
  end.

Definition paced (t : list event) : bool :=
  match pace true t with
  | Some _ => true
  | None => false
  end.

(** The variables [error] and [res] of a retry loop, as its events
    determine them. *)
Definition last_seen_step (set_response : pyobj)
  (v : option string * option bytes) (ev : event) : option string * option bytes :=
  match ev with
  | Sent _ error => (error, snd v)
  | Received _ error (Some data_in) =>
      (error, Some (trim_response set_response data_in))
  | _ => v
  end.

Definition last_seen (set_response : pyobj) (t : list event)
  : option string * option bytes :=
  fold_left (last_seen_step set_response) t (None, None).

(** The port returned no bytes object. *)
Definition no_data (ev : event) : bool :=
  match ev with
  | Received _ _ None => true
  | _ => false
  end.

Section RetryLoop.

(** The loops of [wait_for_response_long] and of [keep_alive] differ in
    their bound, in what they await and in the test [stop] that ends
    them. *)
Variable ser : SerialPort.
Variable set_response : pyobj.
Variable stop : bytes -> bool.
Variable bound : Z.
Variable msg : bytes.

Definition retry_cond : Z * option string * option bytes -> bool :=
  fun '(count, _, _) => count <? bound.

Definition retry_body
  : Z * option string * option bytes -> M (Z * option string * option bytes * bool) :=
  fun '(count, error, res) =>
    let count := count + 1 in
    bind (send_cmd ser msg) (fun error =>
    match error with
    | None =>
        bind (wait_for_response_short ser set_response REC_TIMEOUT)
          (fun x => match x with
                    | (error, res) =>
                        if stop res
                        then ret ((count, error, Some res), true)
                        else bind (wait_ms 1000)
                               (fun _ => ret ((count, error, Some res), false))
                    end)
    | Some _ => bind (wait_ms 1000) (fun _ => ret ((count, error, res), false))
    end).

(** The event is a response that ends the loop. *)
Definition stops (ev : event) : bool :=
  match ev with
  | Received _ _ (Some data_in) => stop (trim_response set_response data_in)
  | _ => false
  end.

(** The event is a call of the port or a wait, and what it received is an
    outcome of the port. *)
Definition port_event (ev : event) : Prop :=
  match ev with
  | Received _ error data_in => exists k, receive_result ser k = (error, data_in)
  | Sent _ _ => True
  | Waited _ => True
  | _ => False
  end.

(** The trace starts with the command. *)
Definition command_first (t : list event) : Prop :=
  match t with
  | [] => True
  | ev :: _ => exists e, ev = Sent msg e
  end.

(** What holds before every test of the loop started in [st0]. *)
Definition retry_inv (st0 : state)
  : Z * option string * option bytes -> state -> Prop :=
  fun '(count, error, res) st =>
    exists t n,
      trace st = trace st0 ++ t
      /\ reads st = reads st0
      /\ count = Z.of_nat n /\ count <= bound
      /\ sent_cmds t = repeat msg n
      /\ pace true t = Some true
      /\ Forall port_event t
      /\ command_first t
      /\ (forall ev, In ev t -> stops ev = false /\ no_data ev = false)
      /\ last_seen set_response t = (error, res)
      /\ (forall b, res = Some b -> stop b = false)
      /\ ((0 < n)%nat -> error = None -> res <> None).

(** What holds when the loop is over: [t] is what it did, [n] the number
    of commands it sent. *)
Definition retry_post (st0 : state)
  (r : result (Z * option string * option bytes)) (st : state) : Prop :=
  exists t n,
    trace st = trace st0 ++ t
    /\ reads st = reads st0
    /\ sent_cmds t = repeat msg n
    /\ Z.of_nat n <= bound
    /\ (0 < bound -> (0 < n)%nat)
    /\ paced t = true
    /\ Forall port_event t
    /\ command_first t
    /\ (forall ev, In ev (removelast t) -> stops ev = false /\ no_data ev = false)
    /\ match r with
       | Ret (_, error, res) =>
           last_seen set_response t = (error, res)
           /\ (forall ev, In ev t -> no_data ev = false)
           /\ (0 < bound -> error = None -> res <> None)
           /\ ((forall ev, In ev t -> stops ev = false) ->
               Z.of_nat n = bound /\ forall b, res = Some b -> stop b = false)
       | Raise e =>
           e = AttributeError /\ no_data (last t (Waited 0)) = true
       | OutOfFuel => False
       end.

End RetryLoop.


(** The port always returns a bytes object, be it empty. *)
Definition returns_bytes (ser : SerialPort) : Prop :=
  forall k, snd (receive_result ser k) <> None.


(** The commands of the get operations and of [set_op_state]. *)
Definition get_version_cmd : bytes := [xf6; x28; x00; x04; x00; x04].

Definition get_temp_cmd : bytes := [xf6; x28; x00; x04; x00; x13].

Definition get_op_region_cmd : bytes := [xf6; x28; x00; x04; x00; x03].

Definition get_tx_power_cmd : bytes := [xf6; x28; x00; x04; x00; x06].

Definition get_ant_enables_cmd : bytes := [xf6; x28; x00; x04; x00; x0f].

Definition get_op_state_cmd : bytes := [xf6; x28; x00; x04; x00; x0d].

Definition get_tag_report_cmd : bytes := [xf6; x28; x00; x06; x00; x09; x00; x00].

Definition set_idle_cmd : bytes := [xf6; x28; x00; x06; x00; x0c; x00; x00].

Definition set_tag_read_cmd : bytes := [xf6; x28; x00; x06; x00; x0c; x00; x04].

(** [runs ser m cmd st a st']: started in [st], the operation [m] returns
    [a] and leaves [st']; it first handed [cmd] to the port, did nothing but
    call the port and wait, and did not read the parameters. *)
Definition runs {A : Type} (ser : SerialPort) (m : M A) (cmd : bytes)
  (st : state) (a : A) (st' : state) : Prop :=
  m st = (Ret a, st')
  /\ reads st' = reads st
  /\ exists e t, trace st' = trace st ++ Sent cmd e :: t
                 /\ Forall (port_event ser) t
                 /\ requests t = [].

(** What the port returns can be parsed without an exception by the
    operation that parses it.  [get_version] decodes the text fields of a
    response that came without error and has the success status and its
    opcode, [get_op_region] and [get_temp] likewise: such a response then
    holds well-formed UTF-8, or a temperature within the range of a float.
    Nothing is asked of any other response. *)
Definition version_readable (res : bytes) : bool :=
  utf8_valid (slice 8 13 res) && utf8_valid (slice 14 19 res)
  && utf8_valid (slice 20 25 res) && utf8_valid (slice 26 29 res).

Definition region_readable (res : bytes) : bool := utf8_valid (slice 8 11 res).

Definition temp_in_range (res : bytes) : bool :=
  int_from_bytes (slice 8 (List.length res) res) <? float_max_bound * 100.

Definition parsed_as (opcode : bytes) (d : bytes) : bool :=
  success_and_opcode (trim_response (PyBytes opcode) d) opcode.

Definition readable (ser : SerialPort) : Prop :=
  forall k d,
    receive_result ser k = (None, Some d) ->
    (parsed_as UHFBytes.GET_VERSION d = true ->
     version_readable (trim_response (PyBytes UHFBytes.GET_VERSION) d) = true)
    /\ (parsed_as UHFBytes.GET_OP_REGION d = true ->
        region_readable (trim_response (PyBytes UHFBytes.GET_OP_REGION) d) = true)
    /\ (parsed_as UHFBytes.GET_TEMP d = true ->
        temp_in_range (trim_response (PyBytes UHFBytes.GET_TEMP) d) = true).

(** [polled ser st outs st']: from [st] to [st'], [get_tag_report] was run
    once for each element of [outs], which it returned. *)
Inductive polled (ser : SerialPort)
  : state -> list (option string * option tag_report_info) -> state -> Prop :=
| polled_nil (st : state) : polled ser st [] st
| polled_snoc (st : state) (outs : list (option string * option tag_report_info))
    (st1 : state) (o : option string * option tag_report_info) (st2 : state) :
    polled ser st outs st1 ->
    runs ser (get_tag_report ser) get_tag_report_cmd st1 o st2 ->
    polled ser st (outs ++ [o]) st2.

(** The metadata emitted, in order. *)
Fixpoint emitted (t : list event) : list meta_data :=
  match t with
  | [] => []
  | GiveUhfMetaData _ m :: t' => m :: emitted t'
  | _ :: t' => emitted t'
  end.




(** The commands of the tag reading that made [n] polls. *)
Definition tag_requests (tag_report : bool) (n : nat) : list bytes :=
  if tag_report
  then [set_tag_read_cmd; get_op_state_cmd]
         ++ repeat get_tag_report_cmd n ++ [set_idle_cmd]
  else [].

(** The commands of a configuration. *)
Definition configuration_requests (region_cmd tx_cmd ant_cmd : bytes) : list bytes :=
  [set_idle_cmd; region_cmd; tx_cmd; ant_cmd; get_version_cmd; get_temp_cmd;
   get_op_region_cmd; get_tx_power_cmd; get_ant_enables_cmd].

(** The outcome of the port can be parsed without an exception. *)
Definition readable_outcome (o : option string * option bytes) : bool :=
  match o with
  | (None, Some d) =>
      implb (parsed_as UHFBytes.GET_VERSION d)
        (version_readable (trim_response (PyBytes UHFBytes.GET_VERSION) d))
      && implb (parsed_as UHFBytes.GET_OP_REGION d)
           (region_readable (trim_response (PyBytes UHFBytes.GET_OP_REGION) d))
      && implb (parsed_as UHFBytes.GET_TEMP d)
           (temp_in_range (trim_response (PyBytes UHFBytes.GET_TEMP) d))
  | _ => true
  end.

(** The SetAntEnables command for the flags 1, 1, 0, 0. *)
Definition set_ant_enables_1100_cmd : bytes :=
  [xf6; x28; x00; x06; x00; x0e; x00; x03].

(** ** The serial port of [serial_io.py] *)

Module SerialIO.

(** [self.com], the [Serial] object of pyserial: whether it is open, and
    what the i-th reading of [in_waiting], the i-th [read], the i-th
    flushing of the buffers and the i-th [write] do, a value or the message
    of the exception they raise. *)
Record Serial := {
  is_open : bool;
  in_waiting : nat -> string + nat;
  read : nat -> nat -> string + bytes;
  reset_buffers : nat -> option string;
  write : nat -> bytes -> option string
}.

(** ["[{}] {}".format(get_fname(), str(e1))], in the method [fname]. *)
Definition error_text (fname msg : string) : string :=
  ("[" ++ fname ++ "] " ++ msg)%string.

(** [serial_send], the [i]-th one: the error returned and what was handed
    to [self.com.write]. *)
Definition serial_send (com : Serial) (i : nat) (cmd : bytes)
  : option string * list bytes :=
  if is_open com then
    match reset_buffers com i with
    | Some msg => (Some (error_text "serial_send" msg), [])
    | None =>
        match write com i cmd with
        | Some msg => (Some (error_text "serial_send" msg), [])
        | None => (None, [cmd])
        end
    end
  else (None, []).

(** The loop of [serial_receive], [count] turns done, [i] readings of
    [in_waiting] and [j] calls of [read] made before: the message of the
    exception that left it or [data_in], and the number of readings of
    [in_waiting] it made. *)
Fixpoint receive_loop (fuel : nat) (com : Serial) (rec_timeout : Z)
  (count : Z) (i j : nat) (polls : nat) (data_in : bytes)
  : result ((string + bytes) * nat) :=
  if count <? rec_timeout * 1000 then
    match fuel with
    | O => OutOfFuel
    | S fuel' =>
        let count := count + 1 in
        match in_waiting com i with
        | inl msg => Ret (inl msg, S polls)
        | inr bytesWaiting =>
            if negb (Nat.eqb bytesWaiting 0) then
              match read com j bytesWaiting with
              | inl msg => Ret (inl msg, S polls)
              | inr byte_in =>
                  match byte_in with
                  | _ :: _ => Ret (inr (data_in ++ byte_in), S polls)
                  | [] =>
                      receive_loop fuel' com rec_timeout count (S i) (S j)
                        (S polls) data_in
                  end
              end
            else
              receive_loop fuel' com rec_timeout count (S i) j (S polls) data_in
        end
    end
  else Ret (inr data_in, polls).

(** [serial_receive(rec_timeout)] for an int [rec_timeout]: the pair
    [(error, data_in)] returned and the number of readings of
    [in_waiting]. *)
Definition serial_receive (fuel : nat) (com : Serial) (rec_timeout : Z)
  (i j : nat) : result (option string * option bytes * nat) :=
  if is_open com then
    rbind (receive_loop fuel com rec_timeout 0 i j 0 [])
      (fun r =>
         match r with
         | (inl msg, polls) =>
             Ret (Some (error_text "serial_receive" msg), Some [], polls)
         | (inr data_in, polls) =>
             match data_in with
             | _ :: _ => Ret (None, Some data_in, polls)
             | [] => Ret (Some "Err1: No bytes from the device", Some [], polls)
             end
         end)
  else Ret (Some "Err2: Cannot open serial port.", None, 0%nat).

End SerialIO.

(** No byte ever comes: [in_waiting] is 0, or what [read] returns is
    empty. *)
Definition silent (com : SerialIO.Serial) : Prop :=
  forall k,
    match SerialIO.in_waiting com k with
    | inl _ => False
    | inr n => n = 0%nat \/ forall j, SerialIO.read com j n = inr []
    end.

(** A port that is open, has nothing waiting at the first [quiet] readings
    of [in_waiting] and then holds [data]. *)
Definition port_with (quiet : nat) (data : bytes) : SerialIO.Serial :=
  {| SerialIO.is_open := true;
     SerialIO.in_waiting :=
       fun k => inr (if (k <? quiet)%nat then 0%nat else List.length data);
     SerialIO.read := fun _ size => inr (firstn size data);
     SerialIO.reset_buffers := fun _ => None;
     SerialIO.write := fun _ _ => None |}.

(** A port that was closed. *)
Definition closed_port : SerialIO.Serial :=
  {| SerialIO.is_open := false;
     SerialIO.in_waiting := fun _ => inl "Port is not open";
     SerialIO.read := fun _ _ => inl "Port is not open";
     SerialIO.reset_buffers := fun _ => Some "Port is not open";
     SerialIO.write := fun _ _ => Some "Port is not open" |}.

(** ** Ports and states of the further properties *)

(** What the driver sees of a port that was opened and then closed: its
    sends report no error and its receives return [None] for the data. *)
Definition lost_port : SerialPort :=
  {| open_result := None;
     send_result := fun n => fst (SerialIO.serial_send closed_port n keep_alive_cmd);
     receive_result :=
       fun _ =>
         match SerialIO.serial_receive 1001 closed_port REC_TIMEOUT 0 0 with
         | Ret (error, data_in, _) => (error, data_in)
         | _ => no_bytes
         end |}.

(** A port that cannot be opened. *)
Definition unopened (error : string) : SerialPort :=
  {| open_result := Some error;
     send_result := fun _ => None;
     receive_result :=
       fun _ => (Some "Err2: Cannot open serial port.", None) |}.

(** A port whose sends all fail with [error]. *)
Definition unwritable (error : string) : SerialPort :=
  {| open_result := None;
     send_result := fun _ => Some error;
     receive_result := fun _ => no_bytes |}.

(** A producer that orders a reading without giving parameters. *)
Definition start_empty : nat -> option uhf_params * bool :=
  fun _ => (None, true).

(** The state after a [serial_send] of [cmd] that returned [error]. *)
Definition after_send (st : state) (cmd : bytes) (error : option string) : state :=
  {| sends := S (sends st); receives := receives st; reads := reads st;
     trace := trace st ++ [Sent cmd error] |}.

(** The state after a reading of the parameters. *)
Definition after_read (st : state) : state :=
  {| sends := sends st; receives := receives st; reads := S (reads st);
     trace := trace st ++ [ParamsRead] |}.

(** The state after a command that went out and was answered with [d],
    [pause] being what the operation does between the two. *)
Definition after_answer (st : state) (msg : bytes) (pause : list event)
  (e : option string) (d : bytes) : state :=
  {| sends := S (sends st); receives := S (receives st); reads := reads st;
     trace := trace st ++ [Sent msg None] ++ pause
                ++ [Received REC_TIMEOUT e (Some d)] |}.

(** The events of [n] sends of [msg] in a row that all fail, the first
    being the [k]-th send of the port, each followed by a wait of a
    second. *)
Definition failed_sends (ser : SerialPort) (msg : bytes) (k n : nat) : list event :=
  flat_map (fun i => [Sent msg (send_result ser (k + i)); Waited 1000]) (seq 0 n).

(** ** Outcomes of the operations *)

(** What a get operation may do: return an error and no value, return no
    error and a value that is [good], or raise; it raises
    [AttributeError] when the command went out and the port returned no
    bytes object, and otherwise only what [may_raise] allows. *)
Definition get_outcome {A : Type} (ser : SerialPort) (st : state)
  (good : A -> Prop) (may_raise : exn -> Prop)
  (r : result (option string * option A)) : Prop :=
  match r with
  | Ret (None, Some v) => good v
  | Ret (Some _, None) => True
  | Ret _ => False
  | Raise ex =>
      (ex = AttributeError
       /\ send_result ser (sends st) = None
       /\ snd (receive_result ser (receives st)) = None)
      \/ may_raise ex
  | OutOfFuel => False
  end.

(** No exception, and any value. *)
Definition never (ex : exn) : Prop := False.

Definition anything {A : Type} (a : A) : Prop := True.

(** A float that is a non-negative int divided by 100. *)
Definition hundredths (q : Q) : Prop :=
  exists n, 0 <= n /\ q = Qmake n 100.

(** A float that is a 16-bit word divided by 100. *)
Definition word_hundredths (q : Q) : Prop :=
  exists w, 0 <= w < 65536 /\ q = Qmake w 100.

(** The four fields of a version are as long as the slices they were
    decoded from, at most. *)
Definition version_in_range (v : version_info) : Prop :=
  (String.length (FirmwareRev v) <= 5)%nat /\ (String.length (SDKRev v) <= 5)%nat
  /\ (String.length (SoftwareRev v) <= 5)%nat
  /\ (String.length (HardwareRev v) <= 3)%nat.

(** A region is decoded from three bytes. *)
Definition region_in_range (s : string) : Prop := (String.length s <= 3)%nat.

(** Each transmit power was read from a 16-bit word. *)
Definition tx_power_in_range (p : tx_power_info) : Prop :=
  word_hundredths (ant1power p) /\ word_hundredths (ant2power p)
  /\ word_hundredths (ant3power p) /\ word_hundredths (ant4power p).

(** The names [get_op_state] and [get_tag_report] choose from. *)
Definition op_state_names : list string :=
  ["Idle"; "CW Test"; "PRBS Test"; "ETSI Burst Test"; "Tag Read"; "Over Temp";
   "Reader_Error"; "Hard_Reset"; "SW_Mismatch"; "Bootloader"; "Not defined"].

Definition reply_reason_names : list string :=
  ["New Tag Seen"; "Tag Removed"; "Power Changed"; "GEN2 Op Completed";
   "Tag Report Timeout"; "Report Requested"; "Not defined"].

(** The fields of a tag report are within the range of the bytes they were
    read from, the two powers as signed numbers. *)
Definition tag_report_in_range (t : tag_report_info) : Prop :=
  In (replyReason t) reply_reason_names
  /\ -32768 <= powerRSSIRaw t < 32768
  /\ -32768 <= powerdBm t < 32768
  /\ 0 <= timestamp t < 2 ^ 32
  /\ 0 <= antenna t < 65536
  /\ 0 <= epcLength t.

(** What a set operation returns on the response [res] that came with the
    error [e]: the error of the port if there is one; otherwise an error of
    its own exactly when [res] echoes the opcode [response] with a status
    other than success. *)
Definition set_verdict (response : bytes) (e : option string) (res : bytes)
  (r : option string) : Prop :=
  (forall x, e = Some x -> r = e)
  /\ (r = None
      <-> e = None
          /\ (slice 6 8 res = UHFBytes.STATUS_SUCCESS \/ slice 4 6 res <> response)).

(** ** Commands and responses *)

(** The command of [get_event_mask]. *)
Definition get_event_mask_cmd : bytes := [xf6; x28; x00; x04; x00; x15].

(** The six-byte header of a message: framing bytes, length, opcode. *)
Definition header (length cr_opcode : Z) : bytes :=
  UHFBytes.FRAMING_BYTES ++ be_digits 2 length ++ be_digits 2 cr_opcode.

(** Zeros added to a message up to a length of [length] bytes. *)
Definition padded (length : Z) (m : bytes) : bytes :=
  m ++ repeat x00 (Z.to_nat (length - Z.of_nat (List.length m))).

(** The number is within the range of [n] bytes. *)
Definition fits (n : nat) (v : Z) : Prop := 0 <= v < 256 ^ Z.of_nat n.

(** The four powers are within the range of the words of the command. *)
Definition powers_fit (p1 p2 p3 p4 : Z) : Prop :=
  fits 2 (p1 * 100) /\ fits 2 (p2 * 100) /\ fits 2 (p3 * 100) /\ fits 2 (p4 * 100).

(** The command of [set_tx_power]. *)
Definition set_tx_power_cmd (p1 p2 p3 p4 : Z) : bytes :=
  header 12 5 ++ be_digits 2 (p1 * 100) ++ be_digits 2 (p2 * 100)
    ++ be_digits 2 (p3 * 100) ++ be_digits 2 (p4 * 100).

(** The command of [set_ant_enables]. *)
Definition set_ant_enables_cmd (a1 a2 a3 a4 : bool) : bytes :=
  header 6 14
    ++ be_digits 2 (Z.b2z a1 + 2 * Z.b2z a2 + 4 * Z.b2z a3 + 8 * Z.b2z a4).

(** The command of [set_event_mask]. *)
Definition set_event_mask_cmd (s r p t c o : bool) : bytes :=
  header 8 20
    ++ be_digits 4 (Z.b2z s + 2 * Z.b2z r + 4 * Z.b2z p + 8 * Z.b2z t
                    + 16 * Z.b2z c + 32 * Z.b2z o).

(** The GetTxPower response that carries four words. *)
Definition tx_power_response (w1 w2 w3 w4 : Z) : bytes :=
  response_frame UHFBytes.GET_TX_POWER UHFBytes.STATUS_SUCCESS
    (be_digits 2 w1 ++ be_digits 2 w2 ++ be_digits 2 w3 ++ be_digits 2 w4).

(** The GetOpParams response that carries the code [k] and the value [v]. *)
Definition op_param_response (k v : Z) : bytes :=
  response_frame UHFBytes.GET_OP_PARAMS UHFBytes.STATUS_SUCCESS
    (be_digits 2 k ++ be_digits 4 v).

(** The name of the operational parameter of code [z]. *)
Definition param_name (z : Z) : string :=
  if (1 <=? z) && (z <=? 7)
  then nth (Z.to_nat z)
         [OPParams.RESPONSE_NOT_DEFINED; OPParams.TAG_TIMEOUT;
          OPParams.TAG_POWER_CHANGE_THRESHOLD; OPParams.TAG_REPORT_TIMEOUT;
          OPParams.TRANSIENT_DETECT_TIME; OPParams.TRANSIENT_COUNT;
          OPParams.TRANSIENT_INTERVAL; OPParams.GEN2_OP_TIMEOUT]
         OPParams.RESPONSE_NOT_DEFINED
  else OPParams.RESPONSE_NOT_DEFINED.

(** ** Checks over all 16-bit values *)

(** [all_bits k f acc]: [f] holds of every number whose binary writing is
    that of [acc] followed by [k] more bits. *)
Fixpoint all_bits (k : nat) (f : Z -> bool) (acc : Z) : bool :=
  match k with
  | O => f acc
  | S k' => all_bits k' f (2 * acc) && all_bits k' f (2 * acc + 1)
  end.

(** [int_to_hex_string n] is made of four hexadecimal digits, the first two
    worth [n / 256] and the last two [n mod 256]. *)
Definition hex4_ok (n : Z) : bool :=
  match int_to_hex_string n 4 with
  | String a (String b (String c (String d EmptyString))) =>
      match hex_digit a, hex_digit b, hex_digit c, hex_digit d with
      | Some ha, Some hb, Some hc, Some hd =>
          negb (is_space a) && negb (is_space c)
          && (16 * ha + hb =? n / 256) && (16 * hc + hd =? n mod 256)
          && (ha <? 16) && (hb <? 16) && (hc <? 16) && (hd <? 16)
      | _, _, _, _ => false
      end
  | _ => false
  end.

(** [code_to_param] gives the name of the code [z], from the int and from
    the hex string. *)
Definition code_param_ok (z : Z) : bool :=
  String.eqb (code_to_param (CodeInt z)) (param_name z)
  && String.eqb (code_to_param (CodeStr (int_to_hex_string z 4))) (param_name z).

(** ** The turns of a retry loop *)

(** One turn of a retry loop, as the port decided it. *)
Inductive attempt : Type :=
| Unsent (error : string)
    (* [serial_send] returned an error *)
| Answered (error : option string) (data_in : bytes)
    (* the command went out and [serial_receive] returned bytes *)
| Unanswered (error : option string).
    (* the command went out and [serial_receive] returned [None] *)

Section Attempts.

Variable ser : SerialPort.
Variable set_response : pyobj.
Variable stop : bytes -> bool.
Variable msg : bytes.







End Attempts.



(** The turn got nothing out of the reader: the command did not go out, or
    the bytes returned are empty. *)
Definition quiet (a : attempt) : Prop :=
  match a with
  | Unsent _ => True
  | Answered _ d => d = []
  | Unanswered _ => False
  end.


(** ** The awaiting loop and the states of a turn *)



(** The responses of the examples in the comments of [get_version],
    [get_op_region], [get_op_state] (here in the state of tag reading) and
    [get_tag_report]. *)
Definition version_response : bytes :=
  response_frame UHFBytes.GET_VERSION UHFBytes.STATUS_SUCCESS
    (str_encode "1.2.0" ++ [x00] ++ str_encode "1.2.0" ++ [x00]
       ++ str_encode "2.0.0" ++ [x00] ++ str_encode "1.0" ++ [x00]).

Definition op_region_response : bytes :=
  response_frame UHFBytes.GET_OP_REGION UHFBytes.STATUS_SUCCESS
    (str_encode "FCC" ++ [x00]).

Definition op_state_response : bytes :=
  response_frame UHFBytes.GET_OP_STATE UHFBytes.STATUS_SUCCESS [x00; x00; x00; x04].

Definition tag_report_response : bytes :=
  response_frame UHFBytes.GET_TAG_REPORT UHFBytes.STATUS_SUCCESS
    [x00; x06; x06; x07; xe7; x2e; x62; xb6; x35; xce; x00; x02; x00; x14;
     x01; x11; x08; x00; x00; x00; x00; x00; x00; x00; x02; x47; x51; x00;
     x13; x00; x03; x9e; xff; x03].

(** The response to a set operation that succeeded. *)
Definition acknowledged (opcode : bytes) : option string * option bytes :=
  received (response_frame opcode UHFBytes.STATUS_SUCCESS []).

(** What a reader in good health answers in a turn that sets the parameters
    [fcc_params], reads them back and reads a tag. *)
Definition healthy_session : list (option string * option bytes) :=
  [received keep_alive_reply;
   acknowledged UHFBytes.SET_OP_STATE; acknowledged UHFBytes.SET_OP_REGION;
   acknowledged UHFBytes.SET_TX_POWER; acknowledged UHFBytes.SET_ANT_ENABLES;
   received version_response; received temp_response;
   received op_region_response;
   received (tx_power_response 3000 3000 3000 3000);
   received (ant_enables_response 3);
   received keep_alive_reply; received keep_alive_reply;
   acknowledged UHFBytes.SET_OP_STATE; received op_state_response;
   received tag_report_response; acknowledged UHFBytes.SET_OP_STATE].

(** * Properties *)

(** ** Temperature *)

(** C5, as amended: when the request goes out and the port returns
    [F6 28 00 08 80 13 00 00 10 64] without error, [get_temp] returns no
    error and the temperature 4196 / 100, which is 41.96. *)
Theorem get_temp_example (ser : SerialPort) (st : state) :
  send_result ser (sends st) = None ->
  receive_result ser (receives st) = (None, Some temp_response) ->
  int_from_bytes [x10; x64] = 4196 /\
  exists t, fst (get_temp ser st) = Ret (None, Some t) /\
            t = Qmake 4196 100 /\ Qeq t (Qmake 4196 100) /\ Qeq t 41.96%Q.
Proof.
  intros Hs Hr. split; [reflexivity|].
  exists (Qmake 4196 100).
  split; [|repeat split; reflexivity].
  unfold get_temp, request, send_cmd, serial_send, wait_ms, emit,
    wait_for_response_short, serial_receive, bind, lift, ret.
  simpl. rewrite Hs. simpl. rewrite Hr. reflexivity.
Qed.

Lemma get_temp_example_witness :
  int_from_bytes [x10; x64] = 4196 /\
  exists t, fst (get_temp (scripted [received temp_response]) initial_state)
            = Ret (None, Some t) /\
            t = Qmake 4196 100 /\ Qeq t (Qmake 4196 100) /\ Qeq t 41.96%Q.
Proof.
  apply (get_temp_example (scripted [received temp_response]) initial_state);
    reflexivity.
Defined.

(** C5, as stated, fails: the temperature parsed from
    [F6 28 00 08 80 13 00 00 10 64] is not 42.12. *)
Lemma get_temp_example_is_not_42_12 :
  exists t, fst (get_temp (scripted [received temp_response]) initial_state)
            = Ret (None, Some t) /\
            ~ Qeq t 42.12%Q.
Proof.
  exists (Qmake 4196 100). split; [reflexivity|].
  unfold Qeq. simpl. discriminate.
Qed.

(** ** Flags *)

(** C9: for every value 0 or 1 of the six event flags, [create_event_mask]
    packs them into an integer whose bit [i], read with [bit_status], is
    the i-th flag in the declared order, and [get_event_mask] reads the
    same flags back from a response carrying that integer; likewise for
    the four antenna flags, the bit vector of [set_ant_enables] and
    [get_ant_enables]. *)
Theorem flags_round_trip :
  (forall s r p t c o : bool,
      exists m,
        create_event_mask (Z.b2z s) (Z.b2z r) (Z.b2z p) (Z.b2z t) (Z.b2z c) (Z.b2z o)
        = Ret m
        /\ bit_status m Events.TAG_SEEN = s
        /\ bit_status m Events.TAG_REMOVED = r
        /\ bit_status m Events.TAG_POWER_CHANGE = p
        /\ bit_status m Events.TAG_REPORT_TIMEOUT = t
        /\ bit_status m Events.GEN2_OP_COMPLETED = c
        /\ bit_status m Events.GEN2_OP_TIMEOUT = o
        /\ fst (get_event_mask (scripted [received (event_mask_response m)])
                  initial_state)
           = Ret (None,
                  Some {| tag_seen := s; tag_removed := r; tag_power_change := p;
                          tag_report_timeout := t; gen2_op_completed := c;
                          gen2_op_timeout := o |}))
  /\ (forall a1 a2 a3 a4 : bool,
         exists v,
           ant_enables_vector (Z.b2z a1) (Z.b2z a2) (Z.b2z a3) (Z.b2z a4) = Ret v
           /\ bit_status v 0 = a1
           /\ bit_status v 1 = a2
           /\ bit_status v 2 = a3
           /\ bit_status v 3 = a4
           /\ fst (get_ant_enables (scripted [received (ant_enables_response v)])
                     initial_state)
              = Ret (None,
                     Some {| ant1enables := a1; ant2enables := a2;
                             ant3enables := a3; ant4enables := a4 |})).
Proof.
  split.
  - intros s r p t c o.
    destruct s, r, p, t, c, o;
      (eexists; split; [vm_compute; reflexivity | repeat split; vm_compute; reflexivity]).
  - intros a1 a2 a3 a4.
    destruct a1, a2, a3, a4;
      (eexists; split; [vm_compute; reflexivity | repeat split; vm_compute; reflexivity]).
Qed.

(** ** The check of the set operations *)

(** C2 at a failing input: the port returns a stray keep-alive reply
    [F6 28 00 06 80 01 00 00], whose status is success and whose opcode is
    not the one awaited.  [set_tx_power], [set_ant_enables], [set_op_state],
    [set_operational_param] and [set_event_mask] return no error;
    [set_op_region], whose test is written the other way round, returns
    one.  A reply of a foreign opcode that reports an internal error is
    accepted as well. *)
Theorem set_operations_accept_foreign_opcode (fuel : nat) :
  let ser := scripted [received keep_alive_reply] in
  fst (set_tx_power ser fuel 30 30 30 30 initial_state) = Ret None
  /\ fst (set_ant_enables ser fuel 1 1 0 0 initial_state) = Ret None
  /\ fst (set_op_state ser fuel UHFOperatingState.IDLE initial_state) = Ret None
  /\ fst (set_operational_param ser fuel OPParams.TAG_REPORT_TIMEOUT_CODE 50000
            initial_state) = Ret None
  /\ fst (set_event_mask ser fuel 1 1 1 1 1 1 initial_state) = Ret None
  /\ fst (set_op_region ser "FCC" initial_state)
     = Ret (Some "Unable to set operating region")
  /\ fst (set_tx_power
            (scripted [received (response_frame UHFBytes.KEEP_ALIVE
                                   UHFBytes.STATUS_INTERNAL_ERROR [])])
            fuel 30 30 30 30 initial_state) = Ret None.
Proof.
  repeat split; reflexivity.
Qed.

(** ** The fallback to the long wait *)

(** C3 at a failing input: nothing comes back from the reader.
    [set_op_region] returns after its single command, without one
    keep-alive probe, be the empty response reported with the error of the
    port or without; [set_tx_power] on the same port sends its command and
    then the five probes of the long wait. *)
Theorem set_op_region_has_no_long_wait :
  (exists st,
      set_op_region (scripted []) "FCC" initial_state
      = (Ret (Some "Err1: No bytes from the device"), st)
      /\ sent_cmds (trace st) = [set_op_region_fcc_cmd])
  /\ (exists st,
         set_op_region (scripted [received []]) "FCC" initial_state
         = (Ret (Some "Invalid operating region: FCC"), st)
         /\ sent_cmds (trace st) = [set_op_region_fcc_cmd])
  /\ (exists st,
         set_tx_power (scripted []) 6 30 30 30 30 initial_state
         = (Ret (Some "Err1: No bytes from the device"), st)
         /\ sent_cmds (trace st)
            = set_tx_power_30_cmd :: repeat keep_alive_cmd 5).
Proof.
  repeat split; eexists; (split; [vm_compute; reflexivity | reflexivity]).
Qed.

(** ** Get operations on an empty response *)

Ltac run_request Hs Hr :=
  unfold request, send_cmd, serial_send, wait_ms, emit,
    wait_for_response_short, serial_receive, bind, lift, ret;
  simpl; rewrite Hs; simpl; rewrite Hr; reflexivity.

(** C10: when the request goes out and the port returns the empty bytes
    object without error, [wait_for_response_short] returns [(None, b'')]
    and each of the nine get operations returns its error string and
    [None]; none raises. *)
Theorem get_operations_on_empty_response (ser : SerialPort) (st : state) :
  send_result ser (sends st) = None ->
  receive_result ser (receives st) = (None, Some []) ->
  (forall set_response,
      fst (wait_for_response_short ser set_response REC_TIMEOUT st) = Ret (None, []))
  /\ slice 6 8 [] = [] /\ slice 4 6 [] = []
  /\ fst (get_version ser st)
     = Ret (Some "Unable to get device version information", None)
  /\ fst (get_temp ser st) = Ret (Some "Unable to get temperature", None)
  /\ fst (get_op_region ser st) = Ret (Some "Unable to get operating region", None)
  /\ fst (get_tx_power ser st) = Ret (Some "Unable to get TX power", None)
  /\ fst (get_ant_enables ser st) = Ret (Some "Unable to get antenna enables!", None)
  /\ fst (get_op_state ser st) = Ret (Some "Unable to get operating state", None)
  /\ fst (get_event_mask ser st) = Ret (Some "Unable to get event mask", None)
  /\ fst (get_tag_report ser st) = Ret (Some "Unable to get a tag report", None)
  /\ (forall code msg,
         build_cmd "0006" "000B" (WByt code) = Ret msg ->
         fst (get_operational_params ser code st)
         = Ret (Some "Unable to get operational parameters", None)).
Proof.
  intros Hs Hr.
  split.
  { intros set_response.
    unfold wait_for_response_short, serial_receive, bind, lift, ret.
    rewrite Hr. destruct set_response; reflexivity. }
  split; [reflexivity|]. split; [reflexivity|].
  split; [unfold get_version; run_request Hs Hr|].
  split; [unfold get_temp; run_request Hs Hr|].
  split; [unfold get_op_region; run_request Hs Hr|].
  split; [unfold get_tx_power; run_request Hs Hr|].
  split; [unfold get_ant_enables; run_request Hs Hr|].
  split; [unfold get_op_state; run_request Hs Hr|].
  split; [unfold get_event_mask; run_request Hs Hr|].
  split; [unfold get_tag_report; run_request Hs Hr|].
  intros code msg Hb.
  unfold get_operational_params, request, send_cmd, serial_send, wait_ms, emit,
    wait_for_response_short, serial_receive, bind, lift, ret.
  rewrite Hb. simpl. rewrite Hs. simpl. rewrite Hr. reflexivity.
Qed.

Lemma get_operations_on_empty_response_witness :
  fst (get_temp (scripted [received []]) initial_state)
  = Ret (Some "Unable to get temperature", None)
  /\ fst (get_operational_params (scripted [received []])
            OPParams.TAG_REPORT_TIMEOUT_CODE initial_state)
     = Ret (Some "Unable to get operational parameters", None).
Proof.
  pose proof (get_operations_on_empty_response (scripted [received []])
                initial_state eq_refl eq_refl) as H.
  split.
  - apply H.
  - destruct H as (_ & _ & _ & _ & _ & _ & _ & _ & _ & _ & _ & H).
    apply (H OPParams.TAG_REPORT_TIMEOUT_CODE
             [xf6; x28; x00; x06; x00; x0b; x00; x03]).
    reflexivity.
Defined.

(** ** Trimming the response *)

Local Arguments Byte.eqb : simpl never.

Lemma starts_with_framing (l : bytes) :
  starts_with UHFBytes.FRAMING_BYTES l = true <-> exists r, l = xf6 :: x28 :: r.
Proof.
  unfold UHFBytes.FRAMING_BYTES. split.
  - destruct l as [|a [|b r]]; simpl; try discriminate.
    + rewrite andb_false_r. discriminate.
    + rewrite andb_true_r. intros H. apply andb_true_iff in H as [Ha Hb].
      apply Byte.byte_dec_bl in Ha, Hb. subst. now exists r.
  - intros [r ->]. reflexivity.
Qed.

Lemma starts_with_framing_app (x : byte) (f rest : bytes) :
  starts_with UHFBytes.FRAMING_BYTES (x :: f) = false ->
  starts_with UHFBytes.FRAMING_BYTES (x :: f ++ UHFBytes.FRAMING_BYTES ++ rest) = false.
Proof.
  intros H.
  destruct (starts_with UHFBytes.FRAMING_BYTES
              (x :: f ++ UHFBytes.FRAMING_BYTES ++ rest)) eqn:E; [|reflexivity].
  apply starts_with_framing in E as [r E].
  destruct f as [|y f]; simpl in E.
  - discriminate.
  - injection E as -> -> _. discriminate.
Qed.

Lemma marker_count_cons (x : byte) (f : bytes) :
  marker_count (x :: f) = 0%nat ->
  starts_with UHFBytes.FRAMING_BYTES (x :: f) = false /\ marker_count f = 0%nat.
Proof.
  unfold marker_count. cbn [occurrences].
  destruct (starts_with UHFBytes.FRAMING_BYTES (x :: f)); [discriminate|].
  intros H. split; [reflexivity|exact H].
Qed.

Lemma split_no_marker (f : bytes) :
  marker_count f = 0%nat ->
  forall cur, split_from UHFBytes.FRAMING_BYTES 0 cur f = [rev cur ++ f].
Proof.
  induction f as [|x f IH]; intros H cur.
  - simpl. now rewrite app_nil_r.
  - apply marker_count_cons in H as [Hs Hf].
    cbn [split_from]. rewrite Hs, (IH Hf). simpl. now rewrite <- app_assoc.
Qed.

Lemma split_at_marker (f : bytes) :
  marker_count f = 0%nat ->
  forall cur rest,
    split_from UHFBytes.FRAMING_BYTES 0 cur (f ++ UHFBytes.FRAMING_BYTES ++ rest)
    = (rev cur ++ f) :: split_from UHFBytes.FRAMING_BYTES 0 [] rest.
Proof.
  induction f as [|x f IH]; intros H cur rest.
  - simpl. now rewrite app_nil_r.
  - apply marker_count_cons in H as [Hs Hf].
    change ((x :: f) ++ UHFBytes.FRAMING_BYTES ++ rest)
      with (x :: f ++ UHFBytes.FRAMING_BYTES ++ rest).
    cbn [split_from]. rewrite (starts_with_framing_app x f rest Hs), (IH Hf).
    simpl. now rewrite <- app_assoc.
Qed.

Lemma marker_decompose (l : bytes) :
  (1 <= marker_count l)%nat ->
  exists f rest,
    l = f ++ UHFBytes.FRAMING_BYTES ++ rest
    /\ marker_count f = 0%nat
    /\ marker_count l = S (marker_count rest).
Proof.
  induction l as [|x l IH]; intros H.
  - unfold marker_count in H. simpl in H. lia.
  - destruct (starts_with UHFBytes.FRAMING_BYTES (x :: l)) eqn:E.
    + apply starts_with_framing in E as [r E]. injection E as -> ->.
      exists [], r. repeat split.
    + unfold marker_count in *. cbn [occurrences] in H |- *. rewrite E in H |- *.
      destruct (IH H) as (f & rest & -> & Hf & Hc).
      exists (x :: f), rest. repeat split.
      * cbn [occurrences].
        destruct (starts_with UHFBytes.FRAMING_BYTES (x :: f)) eqn:E'; [|exact Hf].
        apply starts_with_framing in E' as [r E'].
        destruct f as [|y f]; [discriminate|].
        injection E' as -> -> _. discriminate.
      * exact Hc.
Qed.

Lemma cut_whole_frame (body : bytes) :
  int_from_bytes (slice 0 2 body) = Z.of_nat (List.length body) ->
  cut_to_length (UHFBytes.FRAMING_BYTES ++ body) = UHFBytes.FRAMING_BYTES ++ body.
Proof.
  intros H. unfold cut_to_length.
  change (slice 2 4 (UHFBytes.FRAMING_BYTES ++ body)) with (slice 0 2 body).
  rewrite H. apply firstn_all2. simpl. lia.
Qed.

Lemma trim_response_few (set_response : pyobj) (res : bytes) :
  (marker_count res <= 1)%nat ->
  trim_response set_response res = cut_to_length res.
Proof.
  intros H. unfold trim_response, bytes_split.
  destruct (marker_count res) as [|n] eqn:E.
  - rewrite (split_no_marker res E). reflexivity.
  - destruct (marker_decompose res) as (f & rest & -> & Hf & Hc); [lia|].
    rewrite (split_at_marker f Hf), split_no_marker by lia. reflexivity.
Qed.

Lemma trim_response_many (set_response : pyobj) (res : bytes) :
  (2 <= marker_count res)%nat ->
  exists f0 f1 f2 rest,
    res = f0 ++ UHFBytes.FRAMING_BYTES ++ f1 ++ UHFBytes.FRAMING_BYTES ++ f2 ++ rest
    /\ marker_count f0 = 0%nat /\ marker_count f1 = 0%nat /\ marker_count f2 = 0%nat
    /\ (rest = [] \/ starts_with UHFBytes.FRAMING_BYTES rest = true)
    /\ trim_response set_response res
       = cut_to_length
           (if py_eq (slice 4 6 (UHFBytes.FRAMING_BYTES ++ f2)) set_response
            then UHFBytes.FRAMING_BYTES ++ f2
            else UHFBytes.FRAMING_BYTES ++ f1).
Proof.
  intros H.
  destruct (marker_decompose res) as (f0 & r1 & -> & Hf0 & Hc0); [lia|].
  destruct (marker_decompose r1) as (f1 & r2 & -> & Hf1 & Hc1); [lia|].
  assert (Hsplit : exists f2 rest tl,
             r2 = f2 ++ rest /\ marker_count f2 = 0%nat
             /\ (rest = [] \/ starts_with UHFBytes.FRAMING_BYTES rest = true)
             /\ split_from UHFBytes.FRAMING_BYTES 0 [] r2 = f2 :: tl).
  { destruct (marker_count r2) as [|n] eqn:E.
    - exists r2, [], []. rewrite app_nil_r. repeat split; auto.
      now rewrite (split_no_marker r2 E).
    - destruct (marker_decompose r2) as (f2 & r3 & -> & Hf2 & _); [lia|].
      exists f2, (UHFBytes.FRAMING_BYTES ++ r3),
        (split_from UHFBytes.FRAMING_BYTES 0 [] r3).
      repeat split; auto.
      now rewrite (split_at_marker f2 Hf2). }
  destruct Hsplit as (f2 & rest & tl & -> & Hf2 & Hrest & Hs).
  exists f0, f1, f2, rest. repeat split; auto.
  unfold trim_response, bytes_split.
  rewrite (split_at_marker f0 Hf0), (split_at_marker f1 Hf1), Hs.
  reflexivity.
Qed.

Lemma marker_count_app (f rest : bytes) :
  marker_count f = 0%nat ->
  marker_count (f ++ UHFBytes.FRAMING_BYTES ++ rest) = S (marker_count rest).
Proof.
  induction f as [|x f IH]; intros H.
  - reflexivity.
  - apply marker_count_cons in H as [Hs Hf].
    change ((x :: f) ++ UHFBytes.FRAMING_BYTES ++ rest)
      with (x :: f ++ UHFBytes.FRAMING_BYTES ++ rest).
    unfold marker_count in *. cbn [occurrences].
    rewrite (starts_with_framing_app x f rest Hs). exact (IH Hf).
Qed.

Lemma split_length (n : nat) :
  forall l cur,
    marker_count l = n ->
    List.length (split_from UHFBytes.FRAMING_BYTES 0 cur l) = S n.
Proof.
  induction n as [|n IH]; intros l cur H.
  - now rewrite (split_no_marker l H).
  - destruct (marker_decompose l) as (f & rest & -> & Hf & Hc); [lia|].
    rewrite (split_at_marker f Hf). simpl. f_equal. apply IH. lia.
Qed.

Lemma trim_response_two_frames (set_response : pyobj) (stray target : bytes) :
  marker_count stray = 0%nat ->
  marker_count target = 0%nat ->
  py_eq (slice 4 6 (UHFBytes.FRAMING_BYTES ++ target)) set_response = true ->
  trim_response set_response
    ((UHFBytes.FRAMING_BYTES ++ stray) ++ (UHFBytes.FRAMING_BYTES ++ target))
  = cut_to_length (UHFBytes.FRAMING_BYTES ++ target).
Proof.
  intros Hs Ht He. unfold trim_response, bytes_split.
  rewrite <- app_assoc.
  change (UHFBytes.FRAMING_BYTES ++ stray ++ UHFBytes.FRAMING_BYTES ++ target)
    with ([] ++ UHFBytes.FRAMING_BYTES ++ stray ++ UHFBytes.FRAMING_BYTES ++ target).
  rewrite (split_at_marker [] eq_refl [] (stray ++ UHFBytes.FRAMING_BYTES ++ target)).
  rewrite (split_at_marker stray Hs), (split_no_marker target Ht).
  cbn [List.length Nat.ltb Nat.leb nth rev app].
  rewrite He. reflexivity.
Qed.

(** C1, as amended: the bytes returned by the port are split on the
    framing bytes.  With at most one occurrence of them the buffer is
    taken as received.  With two or more, the buffer is
    [f0 F628 f1 F628 f2 rest] with no framing bytes inside [f0], [f1], [f2]
    and [rest] empty or starting with them; the frame [F628 f2] is taken
    when its bytes 4-5 equal the expected opcode, the frame [F628 f1]
    otherwise.  The frame taken is cut to the length of its bytes 2-3
    plus 2.  In particular, when the buffer is a stray frame followed by a
    frame of the expected opcode whose length field is right, and neither
    holds the framing bytes after its own, that second frame is
    returned. *)
Theorem wait_for_response_short_trims (ser : SerialPort) (st : state)
  (set_response : pyobj) (rec_timeout : Z) (error : option string) (res : bytes) :
  receive_result ser (receives st) = (error, Some res) ->
  exists selected,
    fst (wait_for_response_short ser set_response rec_timeout st)
    = Ret (error, cut_to_length selected)
    /\ ((marker_count res <= 1)%nat -> selected = res)
    /\ ((2 <= marker_count res)%nat ->
        (2 < List.length (bytes_split res UHFBytes.FRAMING_BYTES))%nat
        /\ exists f0 f1 f2 rest,
            res = f0 ++ UHFBytes.FRAMING_BYTES ++ f1
                     ++ UHFBytes.FRAMING_BYTES ++ f2 ++ rest
            /\ marker_count f0 = 0%nat /\ marker_count f1 = 0%nat
            /\ marker_count f2 = 0%nat
            /\ (rest = [] \/ starts_with UHFBytes.FRAMING_BYTES rest = true)
            /\ selected
               = if py_eq (slice 4 6 (UHFBytes.FRAMING_BYTES ++ f2)) set_response
                 then UHFBytes.FRAMING_BYTES ++ f2
                 else UHFBytes.FRAMING_BYTES ++ f1)
    /\ (forall stray target : bytes,
           res = (UHFBytes.FRAMING_BYTES ++ stray) ++ (UHFBytes.FRAMING_BYTES ++ target) ->
           marker_count stray = 0%nat ->
           marker_count target = 0%nat ->
           py_eq (slice 4 6 (UHFBytes.FRAMING_BYTES ++ target)) set_response = true ->
           int_from_bytes (slice 0 2 target) = Z.of_nat (List.length target) ->
           cut_to_length selected = UHFBytes.FRAMING_BYTES ++ target).
Proof.
  intros Hr.
  assert (Hsel : exists selected,
             trim_response set_response res = cut_to_length selected
             /\ ((marker_count res <= 1)%nat -> selected = res)
             /\ ((2 <= marker_count res)%nat ->
                 (2 < List.length (bytes_split res UHFBytes.FRAMING_BYTES))%nat
                 /\ exists f0 f1 f2 rest,
                     res = f0 ++ UHFBytes.FRAMING_BYTES ++ f1
                              ++ UHFBytes.FRAMING_BYTES ++ f2 ++ rest
                     /\ marker_count f0 = 0%nat /\ marker_count f1 = 0%nat
                     /\ marker_count f2 = 0%nat
                     /\ (rest = [] \/ starts_with UHFBytes.FRAMING_BYTES rest = true)
                     /\ selected
                        = if py_eq (slice 4 6 (UHFBytes.FRAMING_BYTES ++ f2)) set_response
                          then UHFBytes.FRAMING_BYTES ++ f2
                          else UHFBytes.FRAMING_BYTES ++ f1)).
  { destruct (le_lt_dec (marker_count res) 1) as [Hle|Hgt].
    - exists res. split; [now apply trim_response_few|].
      split; [reflexivity|]. intros H. lia.
    - destruct (trim_response_many set_response res)
        as (f0 & f1 & f2 & rest & E & H0 & H1 & H2 & Hrest & Ht); [lia|].
      eexists. split; [exact Ht|].
      split; [intros H; lia|].
      intros _. split.
      + unfold bytes_split. rewrite (split_length (marker_count res) res [] eq_refl). lia.
      + exists f0, f1, f2, rest. repeat split; auto. }
  destruct Hsel as (selected & Ht & Hfew & Hmany).
  exists selected. split; [|split; [exact Hfew|split; [exact Hmany|]]].
  - unfold wait_for_response_short, serial_receive, bind, lift, ret.
    rewrite Hr. simpl. now rewrite Ht.
  - intros stray target -> Hs Htg He Hlen.
    rewrite <- Ht, (trim_response_two_frames set_response stray target Hs Htg He).
    now apply cut_whole_frame.
Qed.

Lemma wait_for_response_short_trims_witness :
  fst (wait_for_response_short
         (scripted [received (keep_alive_reply ++ temp_response)])
         (PyBytes UHFBytes.GET_TEMP) REC_TIMEOUT initial_state)
  = Ret (None, temp_response).
Proof.
  destruct (wait_for_response_short_trims
              (scripted [received (keep_alive_reply ++ temp_response)])
              initial_state (PyBytes UHFBytes.GET_TEMP) REC_TIMEOUT
              None (keep_alive_reply ++ temp_response) eq_refl)
    as (selected & Hrun & _ & _ & Htwo).
  rewrite Hrun. f_equal. f_equal.
  apply (Htwo [x00; x06; x80; x01; x00; x00]
           [x00; x08; x80; x13; x00; x00; x10; x64]); reflexivity.
Defined.

(** C1, as stated, fails: a stray keep-alive reply is followed by the
    response [F6 28 00 0C 80 0B 00 00 00 01 00 00 F6 28] to
    GetOperationalParams, a well-formed frame of the expected opcode whose
    value is 63016.  The frame returned is neither of the two: it is the
    response without its last two bytes. *)
Lemma wait_for_response_short_loses_payload :
  op_param_response_63016
  = [xf6; x28; x00; x0c; x80; x0b; x00; x00; x00; x01; x00; x00; xf6; x28]
  /\ slice 4 6 op_param_response_63016 = UHFBytes.GET_OP_PARAMS
  /\ exists r,
      fst (wait_for_response_short
             (scripted [received (keep_alive_reply ++ op_param_response_63016)])
             (PyBytes UHFBytes.GET_OP_PARAMS) REC_TIMEOUT initial_state)
      = Ret (None, r)
      /\ r = [xf6; x28; x00; x0c; x80; x0b; x00; x00; x00; x01; x00; x00]
      /\ r <> op_param_response_63016.
Proof.
  split; [reflexivity|]. split; [reflexivity|].
  eexists. split; [vm_compute; reflexivity|].
  split; [reflexivity|]. vm_compute. discriminate.
Qed.

(** ** Loops *)

(** A rule for [while_]: [I] holds of the loop variables and the state
    before every test, [measure] decreases at every turn that does not
    leave the loop, and [Q] holds of the outcome. *)
Lemma while_rule {S : Type} (cond : S -> bool) (body : S -> M (S * bool))
  (I : S -> state -> Prop) (Q : result S -> state -> Prop)
  (measure : S -> state -> nat) :
  (forall s st, I s st -> cond s = false -> Q (Ret s) st) ->
  (forall s st, I s st -> cond s = true ->
      match body s st with
      | (Ret (s', false), st') => I s' st' /\ (measure s' st' < measure s st)%nat
      | (Ret (s', true), st') => Q (Ret s') st'
      | (Raise e, st') => Q (Raise e) st'
      | (OutOfFuel, _) => False
      end) ->
  forall fuel s st,
    I s st -> (measure s st < fuel)%nat ->
    Q (fst (while_ fuel cond body s st)) (snd (while_ fuel cond body s st)).
Proof.
  intros Hexit Hbody fuel.
  induction fuel as [|fuel IH]; intros s st HI Hm; [lia|].
  cbn [while_].
  destruct (cond s) eqn:Hc.
  - specialize (Hbody s st HI Hc).
    destruct (body s st) as [[[s' [|]]|e|] st']; simpl.
    + exact Hbody.
    + destruct Hbody as [HI' Hlt]. apply IH; [exact HI'|lia].
    + exact Hbody.
    + contradiction.
  - simpl. now apply Hexit.
Qed.

Lemma pace_app (t u : list event) :
  forall ready,
    pace ready (t ++ u)
    = match pace ready t with
      | Some ready' => pace ready' u
      | None => None
      end.
Proof.
  induction t as [|ev t IH]; intros ready; [reflexivity|].
  destruct ev; simpl; try apply IH.
  destruct ready; [apply IH|reflexivity].
Qed.

Lemma sent_cmds_app (t u : list event) :
  sent_cmds (t ++ u) = sent_cmds t ++ sent_cmds u.
Proof.
  induction t as [|ev t IH]; [reflexivity|].
  destruct ev; simpl; now rewrite ?IH.
Qed.

Lemma in_removelast {A : Type} (l : list A) (x : A) :
  In x (removelast l) -> In x l.
Proof.
  induction l as [|a l IH]; [contradiction|].
  destruct l as [|b l]; [contradiction|].
  intros [<-|H]; [now left|right; now apply IH].
Qed.

Section RetryLoopFacts.

Variable ser : SerialPort.
Variable set_response : pyobj.
Variable stop : bytes -> bool.
Variable bound : Z.
Variable msg : bytes.

Lemma retry_body_spec (count : Z) (error res : _) (st : state) :
  match (retry_body ser set_response stop msg) (count, error, res) st with
  | (Ret ((count', error', res'), brk), st') =>
      count' = count + 1
      /\ reads st' = reads st
      /\ exists c rest,
          trace st' = trace st ++ Sent msg c :: rest
          /\ sent_cmds rest = []
          /\ Forall (port_event ser) (Sent msg c :: rest)
          /\ ((exists e, c = Some e /\ rest = [Waited 1000]
                         /\ error' = Some e /\ res' = res /\ brk = false)
              \/ (exists e d,
                     c = None
                     /\ error' = e /\ res' = Some (trim_response set_response d)
                     /\ ((stop (trim_response set_response d) = true /\ brk = true
                          /\ rest = [Received REC_TIMEOUT e (Some d)])
                         \/ (stop (trim_response set_response d) = false
                             /\ brk = false
                             /\ rest = [Received REC_TIMEOUT e (Some d);
                                        Waited 1000]))))
  | (Raise ex, st') =>
      ex = AttributeError
      /\ reads st' = reads st
      /\ exists e, trace st' = trace st ++ [Sent msg None; Received REC_TIMEOUT e None]
                   /\ (port_event ser) (Received REC_TIMEOUT e None)
  | (OutOfFuel, _) => False
  end.
Proof.
  unfold retry_body, send_cmd, serial_send, wait_for_response_short,
    serial_receive, wait_ms, emit, bind, lift, ret.
  simpl.
  destruct (send_result ser (sends st)) as [e|] eqn:Hs; simpl.
  - split; [reflexivity|]. split; [reflexivity|].
    exists (Some e), [Waited 1000]. split; [now rewrite <- app_assoc|].
    split; [reflexivity|]. split; [repeat constructor|].
    left. exists e. repeat split.
  - destruct (receive_result ser (receives st)) as [e [d|]] eqn:Hr; simpl.
    + destruct (stop (trim_response set_response d)) eqn:Hstop; simpl.
      * split; [reflexivity|]. split; [reflexivity|].
        exists None, [Received REC_TIMEOUT e (Some d)].
        split; [now rewrite <- app_assoc|]. split; [reflexivity|].
        split; [repeat constructor; now exists (receives st)|].
        right. exists e, d. repeat split. left. repeat split. exact Hstop.
      * split; [reflexivity|]. split; [reflexivity|].
        exists None, [Received REC_TIMEOUT e (Some d); Waited 1000].
        split; [now rewrite <- !app_assoc|]. split; [reflexivity|].
        split; [repeat constructor; now exists (receives st)|].
        right. exists e, d. repeat split. right. repeat split. exact Hstop.
    + split; [reflexivity|]. split; [reflexivity|]. exists e.
      split; [now rewrite <- app_assoc|]. now exists (receives st).
Qed.

Lemma command_first_app (t u : list event) (c : option string) :
  command_first msg t -> command_first msg (t ++ Sent msg c :: u).
Proof.
  destruct t as [|ev t]; simpl; [now exists c|trivial].
Qed.

Lemma in_extension (P : event -> Prop) (t u : list event) :
  (forall ev, In ev t -> P ev) ->
  Forall P u ->
  forall ev, In ev (t ++ u) -> P ev.
Proof.
  intros Ht Hu ev Hin. apply in_app_or in Hin as [Hin|Hin]; [now apply Ht|].
  rewrite Forall_forall in Hu. now apply Hu.
Qed.

Lemma retry_loop_spec (fuel : nat) (st : state) :
  0 <= bound ->
  (Z.to_nat bound < fuel)%nat ->
  retry_post ser set_response stop bound msg st
    (fst (while_ fuel (retry_cond bound) (retry_body ser set_response stop msg) (0, None, None) st))
    (snd (while_ fuel (retry_cond bound) (retry_body ser set_response stop msg) (0, None, None) st)).
Proof.
  intros Hb Hfuel.
  apply (while_rule (retry_cond bound) (retry_body ser set_response stop msg) (retry_inv ser set_response stop bound msg st) (retry_post ser set_response stop bound msg st)
           (fun '(count, _, _) _ => Z.to_nat (bound - count))).
  - (* the test fails *)
    intros [[count error] res] st' (t & n & Ht & Hreads & Hn & Hle & Hsent & Hp
                                     & Hport & Hfirst & Hno & Hlast & Hres & Hsome) Hc.
    simpl in Hc. apply Z.ltb_ge in Hc.
    exists t, n.
    split; [exact Ht|]. split; [exact Hreads|]. split; [exact Hsent|].
    split; [lia|]. split; [lia|].
    split; [unfold paced; now rewrite Hp|].
    split; [exact Hport|]. split; [exact Hfirst|].
    split; [intros ev Hin; apply Hno; now apply in_removelast|].
    split; [exact Hlast|].
    split; [intros ev Hin; now apply Hno|].
    split; [intros Hpos; apply Hsome; lia|].
    intros _. split; [lia|exact Hres].
  - (* one turn *)
    intros [[count error] res] st' (t & n & Ht & Hreads & Hn & Hle & Hsent & Hp
                                     & Hport & Hfirst & Hno & Hlast & Hres & Hsome) Hc.
    simpl in Hc. apply Z.ltb_lt in Hc.
    pose proof (retry_body_spec count error res st') as Hbody.
    destruct ((retry_body ser set_response stop msg) (count, error, res) st')
      as [[[[[count' error'] res'] brk]|ex|] st''];
      [|destruct Hbody as (-> & Hreads' & e & Ht' & Hfrom)|contradiction].
    + destruct Hbody as (-> & Hreads' & c & rest & Ht' & Hrest & Hu & Hcases).
      assert (Htrace : trace st'' = trace st ++ t ++ Sent msg c :: rest)
        by (now rewrite Ht', Ht, <- app_assoc).
      assert (Hsent' : sent_cmds (t ++ Sent msg c :: rest) = repeat msg (S n)).
      { rewrite sent_cmds_app, Hsent. simpl. rewrite Hrest.
        now rewrite <- repeat_cons. }
      assert (Hport' : Forall (port_event ser) (t ++ Sent msg c :: rest))
        by (apply Forall_app; now split).
      assert (Hfirst' : command_first msg (t ++ Sent msg c :: rest))
        by now apply command_first_app.
      assert (Hreads'' : reads st'' = reads st) by congruence.
      destruct Hcases as [(e & -> & -> & -> & -> & ->)
                         |(e & d & -> & -> & -> & Hcase)].
      * (* the command did not go out *)
        split; [|simpl; lia].
        exists (t ++ [Sent msg (Some e); Waited 1000]), (S n).
        split; [exact Htrace|]. split; [exact Hreads''|].
        split; [lia|]. split; [lia|]. split; [exact Hsent'|].
        split; [rewrite pace_app, Hp; reflexivity|].
        split; [exact Hport'|]. split; [exact Hfirst'|].
        split; [apply in_extension; [exact Hno|repeat constructor]|].
        split; [unfold last_seen in *; rewrite fold_left_app, Hlast; reflexivity|].
        split; [exact Hres|].
        intros _ H. discriminate.
      * destruct Hcase as [(Hstop & -> & ->)|(Hstop & -> & ->)].
        -- (* a response that ends the loop *)
           assert (Hbefore : forall ev,
                      In ev (removelast (t ++ [Sent msg None;
                                               Received REC_TIMEOUT e (Some d)])) ->
                      stops set_response stop ev = false /\ no_data ev = false).
           { change [Sent msg None; Received REC_TIMEOUT e (Some d)]
               with ([Sent msg None] ++ [Received REC_TIMEOUT e (Some d)]).
             rewrite app_assoc, removelast_last.
             apply in_extension; [exact Hno|repeat constructor]. }
           exists (t ++ [Sent msg None; Received REC_TIMEOUT e (Some d)]), (S n).
           split; [exact Htrace|]. split; [exact Hreads''|].
           split; [exact Hsent'|]. split; [lia|]. split; [lia|].
           split; [unfold paced; rewrite pace_app, Hp; reflexivity|].
           split; [exact Hport'|]. split; [exact Hfirst'|].
           split; [exact Hbefore|].
           split; [unfold last_seen in *; rewrite fold_left_app, Hlast; reflexivity|].
           split; [apply in_extension;
                   [intros ev Hin; now apply Hno|repeat constructor]|].
           split; [intros _ _ H; discriminate|].
           intros Hnone. exfalso.
           assert (Hs : stops set_response stop (Received REC_TIMEOUT e (Some d)) = false).
           { apply Hnone. apply in_or_app. right. simpl. auto. }
           simpl in Hs. congruence.
        -- (* a response that does not *)
           split; [|simpl; lia].
           exists (t ++ [Sent msg None; Received REC_TIMEOUT e (Some d); Waited 1000]),
             (S n).
           split; [exact Htrace|]. split; [exact Hreads''|].
           split; [lia|]. split; [lia|]. split; [exact Hsent'|].
           split; [rewrite pace_app, Hp; reflexivity|].
           split; [exact Hport'|]. split; [exact Hfirst'|].
           split; [apply in_extension; [exact Hno|];
                   repeat constructor; simpl; exact Hstop|].
           split; [unfold last_seen in *; rewrite fold_left_app, Hlast; reflexivity|].
           split; [intros b Hb'; injection Hb' as <-; exact Hstop|].
           intros _ _ H. discriminate.
    + (* the port returned no bytes object *)
      assert (Hbefore : forall ev,
                 In ev (removelast (t ++ [Sent msg None;
                                          Received REC_TIMEOUT e None])) ->
                 stops set_response stop ev = false /\ no_data ev = false).
      { change [Sent msg None; Received REC_TIMEOUT e None]
          with ([Sent msg None] ++ [Received REC_TIMEOUT e None]).
        rewrite app_assoc, removelast_last.
        apply in_extension; [exact Hno|repeat constructor]. }
      exists (t ++ [Sent msg None; Received REC_TIMEOUT e None]), (S n).
      split; [now rewrite Ht', Ht, <- app_assoc|]. split; [congruence|].
      split; [rewrite sent_cmds_app, Hsent; simpl; now rewrite <- repeat_cons|].
      split; [lia|]. split; [lia|].
      split; [unfold paced; rewrite pace_app, Hp; reflexivity|].
      split; [apply Forall_app; split; [exact Hport|];
              repeat constructor; exact Hfrom|].
      split; [now apply command_first_app|].
      split; [exact Hbefore|].
      split; [reflexivity|].
      change [Sent msg None; Received REC_TIMEOUT e None]
        with ([Sent msg None] ++ [Received REC_TIMEOUT e None]).
      now rewrite app_assoc, last_last.
  - (* before the first turn *)
    exists [], 0%nat.
    split; [now rewrite app_nil_r|]. split; [reflexivity|].
    split; [reflexivity|]. split; [exact Hb|]. split; [reflexivity|].
    split; [reflexivity|]. split; [constructor|]. split; [exact I|].
    split; [intros ev []|]. split; [reflexivity|].
    split; [intros b H; discriminate|]. intros H. lia.
  - simpl. lia.
Qed.

End RetryLoopFacts.

Lemma wait_for_response_long_loop (ser : SerialPort) (fuel : nat)
  (set_response : pyobj) (st : state) :
  wait_for_response_long ser fuel set_response st
  = match while_ fuel (retry_cond 5)
            (retry_body ser set_response
               (fun res => py_eq (slice 4 6 res) set_response) keep_alive_cmd)
            (0, None, None) st with
    | (Ret (_, error, res), st') => (Ret (error, res), st')
    | (Raise e, st') => (Raise e, st')
    | (OutOfFuel, st') => (OutOfFuel, st')
    end.
Proof.
  unfold wait_for_response_long, bind, lift. simpl build_cmd. cbv iota.
  fold keep_alive_cmd.
  change (fun '(count, _, _) => count <? 5) with (retry_cond 5).
  destruct (while_ _ _ _ _ _) as [[[[count error] res]|e|] st']; reflexivity.
Qed.

Lemma scripted_returns_bytes (l : list (option string * option bytes)) :
  Forall (fun o => snd o <> None) l -> returns_bytes (scripted l).
Proof.
  intros H k. simpl. revert k.
  induction H as [|o l Ho Hl IH]; intros k.
  - destruct k; discriminate.
  - destruct k; [exact Ho|apply IH].
Qed.

Lemma no_data_from_port (ser : SerialPort) (t : list event) :
  returns_bytes ser ->
  Forall (port_event ser) t ->
  no_data (last t (Waited 0)) = true ->
  False.
Proof.
  intros Hb Hport Hlast.
  destruct t as [|ev t] using rev_ind; [discriminate|].
  rewrite last_last in Hlast.
  apply Forall_app in Hport as [_ Hport].
  apply Forall_inv in Hport.
  destruct ev as [| | ? ? [d|] | | | | |]; try discriminate.
  destruct Hport as [k Hk]. apply (Hb k). now rewrite Hk.
Qed.




Section AttemptsFacts.

Variable ser : SerialPort.
Variable set_response : pyobj.
Variable stop : bytes -> bool.
Variable bound : Z.
Variable msg : bytes.


End AttemptsFacts.







Lemma int_from_bytes_nonneg (l : bytes) : 0 <= int_from_bytes l.
Proof.
  unfold int_from_bytes.
  assert (H : forall acc, 0 <= acc ->
                          0 <= fold_left (fun acc b => acc * 256 + byte_val b) l acc).
  { induction l as [|b l IH]; intros acc Hacc; [exact Hacc|].
    simpl. apply IH. unfold byte_val.
    pose proof (N2Z.is_nonneg (Byte.to_N b)). lia. }
  apply H. lia.
Qed.

Lemma cut_nonempty (x : byte) (l : bytes) :
  firstn (Z.to_nat (int_from_bytes (slice 2 4 (x :: l)) + UHFBytes.FRAMING_BYTES_LEN))
    (x :: l) <> [].
Proof.
  pose proof (int_from_bytes_nonneg (slice 2 4 (x :: l))) as H.
  unfold UHFBytes.FRAMING_BYTES_LEN.
  destruct (Z.to_nat (int_from_bytes (slice 2 4 (x :: l)) + 2)) eqn:E; [lia|].
  discriminate.
Qed.

Lemma trim_response_empty (set_response : pyobj) (d : bytes) :
  bytes_eqb (trim_response set_response d) [] = true <-> d = [].
Proof.
  split.
  - intros H. destruct d as [|x d]; [reflexivity|]. exfalso.
    unfold trim_response in H.
    destruct (2 <? List.length (bytes_split (x :: d) UHFBytes.FRAMING_BYTES))%nat.
    + destruct (py_eq _ set_response);
        match type of H with
        | bytes_eqb ?r [] = true =>
            destruct r eqn:E; [apply cut_nonempty in E; exact E|discriminate]
        end.
    + match type of H with
      | bytes_eqb ?r [] = true =>
          destruct r eqn:E; [apply cut_nonempty in E; exact E|discriminate]
      end.
  - intros ->. destruct set_response; reflexivity.
Qed.


Lemma keep_alive_loop (ser : SerialPort) (fuel : nat) (st : state) :
  keep_alive ser fuel st
  = match while_ fuel (retry_cond 15)
            (retry_body ser (PyInt REC_TIMEOUT)
               (fun res => negb (bytes_eqb res [])) keep_alive_cmd)
            (0, None, None) st with
    | (Ret (_, None, Some res), st') =>
        (Ret (if success_and_opcode res UHFBytes.KEEP_ALIVE
              then (None, Some true)
              else (Some "Unable to keep UHF module alive", None)), st')
    | (Ret (_, None, None), st') => (Raise TypeError, st')
    | (Ret (_, Some e, _), st') => (Ret (Some e, None), st')
    | (Raise e, st') => (Raise e, st')
    | (OutOfFuel, st') => (OutOfFuel, st')
    end.
Proof.
  unfold keep_alive, bind, lift. simpl build_cmd. cbv iota.
  fold keep_alive_cmd.
  change (fun '(count, _, _) => count <? 15) with (retry_cond 15).
  destruct (while_ _ _ _ _ _) as [[[[count [e|]] [res|]]|e|] st']; try reflexivity.
  unfold subscript, ret.
  destruct (success_and_opcode res UHFBytes.KEEP_ALIVE); reflexivity.
Qed.







(** ** Operations that return *)

Lemma requests_app (t u : list event) :
  requests (t ++ u) = requests t ++ requests u.
Proof.
  unfold requests. now rewrite sent_cmds_app, filter_app.
Qed.

Lemma requests_probes (t : list event) (n : nat) :
  sent_cmds t = repeat keep_alive_cmd n -> requests t = [].
Proof.
  intros H. unfold requests. rewrite H. clear H.
  induction n as [|n IH]; [reflexivity|exact IH].
Qed.

Lemma requests_after_probe (e : option string) (t : list event) (n : nat) :
  sent_cmds (Sent keep_alive_cmd e :: t) = repeat keep_alive_cmd n ->
  requests t = [].
Proof.
  destruct n as [|n]; [discriminate|]. simpl. intros H. injection H as H.
  now apply requests_probes with n.
Qed.

Lemma command_first_head (msg : bytes) (t : list event) (n : nat) :
  command_first msg t ->
  sent_cmds t = repeat msg n ->
  (0 < n)%nat ->
  exists e t', t = Sent msg e :: t'.
Proof.
  intros Hfirst Hsent Hn.
  destruct t as [|ev t].
  - destruct n; [lia|discriminate].
  - destruct Hfirst as [e ->]. now exists e, t.
Qed.

Lemma wait_for_response_long_runs (ser : SerialPort) (fuel : nat) :
  (5 < fuel)%nat ->
  returns_bytes ser ->
  forall set_response st,
  exists error res st',
    runs ser (wait_for_response_long ser fuel set_response) keep_alive_cmd
      st (error, res) st'
    /\ (error = None -> res <> None).
Proof.
  intros Hfuel Hbytes set_response st. unfold runs.
  rewrite wait_for_response_long_loop.
  pose proof (retry_loop_spec ser set_response
                (fun res => py_eq (slice 4 6 res) set_response) 5 keep_alive_cmd
                fuel st) as H.
  destruct (while_ _ _ _ _ _) as [r st'].
  destruct H as (t & n & Ht & Hreads & Hsent & Hn & Hpos & Hp & Hport & Hfirst
                 & Hbefore & Hr);
    [lia|simpl; lia|].
  simpl in Ht, Hreads.
  destruct (command_first_head keep_alive_cmd t n Hfirst Hsent) as (e & t' & ->);
    [lia|].
  destruct r as [[[count error] res]|ex|]; simpl in Hr.
  - exists error, res, st'. split; [|apply Hr; lia].
    split; [reflexivity|]. split; [exact Hreads|].
    exists e, t'. split; [exact Ht|].
    split; [now apply Forall_inv_tail in Hport|].
    now apply requests_after_probe with e n.
  - destruct Hr as [_ Hr]. exfalso.
    exact (no_data_from_port ser _ Hbytes Hport Hr).
  - contradiction.
Qed.

Lemma keep_alive_runs (ser : SerialPort) (fuel : nat) :
  (15 < fuel)%nat ->
  returns_bytes ser ->
  forall st,
  exists error alive st',
    runs ser (keep_alive ser fuel) keep_alive_cmd st (error, alive) st'.
Proof.
  intros Hfuel Hbytes st. unfold runs.
  rewrite keep_alive_loop.
  pose proof (retry_loop_spec ser (PyInt REC_TIMEOUT)
                (fun res => negb (bytes_eqb res [])) 15 keep_alive_cmd
                fuel st) as H.
  destruct (while_ _ _ _ _ _) as [r st'].
  destruct H as (t & n & Ht & Hreads & Hsent & Hn & Hpos & Hp & Hport & Hfirst
                 & Hbefore & Hr);
    [lia|simpl; lia|].
  simpl in Ht, Hreads.
  destruct (command_first_head keep_alive_cmd t n Hfirst Hsent) as (e & t' & ->);
    [lia|].
  assert (Htail : exists e0 t0, trace st' = trace st ++ Sent keep_alive_cmd e0 :: t0
                                /\ Forall (port_event ser) t0
                                /\ requests t0 = []).
  { exists e, t'. split; [exact Ht|].
    split; [now apply Forall_inv_tail in Hport|].
    now apply requests_after_probe with e n. }
  destruct r as [[[count [err|]] [res|]]|ex|]; simpl in Hr.
  - now exists (Some err), None, st'.
  - now exists (Some err), None, st'.
  - destruct (success_and_opcode res UHFBytes.KEEP_ALIVE);
      eexists _, _, st'; (split; [reflexivity|split; [exact Hreads|exact Htail]]).
  - exfalso. destruct Hr as (_ & _ & Hsome & _).
    apply Hsome; [lia|reflexivity|reflexivity].
  - destruct Hr as [_ Hr]. exfalso.
    exact (no_data_from_port ser _ Hbytes Hport Hr).
  - contradiction.
Qed.

Lemma request_runs (ser : SerialPort) :
  returns_bytes ser ->
  forall msg response st,
  exists error res st',
    runs ser (request ser msg response) msg st (error, res) st'
    /\ (error = None ->
        exists k d,
          receive_result ser k = (None, Some d)
          /\ res = Some (trim_response (PyBytes response) d)).
Proof.
  intros Hbytes msg response st.
  unfold runs, request, send_cmd, serial_send, wait_for_response_short,
    serial_receive, wait_ms, emit, bind, lift, ret.
  simpl.
  destruct (send_result ser (sends st)) as [e|] eqn:Hs; simpl.
  - exists (Some e), None. eexists. split; [|discriminate].
    split; [reflexivity|]. split; [reflexivity|].
    exists (Some e), []. split; [reflexivity|]. split; [constructor|reflexivity].
  - destruct (receive_result ser (receives st)) as [e [d|]] eqn:Hr; simpl.
    + exists e, (Some (trim_response (PyBytes response) d)). eexists. split.
      * split; [reflexivity|]. split; [reflexivity|].
        exists None, [Waited 500; Received REC_TIMEOUT e (Some d)]. simpl.
        split; [now rewrite <- !app_assoc|]. split; [|reflexivity].
        repeat constructor. now exists (receives st).
      * intros ->. now exists (receives st), d.
    + exfalso. apply (Hbytes (receives st)). now rewrite Hr.
Qed.

Lemma request_set_runs (ser : SerialPort) (fuel : nat) :
  (5 < fuel)%nat ->
  returns_bytes ser ->
  forall msg response st,
  exists error res st',
    runs ser (request_set ser fuel msg response) msg st (error, res) st'
    /\ (error = None -> res <> None).
Proof.
  intros Hfuel Hbytes msg response st.
  unfold runs, request_set, send_cmd, serial_send, wait_for_response_short,
    serial_receive, wait_ms, emit, bind, lift, ret.
  simpl.
  destruct (send_result ser (sends st)) as [e|] eqn:Hs; simpl.
  - exists (Some e), None. eexists. split; [|discriminate].
    split; [reflexivity|]. split; [reflexivity|].
    exists (Some e), []. split; [reflexivity|]. split; [constructor|reflexivity].
  - destruct (receive_result ser (receives st)) as [e [d|]] eqn:Hr; simpl.
    + destruct (bytes_eqb (trim_response (PyBytes response) d) []).
      * match goal with
        | |- context [wait_for_response_long ser fuel ?sr ?s] =>
            destruct (wait_for_response_long_runs ser fuel Hfuel Hbytes sr s)
              as (error & res & st' & (Heq & Hreads & e' & t' & Ht & Hport & Hreq)
                  & Hres)
        end.
        exists error, res, st'. split; [|exact Hres].
        split; [exact Heq|]. split; [exact Hreads|].
        exists None,
          ([Waited 1000; Received REC_TIMEOUT e (Some d)]
             ++ Sent keep_alive_cmd e' :: t').
        split; [|split].
        -- rewrite Ht. simpl. now rewrite <- !app_assoc.
        -- apply Forall_app. split; [|constructor; [exact I|exact Hport]].
           repeat constructor. now exists (receives st).
        -- rewrite requests_app. exact Hreq.
      * exists e, (Some (trim_response (PyBytes response) d)). eexists.
        split; [|intros _; discriminate].
        split; [reflexivity|]. split; [reflexivity|].
        exists None, [Waited 1000; Received REC_TIMEOUT e (Some d)]. simpl.
        split; [now rewrite <- !app_assoc|]. split; [|reflexivity].
        repeat constructor. now exists (receives st).
    + exfalso. apply (Hbytes (receives st)). now rewrite Hr.
Qed.

Lemma runs_lift {A B : Type} (ser : SerialPort) (r : result A) (a : A)
  (f : A -> M B) (cmd : bytes) (st : state) (b : B) (st' : state) :
  r = Ret a ->
  runs ser (f a) cmd st b st' ->
  runs ser (bind (lift r) f) cmd st b st'.
Proof.
  intros ->. unfold runs, bind, lift. auto.
Qed.

(** The shape of every get operation: [parse] is what it does with a
    response of good status and opcode. *)
Lemma get_runs {T : Type} (ser : SerialPort) (msg response : bytes)
  (parse : bytes -> M (option string * option T)) (failure : string) :
  returns_bytes ser ->
  (forall k d st,
      receive_result ser k = (None, Some d) ->
      parsed_as response d = true ->
      exists v, parse (trim_response (PyBytes response) d) st = (Ret v, st)) ->
  forall st,
  exists r st',
    runs ser
      (bind (request ser msg response)
         (fun x =>
            match x with
            | (error, res) =>
                match error with
                | None =>
                    bind (subscript res)
                      (fun res =>
                         if success_and_opcode res response then parse res
                         else ret (Some failure, None))
                | Some _ => ret (error, None)
                end
            end))
      msg st r st'.
Proof.
  intros Hbytes Hparse st.
  destruct (request_runs ser Hbytes msg response st)
    as (error & res & st' & (Heq & Hreads & Htrace) & Hres).
  unfold runs, bind. rewrite Heq.
  destruct error as [e|].
  - exists (Some e, None), st'. now repeat split.
  - destruct (Hres eq_refl) as (k & d & Hk & ->).
    unfold subscript, ret.
    destruct (success_and_opcode (trim_response (PyBytes response) d) response)
      eqn:Hok.
    + destruct (Hparse k d st' Hk Hok) as [v Hv].
      exists v, st'. now repeat split.
    + eexists _, st'. now repeat split.
Qed.

(** The shape of the set operations that fall back to the long wait:
    [check] is their test on the response. *)
Lemma set_runs (ser : SerialPort) (fuel : nat) (msg response : bytes)
  (check : bytes -> bool) (failure : string) :
  (5 < fuel)%nat ->
  returns_bytes ser ->
  forall st,
  exists r st',
    runs ser
      (bind (request_set ser fuel msg response)
         (fun x =>
            match x with
            | (error, res) =>
                match error with
                | None =>
                    bind (subscript res)
                      (fun res =>
                         if check res then ret (Some failure) else ret error)
                | Some _ => ret error
                end
            end))
      msg st r st'.
Proof.
  intros Hfuel Hbytes st.
  destruct (request_set_runs ser fuel Hfuel Hbytes msg response st)
    as (error & res & st' & (Heq & Hreads & Htrace) & Hres).
  unfold runs, bind. rewrite Heq.
  destruct error as [e|].
  - exists (Some e), st'. now repeat split.
  - destruct res as [res|]; [|now destruct (Hres eq_refl)].
    unfold subscript, ret.
    destruct (check res); eexists _, st'; now repeat split.
Qed.

Lemma set_op_state_runs (ser : SerialPort) (fuel : nat) (op_state : string)
  (cmd : bytes) :
  (5 < fuel)%nat ->
  returns_bytes ser ->
  build_cmd "0006" "000C" (WByt op_state) = Ret cmd ->
  forall st, exists r st', runs ser (set_op_state ser fuel op_state) cmd st r st'.
Proof.
  intros Hfuel Hbytes Hcmd st. unfold set_op_state.
  destruct (set_runs ser fuel cmd UHFBytes.SET_OP_STATE
              (fun res => negb (bytes_eqb (slice 6 8 res) UHFBytes.STATUS_SUCCESS)
                          && bytes_eqb (slice 4 6 res) UHFBytes.SET_OP_STATE)
              ("Unable to set operating state to '" ++ op_state ++ "'")%string
              Hfuel Hbytes st) as (r & st' & H).
  exists r, st'. apply runs_lift with cmd; [exact Hcmd|exact H].
Qed.




Lemma int_from_bytes_bound (l : bytes) :
  int_from_bytes l < 256 ^ Z.of_nat (List.length l).
Proof.
  unfold int_from_bytes.
  assert (H : forall acc k,
             0 <= acc < 256 ^ k -> 0 <= k ->
             fold_left (fun acc b => acc * 256 + byte_val b) l acc
             < 256 ^ (k + Z.of_nat (List.length l))).
  { induction l as [|b l IH]; intros acc k Hacc Hk.
    - simpl. rewrite Z.add_0_r. lia.
    - cbn [fold_left List.length].
      replace (k + Z.of_nat (S (List.length l)))
        with ((k + 1) + Z.of_nat (List.length l)) by lia.
      apply IH; [|lia].
      assert (Hb : 0 <= byte_val b < 256).
      { unfold byte_val. pose proof (Byte.to_N_bounded b) as Hb.
        apply N.le_lteq in Hb. lia. }
      rewrite Z.pow_add_r by lia. lia. }
  apply (H 0 0); lia.
Qed.

Lemma div100_word (lo : nat) (res : bytes) :
  div100 (int_from_bytes (slice lo (lo + 2) res))
  = Ret (Qmake (int_from_bytes (slice lo (lo + 2) res)) 100).
Proof.
  unfold div100.
  pose proof (int_from_bytes_bound (slice lo (lo + 2) res)) as H.
  assert (Hlen : (List.length (slice lo (lo + 2) res) <= 2)%nat).
  { unfold slice. rewrite length_firstn. lia. }
  assert (Hpow : 256 ^ Z.of_nat (List.length (slice lo (lo + 2) res)) <= 256 ^ 2)
    by (apply Z.pow_le_mono_r; lia).
  assert (Hbig : 256 ^ 2 < float_max_bound * 100) by (vm_compute; reflexivity).
  destruct (Z.leb_spec (float_max_bound * 100)
              (int_from_bytes (slice lo (lo + 2) res))); [lia|reflexivity].
Qed.






Lemma get_op_state_runs (ser : SerialPort) :
  returns_bytes ser ->
  forall st, exists r st', runs ser (get_op_state ser) get_op_state_cmd st r st'.
Proof.
  intros Hbytes st. unfold get_op_state.
  destruct (get_runs ser get_op_state_cmd UHFBytes.GET_OP_STATE
              (fun res =>
                 let rep := int_from_bytes (slice 10 12 res) in
                 ret (None, Some (op_state_of rep)))
              "Unable to get operating state" Hbytes
              (fun k d st0 _ _ => ex_intro _ _ eq_refl) st)
    as (r & st' & H).
  exists r, st'. apply runs_lift with get_op_state_cmd; [reflexivity|exact H].
Qed.

Lemma get_tag_report_runs (ser : SerialPort) :
  returns_bytes ser ->
  forall st, exists r st', runs ser (get_tag_report ser) get_tag_report_cmd st r st'.
Proof.
  intros Hbytes st. unfold get_tag_report.
  destruct (get_runs ser get_tag_report_cmd UHFBytes.GET_TAG_REPORT
              (fun res =>
                 let rep := int_from_bytes (slice 8 10 res) in
                 let reply_reason := reply_reason_of rep in
                 let power_rssi_raw := int_from_bytes_signed (slice 10 12 res) in
                 let power_dbm := int_from_bytes_signed (slice 12 14 res) in
                 let timestamp := int_from_bytes (slice 14 18 res) in
                 let antenna := int_from_bytes (slice 18 20 res) in
                 let epc_length := int_from_bytes (slice 20 (List.length res) res) in
                 ret (None,
                      Some {| replyReason := reply_reason;
                              powerRSSIRaw := power_rssi_raw;
                              powerdBm := power_dbm;
                              timestamp := timestamp;
                              antenna := antenna;
                              epcLength := epc_length |}))
              "Unable to get a tag report" Hbytes
              (fun k d st0 _ _ => ex_intro _ _ eq_refl) st)
    as (r & st' & H).
  exists r, st'. apply runs_lift with get_tag_report_cmd; [reflexivity|exact H].
Qed.

(** ** Reading tags *)

(** What a step that ran added to the trace. *)
Lemma runs_trace {A : Type} (ser : SerialPort) (m : M A) (cmd : bytes)
  (st : state) (a : A) (st' : state) :
  runs ser m cmd st a st' ->
  exists t,
    trace st' = trace st ++ t
    /\ Forall (port_event ser) t
    /\ requests t = requests [Sent cmd None].
Proof.
  intros (_ & _ & e & t & Ht & Hport & Hreq).
  exists (Sent cmd e :: t). split; [exact Ht|].
  split; [constructor; [exact I|exact Hport]|].
  change (Sent cmd e :: t) with ([Sent cmd e] ++ t).
  rewrite requests_app, Hreq, app_nil_r. reflexivity.
Qed.

Lemma polled_trace (ser : SerialPort) (st : state)
  (outs : list (option string * option tag_report_info)) (st' : state) :
  polled ser st outs st' ->
  reads st' = reads st
  /\ exists t,
      trace st' = trace st ++ t
      /\ Forall (port_event ser) t
      /\ requests t = repeat get_tag_report_cmd (List.length outs).
Proof.
  induction 1 as [st|st outs st1 o st2 Hp IH Hr].
  - split; [reflexivity|]. exists []. rewrite app_nil_r. repeat split. constructor.
  - destruct IH as (Hreads & t & Ht & Hport & Hreq).
    destruct (runs_trace ser _ _ _ _ _ Hr) as (u & Hu & Hportu & Hrequ).
    destruct Hr as (_ & Hreads' & _).
    split; [congruence|].
    exists (t ++ u). split; [now rewrite Hu, Ht, <- app_assoc|].
    split; [apply Forall_app; now split|].
    rewrite requests_app, Hreq, Hrequ, length_app. simpl.
    change (requests [Sent get_tag_report_cmd None]) with [get_tag_report_cmd].
    rewrite Nat.add_1_r. now rewrite <- repeat_cons.
Qed.

Lemma poll_tag_report_polls (ser : SerialPort) (fuel : nat) :
  (10 < fuel)%nat ->
  returns_bytes ser ->
  forall st,
  exists outs st',
    poll_tag_report ser fuel st
    = (Ret (Z.of_nat (List.length outs),
            fst (last outs (None, None)), snd (last outs (None, None))), st')
    /\ polled ser st outs st'
    /\ (1 <= List.length outs <= 10)%nat
    /\ (forall o, In o (removelast outs) -> snd o = None)
    /\ (snd (last outs (None, None)) = None -> List.length outs = 10%nat).
Proof.
  intros Hfuel Hbytes st. unfold poll_tag_report.
  set (cond := fun '(i, _, _) => i <? 10).
  set (body := fun '(i, _, _) => _).
  pose (Inv := fun (v : Z * option string * option tag_report_info) (s : state) =>
                 let '(i, e, r) := v in
                 exists outs,
                   polled ser st outs s
                   /\ i = Z.of_nat (List.length outs) /\ i <= 10
                   /\ (forall o, In o outs -> snd o = None)
                   /\ (e, r) = last outs (None, None)).
  pose (Post := fun (v : result (Z * option string * option tag_report_info))
                    (s : state) =>
                  match v with
                  | Ret (i, e, r) =>
                      exists outs,
                        polled ser st outs s
                        /\ i = Z.of_nat (List.length outs)
                        /\ (1 <= List.length outs <= 10)%nat
                        /\ (forall o, In o (removelast outs) -> snd o = None)
                        /\ (e, r) = last outs (None, None)
                        /\ (r = None -> List.length outs = 10%nat)
                  | _ => False
                  end).
  assert (H : Post (fst (while_ fuel cond body (0, None, None) st))
                (snd (while_ fuel cond body (0, None, None) st))).
  { apply (while_rule cond body Inv Post (fun '(i, _, _) _ => Z.to_nat (10 - i))).
    - intros [[i e] r] s (outs & Hp & Hi & Hle & Hnone & Hlast) Hc.
      simpl in Hc. apply Z.ltb_ge in Hc.
      exists outs. repeat split; auto; try lia.
      intros o Hin. apply Hnone. now apply in_removelast.
    - intros [[i e] r] s (outs & Hp & Hi & Hle & Hnone & Hlast) Hc.
      simpl in Hc. apply Z.ltb_lt in Hc.
      destruct (get_tag_report_runs ser Hbytes s) as ([e' r'] & s' & Hr).
      assert (Hp' : polled ser st (outs ++ [(e', r')]) s')
        by (now apply polled_snoc with s).
      unfold body, bind. destruct Hr as (-> & _).
      destruct r' as [r'|]; cbv beta iota zeta delta [ret Inv Post].
      + exists (outs ++ [(e', Some r')]).
        rewrite length_app, removelast_last, last_last. cbn [List.length].
        repeat split; auto; try lia. discriminate.
      + split; [|lia].
        exists (outs ++ [(e', None)]).
        rewrite length_app, last_last. cbn [List.length].
        repeat split; auto; try lia.
        intros o Hin. apply in_app_or in Hin as [Hin|[<-|[]]]; auto.
    - exists []. repeat split; try lia. constructor. intros o [].
    - simpl. lia. }
  destruct (while_ fuel cond body (0, None, None) st) as [[[[i e] r]|ex|] st'];
    simpl in H; try contradiction.
  destruct H as (outs & Hp & -> & Hlen & Hnone & Hlast & Hten).
  exists outs, st'. rewrite <- Hlast. simpl.
  repeat split; auto; try lia.
Qed.

(** The steps of [read_tags], one after the other. *)
Lemma read_tags_steps (ser : SerialPort) (fuel : nat) (sound : bool) (st : state) :
  (10 < fuel)%nat ->
  returns_bytes ser ->
  exists e_read s1 e_get op_st s2 outs s3 e_idle s4 s5,
    runs ser (set_op_state ser fuel UHFOperatingState.TAG_READ) set_tag_read_cmd
      st e_read s1
    /\ runs ser (get_op_state ser) get_op_state_cmd s1 (e_get, op_st) s2
    /\ polled ser s2 outs s3
    /\ (1 <= List.length outs <= 10)%nat
    /\ (forall o, In o (removelast outs) -> snd o = None)
    /\ (snd (last outs (None, None)) = None -> List.length outs = 10%nat)
    /\ runs ser (set_op_state ser fuel UHFOperatingState.IDLE) set_idle_cmd
         s3 e_idle s4
    /\ reads s5 = reads s4
    /\ trace s5
       = trace s4
           ++ (if sound && not_error (fst (last outs (None, None)))
               then [TagDetectedAudio] else [])
    /\ read_tags ser fuel sound st
       = (Ret (e_idle, e_get, op_st,
               (Z.of_nat (List.length outs),
                fst (last outs (None, None)), snd (last outs (None, None)))),
          s5).
Proof.
  intros Hfuel Hbytes.
  destruct (set_op_state_runs ser fuel UHFOperatingState.TAG_READ set_tag_read_cmd)
    with (st := st) as (e_read & s1 & H1); [lia|exact Hbytes|reflexivity|].
  destruct (get_op_state_runs ser Hbytes s1) as ([e_get op_st] & s2 & H2).
  destruct (poll_tag_report_polls ser fuel Hfuel Hbytes s2)
    as (outs & s3 & H3 & Hp & Hlen & Hnone & Hten).
  destruct (set_op_state_runs ser fuel UHFOperatingState.IDLE set_idle_cmd)
    with (st := s3) as (e_idle & s4 & H4); [lia|exact Hbytes|reflexivity|].
  exists e_read, s1, e_get, op_st, s2, outs, s3, e_idle, s4.
  assert (Hrun : forall s5,
             (if sound
              then if not_error (fst (last outs (None, None)))
                   then emit TagDetectedAudio else ret tt
              else ret tt) s4 = (Ret tt, s5) ->
             read_tags ser fuel sound st
             = (Ret (e_idle, e_get, op_st,
                     (Z.of_nat (List.length outs),
                      fst (last outs (None, None)), snd (last outs (None, None)))),
                s5)).
  { intros s5 H5. unfold read_tags, bind.
    destruct H1 as (-> & _). destruct H2 as (-> & _). rewrite H3.
    destruct H4 as (-> & _). rewrite H5. reflexivity. }
  destruct sound; [destruct (not_error (fst (last outs (None, None))))|].
  - exists {| sends := sends s4; receives := receives s4; reads := reads s4;
              trace := trace s4 ++ [TagDetectedAudio] |}.
    repeat (split; [assumption|]).
    split; [reflexivity|]. split; [reflexivity|]. now apply Hrun.
  - exists s4. rewrite app_nil_r.
    repeat (split; [assumption|]).
    split; [reflexivity|]. split; [reflexivity|]. now apply Hrun.
  - exists s4. rewrite app_nil_r.
    repeat (split; [assumption|]).
    split; [reflexivity|]. split; [reflexivity|]. now apply Hrun.
Qed.

(** C8: with fuel for more than ten turns and a port that returns bytes
    objects, [read_tags], the body of [if tagReport:], runs
    [set_op_state(TAG_READ)], then [get_op_state], then [get_tag_report]
    between one and ten times, no report before the last one being other
    than [None] and ten polls being made when the last one is [None] too,
    then [set_op_state(IDLE)], whatever the polls returned.  The commands
    that reach the port, keep-alive probes apart, are those of these steps
    in this order. *)
Theorem read_tags_restores_idle (ser : SerialPort) (fuel : nat) (sound : bool)
  (st : state) :
  (10 < fuel)%nat ->
  returns_bytes ser ->
  exists e_read s1 e_get op_st s2 outs s3 e_idle s4 s5 t,
    runs ser (set_op_state ser fuel UHFOperatingState.TAG_READ) set_tag_read_cmd
      st e_read s1
    /\ runs ser (get_op_state ser) get_op_state_cmd s1 (e_get, op_st) s2
    /\ polled ser s2 outs s3
    /\ (1 <= List.length outs <= 10)%nat
    /\ (forall o, In o (removelast outs) -> snd o = None)
    /\ (snd (last outs (None, None)) = None -> List.length outs = 10%nat)
    /\ runs ser (set_op_state ser fuel UHFOperatingState.IDLE) set_idle_cmd
         s3 e_idle s4
    /\ read_tags ser fuel sound st
       = (Ret (e_idle, e_get, op_st,
               (Z.of_nat (List.length outs),
                fst (last outs (None, None)), snd (last outs (None, None)))),
          s5)
    /\ trace s5 = trace st ++ t
    /\ requests t
       = [set_tag_read_cmd; get_op_state_cmd]
           ++ repeat get_tag_report_cmd (List.length outs) ++ [set_idle_cmd].
Proof.
  intros Hfuel Hbytes.
  destruct (read_tags_steps ser fuel sound st Hfuel Hbytes)
    as (e_read & s1 & e_get & op_st & s2 & outs & s3 & e_idle & s4 & s5
        & H1 & H2 & Hp & Hlen & Hnone & Hten & H4 & _ & H5 & Hrun).
  destruct (runs_trace ser _ _ _ _ _ H1) as (t1 & Ht1 & _ & Hr1).
  destruct (runs_trace ser _ _ _ _ _ H2) as (t2 & Ht2 & _ & Hr2).
  destruct (polled_trace ser _ _ _ Hp) as (_ & t3 & Ht3 & _ & Hr3).
  destruct (runs_trace ser _ _ _ _ _ H4) as (t4 & Ht4 & _ & Hr4).
  exists e_read, s1, e_get, op_st, s2, outs, s3, e_idle, s4, s5.
  exists (t1 ++ t2 ++ t3 ++ t4
             ++ (if sound && not_error (fst (last outs (None, None)))
                 then [TagDetectedAudio] else [])).
  repeat (split; [assumption|]).
  split.
  - rewrite H5, Ht4, Ht3, Ht2, Ht1. now rewrite <- !app_assoc.
  - rewrite !requests_app, Hr1, Hr2, Hr3, Hr4.
    destruct (sound && not_error (fst (last outs (None, None)))); reflexivity.
Qed.

Lemma read_tags_restores_idle_witness :
  exists e_read s1 e_get op_st s2 outs s3 e_idle s4 s5 t,
    runs (scripted []) (set_op_state (scripted []) 11 UHFOperatingState.TAG_READ)
      set_tag_read_cmd initial_state e_read s1
    /\ runs (scripted []) (get_op_state (scripted [])) get_op_state_cmd
         s1 (e_get, op_st) s2
    /\ polled (scripted []) s2 outs s3
    /\ (1 <= List.length outs <= 10)%nat
    /\ (forall o, In o (removelast outs) -> snd o = None)
    /\ (snd (last outs (None, None)) = None -> List.length outs = 10%nat)
    /\ runs (scripted []) (set_op_state (scripted []) 11 UHFOperatingState.IDLE)
         set_idle_cmd s3 e_idle s4
    /\ read_tags (scripted []) 11 true initial_state
       = (Ret (e_idle, e_get, op_st,
               (Z.of_nat (List.length outs),
                fst (last outs (None, None)), snd (last outs (None, None)))),
          s5)
    /\ trace s5 = trace initial_state ++ t
    /\ requests t
       = [set_tag_read_cmd; get_op_state_cmd]
           ++ repeat get_tag_report_cmd (List.length outs) ++ [set_idle_cmd].
Proof.
  apply read_tags_restores_idle.
  - lia.
  - apply scripted_returns_bytes. constructor.
Defined.

(** ** The session cycle *)

Lemma emitted_app (t u : list event) : emitted (t ++ u) = emitted t ++ emitted u.
Proof.
  induction t as [|ev t IH]; [reflexivity|].
  destruct ev; simpl; now rewrite ?IH.
Qed.

Lemma emitted_port_events (ser : SerialPort) (t : list event) :
  Forall (port_event ser) t -> emitted t = [].
Proof.
  induction 1 as [|ev t Hev Ht IH]; [reflexivity|].
  destruct ev; simpl in *; try contradiction; exact IH.
Qed.

(** What a step that ran added to the trace: no metadata. *)
Lemma runs_quiet {A : Type} (ser : SerialPort) (m : M A) (cmd : bytes)
  (st : state) (a : A) (st' : state) :
  runs ser m cmd st a st' ->
  exists t,
    trace st' = trace st ++ t
    /\ requests t = requests [Sent cmd None]
    /\ emitted t = [].
Proof.
  intros H. destruct (runs_trace ser m cmd st a st' H) as (t & Ht & Hport & Hreq).
  exists t. repeat split; auto. now apply emitted_port_events with ser.
Qed.




Lemma bytes_eqb_eq (a b : bytes) : bytes_eqb a b = true <-> a = b.
Proof.
  revert b. induction a as [|x a IH]; intros [|y b]; simpl; split;
    try discriminate; try reflexivity.
  - intros H. apply andb_true_iff in H as [Hx Ha].
    apply Byte.byte_dec_bl in Hx. apply IH in Ha. now subst.
  - intros H. injection H as -> ->. apply andb_true_iff. split.
    + now apply Byte.byte_dec_lb.
    + now apply IH.
Qed.







Lemma scripted_readable (l : list (option string * option bytes)) :
  forallb readable_outcome l = true -> readable (scripted l).
Proof.
  intros H k d Hk. simpl in Hk.
  assert (Ho : readable_outcome (nth k l no_bytes) = true).
  { destruct (nth_in_or_default k l no_bytes) as [Hin| ->]; [|reflexivity].
    rewrite forallb_forall in H. now apply H. }
  rewrite Hk in Ho. unfold readable_outcome in Ho.
  apply andb_true_iff in Ho as [Ho Ht]. apply andb_true_iff in Ho as [Hv Hr].
  repeat split; intros Hok; rewrite Hok in *; assumption.
Qed.


(** The session of a reader in good health is within the conditions of the
    turn: every step returns without an error, and the metadata emitted
    holds what the reader answered. *)
Lemma healthy_cycle_reports_no_error :
  exists st',
    cycle (scripted healthy_session) (start_now (fcc_params true true)) 16
      initial_state = (Ret tt, st')
    /\ returns_bytes (scripted healthy_session)
    /\ readable (scripted healthy_session)
    /\ receives st' = List.length healthy_session
    /\ requests (trace st')
       = configuration_requests set_op_region_fcc_cmd set_tx_power_30_cmd
           set_ant_enables_1100_cmd
           ++ tag_requests true 1
    /\ exists alive version temp op_reg tx_power ant_enables op_state tag_report,
        emitted (trace st')
        = [MetaData
             {| e_keep_alive := None; e_opSate_set := None;
                e_opRegion_set := None; e_SET_TX_POWER := None;
                e_SET_ANT_ENABLES := None; e_version_get := None;
                e_temp_get := None; e_op_reg_get := None;
                e_tx_power_get := None; e_GET_ANT_ENABLES := None;
                e_op_state_get := None; e_tag_report_get := None |}
             (Some alive) (Some version) (Some temp) (Some op_reg)
             (Some tx_power) (Some ant_enables) (Some op_state)
             (Some tag_report)].
Proof.
  eexists. split; [vm_compute; reflexivity|].
  split; [apply scripted_returns_bytes; repeat constructor; discriminate|].
  split; [apply scripted_readable; vm_compute; reflexivity|].
  split; [vm_compute; reflexivity|].
  split; [vm_compute; reflexivity|].
  do 8 eexists. vm_compute. reflexivity.
Qed.


(** A turn on a reader that answers the first keep-alive and is silent
    from then on: every set and get step fails, every one of them is run,
    and the metadata holds the error of each. *)
Example cycle_with_failing_steps :
  exists st',
    cycle (scripted [received keep_alive_reply])
      (start_now (fcc_params false false)) 16 initial_state
    = (Ret tt, st')
    /\ requests (trace st')
       = configuration_requests set_op_region_fcc_cmd set_tx_power_30_cmd
           set_ant_enables_1100_cmd
    /\ emitted (trace st')
       = [MetaData
            {| e_keep_alive := Some "Err1: No bytes from the device";
               e_opSate_set := Some "Err1: No bytes from the device";
               e_opRegion_set := Some "Err1: No bytes from the device";
               e_SET_TX_POWER := Some "Err1: No bytes from the device";
               e_SET_ANT_ENABLES := Some "Err1: No bytes from the device";
               e_version_get := Some "Err1: No bytes from the device";
               e_temp_get := Some "Err1: No bytes from the device";
               e_op_reg_get := Some "Err1: No bytes from the device";
               e_tx_power_get := Some "Err1: No bytes from the device";
               e_GET_ANT_ENABLES := Some "Err1: No bytes from the device";
               e_op_state_get := None;
               e_tag_report_get := None |}
            None None None None None None None None].
Proof.
  eexists. split; [vm_compute; reflexivity|].
  split; reflexivity.
Qed.

(** ** The serial port of [serial_io.py] *)

Lemma receive_loop_spec (com : SerialIO.Serial) (rec_timeout : Z) (fuel : nat) :
  forall count i j polls,
    (Z.to_nat (rec_timeout * 1000 - count) < fuel)%nat ->
    exists r n,
      SerialIO.receive_loop fuel com rec_timeout count i j polls [] = Ret (r, n)
      /\ (n <= polls + Z.to_nat (rec_timeout * 1000 - count))%nat
      /\ match r with
         | inl _ => True
         | inr data_in =>
             data_in = []
             \/ exists k size,
                 SerialIO.read com k size = inr data_in /\ data_in <> []
         end.
Proof.
  induction fuel as [|fuel IH]; intros count i j polls Hfuel; [lia|].
  cbn [SerialIO.receive_loop].
  destruct (Z.ltb_spec count (rec_timeout * 1000)) as [Hlt|Hge].
  - destruct (SerialIO.in_waiting com i) as [msg|waiting].
    + exists (inl msg), (S polls). repeat split. lia.
    + destruct (negb (Nat.eqb waiting 0)).
      * destruct (SerialIO.read com j waiting) as [msg|[|b byte_in]] eqn:Hread.
        -- exists (inl msg), (S polls). repeat split. lia.
        -- destruct (IH (count + 1) (S i) (S j) (S polls)) as (r & n & Heq & Hn & Hr);
             [lia|].
           exists r, n. split; [exact Heq|]. split; [lia|exact Hr].
        -- exists (inr (b :: byte_in)), (S polls). split; [reflexivity|].
           split; [lia|]. right. exists j, waiting. split; [exact Hread|discriminate].
      * destruct (IH (count + 1) (S i) j (S polls)) as (r & n & Heq & Hn & Hr);
          [lia|].
        exists r, n. split; [exact Heq|]. split; [lia|exact Hr].
  - exists (inr []), polls. split; [reflexivity|]. split; [lia|]. now left.
Qed.

(** X1. [serial_receive] returns after at most [rec_timeout * 1000]
    readings of [in_waiting], and what it returns has one of three shapes:
    no error and the non-empty bytes of a single [read]; an error and the
    empty bytes; an error and [None], which happens exactly when the port is
    not open. *)
Theorem serial_receive_contract (com : SerialIO.Serial) (rec_timeout : Z)
  (fuel i j : nat) :
  (Z.to_nat (rec_timeout * 1000) < fuel)%nat ->
  exists error data_in polls,
    SerialIO.serial_receive fuel com rec_timeout i j = Ret (error, data_in, polls)
    /\ (polls <= Z.to_nat (rec_timeout * 1000))%nat
    /\ (data_in = None <-> SerialIO.is_open com = false)
    /\ (error = None <-> exists d, data_in = Some d /\ d <> [])
    /\ (forall d, data_in = Some d -> d <> [] ->
        exists k size, SerialIO.read com k size = inr d).
Proof.
  intros Hfuel. unfold SerialIO.serial_receive.
  destruct (SerialIO.is_open com) eqn:Hopen.
  - destruct (receive_loop_spec com rec_timeout fuel 0 i j 0)
      as (r & n & Heq & Hn & Hr).
    { rewrite Z.sub_0_r. exact Hfuel. }
    rewrite Heq. cbn [rbind]. rewrite Z.sub_0_r in Hn.
    destruct r as [msg|[|b data]].
    + exists (Some (SerialIO.error_text "serial_receive" msg)), (Some []), n.
      split; [reflexivity|]. split; [lia|]. split; [split; discriminate|].
      split.
      * split; [discriminate|]. intros (d & Hd & Hne). inversion Hd. congruence.
      * intros d Hd Hne. inversion Hd. congruence.
    + exists (Some "Err1: No bytes from the device"), (Some []), n.
      split; [reflexivity|]. split; [lia|]. split; [split; discriminate|].
      split.
      * split; [discriminate|]. intros (d & Hd & Hne). inversion Hd. congruence.
      * intros d Hd Hne. inversion Hd. congruence.
    + exists None, (Some (b :: data)), n.
      split; [reflexivity|]. split; [lia|]. split; [split; discriminate|].
      split.
      * split; [|reflexivity]. intros _. exists (b :: data).
        split; [reflexivity|discriminate].
      * intros d Hd _. inversion Hd; subst d.
        destruct Hr as [Hr|(k & size & Hread & _)]; [discriminate|].
        exists k, size. exact Hread.
  - exists (Some "Err2: Cannot open serial port."), None, 0%nat.
    split; [reflexivity|]. split; [lia|]. split; [split; reflexivity|].
    split.
    + split; [discriminate|]. intros (d & Hd & _). discriminate.
    + intros d Hd. discriminate.
Qed.

Lemma serial_receive_contract_witness :
  exists error data_in polls,
    SerialIO.serial_receive 1001 (port_with 2 [xf6; x28; x00]) 1 0 0
    = Ret (error, data_in, polls)
    /\ (polls <= Z.to_nat (1 * 1000))%nat
    /\ (data_in = None <-> SerialIO.is_open (port_with 2 [xf6; x28; x00]) = false)
    /\ (error = None <-> exists d, data_in = Some d /\ d <> [])
    /\ (forall d, data_in = Some d -> d <> [] ->
        exists k size, SerialIO.read (port_with 2 [xf6; x28; x00]) k size = inr d).
Proof.
  apply (serial_receive_contract (port_with 2 [xf6; x28; x00]) 1 1001 0 0).
  vm_compute. lia.
Defined.

Lemma receive_loop_silent (com : SerialIO.Serial) (rec_timeout : Z) (fuel : nat) :
  silent com ->
  forall count i j polls,
    (Z.to_nat (rec_timeout * 1000 - count) < fuel)%nat ->
    SerialIO.receive_loop fuel com rec_timeout count i j polls []
    = Ret (inr [], (polls + Z.to_nat (rec_timeout * 1000 - count))%nat).
Proof.
  intros Hsilent.
  induction fuel as [|fuel IH]; intros count i j polls Hfuel; [lia|].
  cbn [SerialIO.receive_loop].
  destruct (Z.ltb_spec count (rec_timeout * 1000)) as [Hlt|Hge].
  - specialize (Hsilent i).
    destruct (SerialIO.in_waiting com i) as [msg|waiting]; [contradiction|].
    destruct (negb (Nat.eqb waiting 0)) eqn:Hw.
    + destruct Hsilent as [Hz|Hempty].
      { subst waiting. discriminate. }
      rewrite Hempty, IH by lia. do 2 f_equal. lia.
    + rewrite IH by lia. do 2 f_equal. lia.
  - do 2 f_equal. lia.
Qed.

(** X2. On an open port where no byte ever comes, [serial_receive] gives up
    after exactly [rec_timeout * 1000] readings of [in_waiting], one per
    millisecond waited, and returns the error [Err1] with the empty bytes;
    for a timeout that is zero or negative it does not look at the port. *)
Theorem serial_receive_times_out (com : SerialIO.Serial) (rec_timeout : Z)
  (fuel i j : nat) :
  (Z.to_nat (rec_timeout * 1000) < fuel)%nat ->
  SerialIO.is_open com = true ->
  silent com ->
  SerialIO.serial_receive fuel com rec_timeout i j
  = Ret (Some "Err1: No bytes from the device", Some [],
         Z.to_nat (rec_timeout * 1000)).
Proof.
  intros Hfuel Hopen Hsilent. unfold SerialIO.serial_receive.
  rewrite Hopen, (receive_loop_silent com rec_timeout fuel Hsilent)
    by (rewrite Z.sub_0_r; exact Hfuel).
  cbn [rbind]. rewrite Z.sub_0_r. reflexivity.
Qed.

Lemma serial_receive_times_out_witness :
  SerialIO.serial_receive 1001 (port_with 0 []) 1 0 0
  = Ret (Some "Err1: No bytes from the device", Some [], Z.to_nat (1 * 1000)).
Proof.
  apply (serial_receive_times_out (port_with 0 []) 1 1001 0 0).
  - vm_compute. lia.
  - reflexivity.
  - intros k. cbn [port_with SerialIO.in_waiting SerialIO.read].
    left. destruct (k <? 0)%nat; reflexivity.
Defined.

(** X3. [serial_send] on a port that is not open writes nothing and
    returns no error, as it does when the command was written: an error is
    returned only when flushing or writing raised, in which case nothing was
    written, and the text of the error names the method. *)
Theorem serial_send_outcomes (com : SerialIO.Serial) (i : nat) (cmd : bytes) :
  (SerialIO.is_open com = false -> SerialIO.serial_send com i cmd = (None, []))
  /\ (SerialIO.is_open com = true ->
      fst (SerialIO.serial_send com i cmd) = None ->
      snd (SerialIO.serial_send com i cmd) = [cmd])
  /\ (forall e,
         fst (SerialIO.serial_send com i cmd) = Some e ->
         SerialIO.is_open com = true
         /\ snd (SerialIO.serial_send com i cmd) = []
         /\ exists msg, e = ("[serial_send] " ++ msg)%string
                        /\ (SerialIO.reset_buffers com i = Some msg
                            \/ SerialIO.write com i cmd = Some msg)).
Proof.
  unfold SerialIO.serial_send.
  destruct (SerialIO.is_open com); cbn [fst snd].
  - split; [discriminate|]. split.
    + intros _.
      destruct (SerialIO.reset_buffers com i); [discriminate|].
      destruct (SerialIO.write com i cmd); [discriminate|reflexivity].
    + intros e.
      destruct (SerialIO.reset_buffers com i) as [msg|] eqn:Hflush.
      * cbn [fst snd]. intros He. inversion He.
        split; [reflexivity|]. split; [reflexivity|].
        exists msg. split; [reflexivity|now left].
      * destruct (SerialIO.write com i cmd) as [msg|] eqn:Hwrite;
          cbn [fst snd]; [|discriminate].
        intros He. inversion He.
        split; [reflexivity|]. split; [reflexivity|].
        exists msg. split; [reflexivity|now right].
  - split; [reflexivity|]. split; [discriminate|]. discriminate.
Qed.

Lemma serial_send_outcomes_witness :
  SerialIO.serial_send closed_port 0 [xf6; x28; x00; x04; x00; x01] = (None, []).
Proof.
  apply (serial_send_outcomes closed_port 0 [xf6; x28; x00; x04; x00; x01]).
  reflexivity.
Defined.

(** ** A port that returns no bytes object *)

Ltac run_lost Hs Hr :=
  unfold request, request_set, send_cmd, serial_send, wait_ms, emit,
    wait_for_response_short, serial_receive, bind, lift, ret;
  simpl; rewrite Hs; simpl; rewrite Hr; reflexivity.

(** X4. When the command goes out and [serial_receive] returns [None] for
    the data, as it does on a port that is not open, every get operation,
    [set_op_state] and [keep_alive] raise [AttributeError] out of
    [wait_for_response_short]: none of them returns its error string. *)
Theorem operations_raise_without_data (ser : SerialPort) (fuel : nat) (st : state)
  (e : option string) :
  (0 < fuel)%nat ->
  send_result ser (sends st) = None ->
  receive_result ser (receives st) = (e, None) ->
  (forall set_response rec_timeout,
      fst (wait_for_response_short ser set_response rec_timeout st)
      = Raise AttributeError)
  /\ fst (get_version ser st) = Raise AttributeError
  /\ fst (get_temp ser st) = Raise AttributeError
  /\ fst (get_op_region ser st) = Raise AttributeError
  /\ fst (get_tx_power ser st) = Raise AttributeError
  /\ fst (get_ant_enables ser st) = Raise AttributeError
  /\ fst (get_op_state ser st) = Raise AttributeError
  /\ fst (get_event_mask ser st) = Raise AttributeError
  /\ fst (get_tag_report ser st) = Raise AttributeError
  /\ fst (set_op_state ser fuel UHFOperatingState.IDLE st) = Raise AttributeError
  /\ fst (set_op_state ser fuel UHFOperatingState.TAG_READ st) = Raise AttributeError
  /\ fst (set_op_region ser "FCC" st) = Raise AttributeError
  /\ fst (keep_alive ser fuel st) = Raise AttributeError.
Proof.
  intros Hfuel Hs Hr.
  split.
  { intros set_response rec_timeout.
    unfold wait_for_response_short, serial_receive, bind, lift, ret.
    rewrite Hr. reflexivity. }
  split; [unfold get_version; run_lost Hs Hr|].
  split; [unfold get_temp; run_lost Hs Hr|].
  split; [unfold get_op_region; run_lost Hs Hr|].
  split; [unfold get_tx_power; run_lost Hs Hr|].
  split; [unfold get_ant_enables; run_lost Hs Hr|].
  split; [unfold get_op_state; run_lost Hs Hr|].
  split; [unfold get_event_mask; run_lost Hs Hr|].
  split; [unfold get_tag_report; run_lost Hs Hr|].
  split; [unfold set_op_state; run_lost Hs Hr|].
  split; [unfold set_op_state; run_lost Hs Hr|].
  split; [unfold set_op_region; run_lost Hs Hr|].
  destruct fuel as [|fuel]; [lia|].
  unfold keep_alive. run_lost Hs Hr.
Qed.

Lemma operations_raise_without_data_witness :
  fst (get_temp lost_port initial_state) = Raise AttributeError
  /\ fst (keep_alive lost_port 16 initial_state) = Raise AttributeError.
Proof.
  pose proof (operations_raise_without_data lost_port 16 initial_state
                (Some "Err2: Cannot open serial port.")
                ltac:(lia) eq_refl eq_refl) as H.
  split; apply H.
Defined.

(** X5. [start_reading] on a port that opens without error and then
    returns no bytes object: the first keep-alive raises
    [AttributeError], which nothing catches, so the thread ends after one
    command without emitting any metadata. *)
Theorem start_reading_dies_without_data (ser : SerialPort)
  (producer : nat -> option uhf_params * bool) (fuel : nat) (st : state)
  (e : option string) :
  (0 < fuel)%nat ->
  open_result ser = None ->
  send_result ser (sends st) = None ->
  receive_result ser (receives st) = (e, None) ->
  exists st',
    start_reading ser producer fuel st = (Raise AttributeError, st')
    /\ trace st'
       = trace st ++ [Opened None; ParamsRead; Sent keep_alive_cmd None;
                      Received REC_TIMEOUT e None]
    /\ emitted (trace st') = emitted (trace st).
Proof.
  intros Hfuel Ho Hs Hr.
  destruct fuel as [|fuel]; [lia|].
  eexists. split; [|split].
  - unfold start_reading, serial_open, cycle, awaiting_start, get_uhf_params,
      keep_alive, request, send_cmd, serial_send, wait_ms, emit,
      wait_for_response_short, serial_receive, bind, lift, ret.
    rewrite Ho. simpl. destruct (producer (reads st)) as [params startReading].
    simpl. rewrite Hs. simpl. rewrite Hr. simpl.
    rewrite <- !app_assoc. reflexivity.
  - reflexivity.
  - cbn [trace]. rewrite emitted_app. cbn [emitted]. apply app_nil_r.
Qed.

Lemma start_reading_dies_without_data_witness :
  exists st',
    start_reading lost_port (start_now (fcc_params true true)) 16 initial_state
    = (Raise AttributeError, st')
    /\ trace st'
       = trace initial_state
           ++ [Opened None; ParamsRead; Sent keep_alive_cmd None;
               Received REC_TIMEOUT (Some "Err2: Cannot open serial port.") None]
    /\ emitted (trace st') = emitted (trace initial_state).
Proof.
  apply (start_reading_dies_without_data lost_port
           (start_now (fcc_params true true)) 16 initial_state
           (Some "Err2: Cannot open serial port."));
    [lia|reflexivity|reflexivity|reflexivity].
Defined.

(** ** The end of [start_reading] *)

Lemma while_true_never_returns {S : Type} (body : S -> M (S * bool)) :
  (forall s st s' st', body s st <> (Ret (s', true), st')) ->
  forall fuel s st a, fst (while_ fuel (fun _ => true) body s st) <> Ret a.
Proof.
  intros Hbody. induction fuel as [|fuel IH]; intros s st a.
  - discriminate.
  - cbn [while_].
    destruct (body s st) as [[[s' [|]]|ex|] st'] eqn:Hb.
    + exfalso. exact (Hbody _ _ _ _ Hb).
    + apply IH.
    + discriminate.
    + discriminate.
Qed.

(** X6. [start_reading] returns exactly when the port could not be opened:
    it then returns the error of [serial_open] after emitting one metadata
    dictionary that holds this error, without sending any command; once the
    port is open, no number of turns makes it return. *)
Theorem start_reading_returns_on_open_error (ser : SerialPort)
  (producer : nat -> option uhf_params * bool) (fuel : nat) (st : state) :
  ((exists r, fst (start_reading ser producer fuel st) = Ret r)
   <-> open_result ser <> None)
  /\ (forall r,
         fst (start_reading ser producer fuel st) = Ret r ->
         r = open_result ser
         /\ trace (snd (start_reading ser producer fuel st))
            = trace st ++ [Opened r; GiveUhfMetaData true (MetaOpenError r)]
         /\ sends (snd (start_reading ser producer fuel st)) = sends st
         /\ receives (snd (start_reading ser producer fuel st)) = receives st).
Proof.
  assert (Hopen : open_result ser = None ->
                  forall r, fst (start_reading ser producer fuel st) <> Ret r).
  { intros Ho r. unfold start_reading, serial_open, emit.
    unfold bind at 1 2. rewrite Ho. unfold ret at 1. unfold bind at 1.
    match goal with
    | |- context [while_ fuel ?c ?b ?s ?st0] =>
        pose proof (while_true_never_returns b) as Hw;
        destruct (while_ fuel c b s st0) as [[u|ex|] st'] eqn:Hloop
    end; cbn [fst]; try discriminate.
    exfalso. eapply Hw; [|rewrite Hloop; reflexivity].
    intros s0 st0 s' st1. unfold bind, ret.
    destruct (cycle ser producer fuel st0) as [[u'|ex|] st2]; congruence. }
  split.
  - split.
    + intros [r Hr] Ho. exact (Hopen Ho r Hr).
    + intros Ho. destruct (open_result ser) as [e|] eqn:He; [|congruence].
      exists (Some e). unfold start_reading, serial_open, emit, bind, ret.
      rewrite He. reflexivity.
  - intros r Hr.
    destruct (open_result ser) as [e|] eqn:He.
    + revert Hr. unfold start_reading, serial_open, emit, bind, ret.
      rewrite He. cbn [fst snd trace sends receives]. intros Hr.
      inversion Hr; subst r. rewrite <- app_assoc.
      repeat split; reflexivity.
    + exfalso. exact (Hopen eq_refl r Hr).
Qed.

Lemma start_reading_returns_on_open_error_witness :
  fst (start_reading (unopened "[serial_open] could not open port")
         (start_now (fcc_params true true)) 16 initial_state)
  = Ret (Some "[serial_open] could not open port")
  /\ trace (snd (start_reading (unopened "[serial_open] could not open port")
                   (start_now (fcc_params true true)) 16 initial_state))
     = [Opened (Some "[serial_open] could not open port");
        GiveUhfMetaData true
          (MetaOpenError (Some "[serial_open] could not open port"))].
Proof.
  pose proof (start_reading_returns_on_open_error
                (unopened "[serial_open] could not open port")
                (start_now (fcc_params true true)) 16 initial_state) as [_ H].
  specialize (H (Some "[serial_open] could not open port") eq_refl).
  split; [reflexivity|apply H].
Defined.

(** ** Commands that do not go out *)

Ltac run_unsent Hs :=
  unfold request, request_set, send_cmd, serial_send, after_send, bind, lift, ret;
  simpl; rewrite Hs; reflexivity.

Ltac run_unsent_built Hs :=
  unfold request, request_set, send_cmd, serial_send, after_send, bind, lift, ret;
  cbv beta iota; rewrite Hs; reflexivity.

(** X7. When [serial_send] returns an error, each of the nine get
    operations returns this error with no value and each of the six set
    operations returns it, whatever the arguments the command is built
    from: the command is handed to the port once and the operation neither
    waits nor reads a response. *)
Theorem operations_on_send_error (ser : SerialPort) (fuel : nat) (st : state)
  (e : string) :
  send_result ser (sends st) = Some e ->
  get_version ser st = (Ret (Some e, None), after_send st get_version_cmd (Some e))
  /\ get_temp ser st = (Ret (Some e, None), after_send st get_temp_cmd (Some e))
  /\ get_op_region ser st
     = (Ret (Some e, None), after_send st get_op_region_cmd (Some e))
  /\ get_tx_power ser st
     = (Ret (Some e, None), after_send st get_tx_power_cmd (Some e))
  /\ get_ant_enables ser st
     = (Ret (Some e, None), after_send st get_ant_enables_cmd (Some e))
  /\ get_op_state ser st
     = (Ret (Some e, None), after_send st get_op_state_cmd (Some e))
  /\ get_tag_report ser st
     = (Ret (Some e, None), after_send st get_tag_report_cmd (Some e))
  /\ set_op_state ser fuel UHFOperatingState.IDLE st
     = (Ret (Some e), after_send st set_idle_cmd (Some e))
  /\ set_op_state ser fuel UHFOperatingState.TAG_READ st
     = (Ret (Some e), after_send st set_tag_read_cmd (Some e))
  /\ set_op_region ser "FCC" st
     = (Ret (Some e), after_send st set_op_region_fcc_cmd (Some e))
  /\ set_tx_power ser fuel 30 30 30 30 st
     = (Ret (Some e), after_send st set_tx_power_30_cmd (Some e))
  /\ set_ant_enables ser fuel 1 1 0 0 st
     = (Ret (Some e), after_send st set_ant_enables_1100_cmd (Some e))
  /\ get_event_mask ser st
     = (Ret (Some e, None), after_send st get_event_mask_cmd (Some e))
  /\ (forall code cmd,
         build_cmd "0006" "000B" (WByt code) = Ret cmd ->
         get_operational_params ser code st
         = (Ret (Some e, None), after_send st cmd (Some e)))
  /\ (forall op_state cmd,
         build_cmd "0006" "000C" (WByt op_state) = Ret cmd ->
         set_op_state ser fuel op_state st
         = (Ret (Some e), after_send st cmd (Some e)))
  /\ (forall opRegion cmd,
         build_cmd (int_to_hex_string (4 + str_len opRegion + 1) 4) "0002"
           (WStr opRegion) = Ret cmd ->
         set_op_region ser opRegion st
         = (Ret (Some e), after_send st cmd (Some e)))
  /\ (forall p1 p2 p3 p4 cmd,
         build_cmd "000C" "0005" (WInt4 (p1 * 100) (p2 * 100) (p3 * 100) (p4 * 100))
         = Ret cmd ->
         set_tx_power ser fuel p1 p2 p3 p4 st
         = (Ret (Some e), after_send st cmd (Some e)))
  /\ (forall a1 a2 a3 a4 vector cmd,
         ant_enables_vector a1 a2 a3 a4 = Ret vector ->
         build_cmd "0006" "000E" (WInt vector) = Ret cmd ->
         set_ant_enables ser fuel a1 a2 a3 a4 st
         = (Ret (Some e), after_send st cmd (Some e)))
  /\ (forall code value cmd,
         build_cmd "000A" "000A" (WUint32 code value) = Ret cmd ->
         set_operational_param ser fuel code value st
         = (Ret (Some e), after_send st cmd (Some e)))
  /\ (forall f1 f2 f3 f4 f5 f6 mask cmd,
         create_event_mask f1 f2 f3 f4 f5 f6 = Ret mask ->
         build_cmd "0008" "0014" (WInt32 mask) = Ret cmd ->
         set_event_mask ser fuel f1 f2 f3 f4 f5 f6 st
         = (Ret (Some e), after_send st cmd (Some e))).
Proof.
  intros Hs.
  split; [unfold get_version; run_unsent Hs|].
  split; [unfold get_temp; run_unsent Hs|].
  split; [unfold get_op_region; run_unsent Hs|].
  split; [unfold get_tx_power; run_unsent Hs|].
  split; [unfold get_ant_enables; run_unsent Hs|].
  split; [unfold get_op_state; run_unsent Hs|].
  split; [unfold get_tag_report; run_unsent Hs|].
  split; [unfold set_op_state; run_unsent Hs|].
  split; [unfold set_op_state; run_unsent Hs|].
  split; [unfold set_op_region; run_unsent Hs|].
  split; [unfold set_tx_power; run_unsent Hs|].
  split; [unfold set_ant_enables; run_unsent Hs|].
  split; [unfold get_event_mask; run_unsent Hs|].
  split; [intros code cmd Hc; unfold get_operational_params;
          unfold bind at 1, lift at 1; rewrite Hc; run_unsent_built Hs|].
  split; [intros op_state cmd Hc; unfold set_op_state;
          unfold bind at 1, lift at 1; rewrite Hc; run_unsent_built Hs|].
  split; [intros opRegion cmd Hc; unfold set_op_region;
          unfold bind at 1, lift at 1; rewrite Hc; run_unsent_built Hs|].
  split; [intros p1 p2 p3 p4 cmd Hc; unfold set_tx_power;
          unfold bind at 1, lift at 1; rewrite Hc; run_unsent_built Hs|].
  split; [intros a1 a2 a3 a4 vector cmd Hv Hc; unfold set_ant_enables;
          unfold bind at 1, lift at 1; rewrite Hv; cbv beta iota;
          unfold bind at 1, lift at 1; rewrite Hc; run_unsent_built Hs|].
  split; [intros code value cmd Hc; unfold set_operational_param;
          unfold bind at 1, lift at 1; rewrite Hc; run_unsent_built Hs|].
  intros f1 f2 f3 f4 f5 f6 mask cmd Hm Hc. unfold set_event_mask.
  unfold bind at 1, lift at 1. rewrite Hm. cbv beta iota.
  unfold bind at 1, lift at 1. rewrite Hc. run_unsent_built Hs.
Qed.

Lemma operations_on_send_error_witness :
  let ser := unwritable "[serial_send] write failed" in
  let e := "[serial_send] write failed" in
  get_temp ser initial_state
  = (Ret (Some e, None), after_send initial_state get_temp_cmd (Some e))
  /\ set_operational_param ser 6 "0001" 63016 initial_state
     = (Ret (Some e),
        after_send initial_state
          [xf6; x28; x00; x0a; x00; x0a; x00; x01; x00; x00; xf6; x28] (Some e))
  /\ set_tx_power ser 6 27 27 0 0 initial_state
     = (Ret (Some e),
        after_send initial_state
          [xf6; x28; x00; x0c; x00; x05; x0a; x8c; x0a; x8c; x00; x00; x00; x00]
          (Some e)).
Proof.
  pose proof (operations_on_send_error (unwritable "[serial_send] write failed") 6
                initial_state "[serial_send] write failed" eq_refl) as H.
  split; [apply H|]. split.
  - apply H. reflexivity.
  - apply H. reflexivity.
Defined.

Lemma failed_sends_snoc (ser : SerialPort) (msg : bytes) (k n : nat) :
  failed_sends ser msg k (S n)
  = [Sent msg (send_result ser k); Waited 1000] ++ failed_sends ser msg (S k) n.
Proof.
  unfold failed_sends. cbn [seq flat_map app]. rewrite Nat.add_0_r. do 2 f_equal.
  rewrite <- seq_shift, flat_map_concat_map, map_map, <- flat_map_concat_map.
  apply flat_map_ext. intros i. now rewrite Nat.add_succ_r.
Qed.

Lemma retry_loop_send_errors (ser : SerialPort) (set_response : pyobj)
  (stop : bytes -> bool) (bound : Z) (msg : bytes) :
  forall (n fuel : nat) (count : Z) (error : option string) (res : option bytes)
         (st : state),
    count + Z.of_nat n = bound ->
    (n < fuel)%nat ->
    (forall i, (i < n)%nat -> send_result ser (sends st + i) <> None) ->
    while_ fuel (retry_cond bound) (retry_body ser set_response stop msg)
      (count, error, res) st
    = (Ret (bound,
            match n with
            | O => error
            | S m => send_result ser (sends st + m)
            end, res),
       {| sends := (sends st + n)%nat; receives := receives st; reads := reads st;
          trace := trace st ++ failed_sends ser msg (sends st) n |}).
Proof.
  induction n as [|n IH]; intros fuel count error res st Hcount Hfuel Hfail;
    (destruct fuel as [|fuel]; [lia|]); cbn [while_]; unfold retry_cond at 1.
  - replace (count <? bound) with false by (symmetry; apply Z.ltb_ge; lia).
    replace count with bound by lia. destruct st as [s r d t].
    cbn [sends receives reads trace failed_sends seq flat_map].
    now rewrite Nat.add_0_r, app_nil_r.
  - replace (count <? bound) with true by (symmetry; apply Z.ltb_lt; lia).
    pose proof (Hfail 0%nat ltac:(lia)) as H0. rewrite Nat.add_0_r in H0.
    unfold retry_body at 1, send_cmd, serial_send, wait_ms, emit, bind, ret.
    destruct (send_result ser (sends st)) as [e|] eqn:Hsend; [|congruence].
    cbn [sends receives reads trace].
    rewrite IH; cbn [sends receives reads trace]; [|lia|lia|].
    + rewrite failed_sends_snoc, Hsend, <- !app_assoc. cbn [app].
      f_equal.
      * destruct n as [|m]; [now rewrite Nat.add_0_r, Hsend|].
        replace (S (sends st) + m)%nat with (sends st + S m)%nat by lia.
        reflexivity.
      * f_equal. lia.
    + intros i Hi. replace (S (sends st) + i)%nat with (sends st + S i)%nat by lia.
      apply Hfail. lia.
Qed.

(** X8. When every [serial_send] fails, [keep_alive] hands the keep-alive
    command to the port fifteen times, a second apart, never reads, and
    returns the error of the last send with no aliveness; on the same port
    [wait_for_response_long] does so five times and returns [None] for the
    response. *)
Theorem keep_alive_on_send_errors (ser : SerialPort) (fuel : nat) (st : state) :
  (15 < fuel)%nat ->
  (forall i, (i < 15)%nat -> send_result ser (sends st + i) <> None) ->
  keep_alive ser fuel st
  = (Ret (send_result ser (sends st + 14), None),
     {| sends := (sends st + 15)%nat; receives := receives st; reads := reads st;
        trace := trace st ++ failed_sends ser keep_alive_cmd (sends st) 15 |})
  /\ forall set_response,
      wait_for_response_long ser fuel set_response st
      = (Ret (send_result ser (sends st + 4), None),
         {| sends := (sends st + 5)%nat; receives := receives st; reads := reads st;
            trace := trace st ++ failed_sends ser keep_alive_cmd (sends st) 5 |}).
Proof.
  intros Hfuel Hfail. split.
  - rewrite keep_alive_loop.
    rewrite (retry_loop_send_errors ser (PyInt REC_TIMEOUT) _ 15 keep_alive_cmd
               15 fuel 0 None None st) by (try reflexivity; try lia; assumption).
    destruct (send_result ser (sends st + 14)) as [e|] eqn:He; [reflexivity|].
    exfalso. apply (Hfail 14%nat); [lia|exact He].
  - intros set_response. rewrite wait_for_response_long_loop.
    rewrite (retry_loop_send_errors ser set_response _ 5 keep_alive_cmd
               5 fuel 0 None None st);
      [reflexivity|reflexivity|lia|intros i Hi; apply Hfail; lia].
Qed.

Lemma keep_alive_on_send_errors_witness :
  keep_alive (unwritable "[serial_send] write failed") 16 initial_state
  = (Ret (Some "[serial_send] write failed", None),
     {| sends := 15; receives := 0; reads := 0;
        trace := failed_sends (unwritable "[serial_send] write failed")
                   keep_alive_cmd 0 15 |}).
Proof.
  apply (keep_alive_on_send_errors (unwritable "[serial_send] write failed") 16
           initial_state).
  - lia.
  - intros i _. discriminate.
Defined.

(** ** What the get operations return *)

Lemma int_from_bytes_slice (lo hi : nat) (res : bytes) :
  0 <= int_from_bytes (slice lo hi res) < 256 ^ Z.of_nat (hi - lo).
Proof.
  split; [apply int_from_bytes_nonneg|].
  eapply Z.lt_le_trans; [apply int_from_bytes_bound|].
  apply Z.pow_le_mono_r; [lia|].
  unfold slice. rewrite length_firstn. lia.
Qed.

Lemma int_from_bytes_signed_slice (lo : nat) (res : bytes) :
  -32768 <= int_from_bytes_signed (slice lo (lo + 2) res) < 32768.
Proof.
  pose proof (int_from_bytes_slice lo (lo + 2) res) as Hu.
  assert (Hlen : (List.length (slice lo (lo + 2) res) <= 2)%nat).
  { unfold slice. rewrite length_firstn. lia. }
  pose proof (int_from_bytes_bound (slice lo (lo + 2) res)) as Hb.
  unfold int_from_bytes_signed.
  destruct (slice lo (lo + 2) res) as [|a [|b [|c l]]] eqn:Hl;
    cbn [List.length] in *; [lia| | |lia].
  - change (2 ^ (8 * Z.of_nat 1 - 1)) with 128.
    change (2 ^ (8 * Z.of_nat 1)) with 256.
    change (256 ^ Z.of_nat 1) with 256 in Hb.
    destruct (Z.leb_spec 128 (int_from_bytes [a])); lia.
  - change (2 ^ (8 * Z.of_nat 2 - 1)) with 32768.
    change (2 ^ (8 * Z.of_nat 2)) with 65536.
    change (256 ^ Z.of_nat 2) with 65536 in Hb.
    destruct (Z.leb_spec 32768 (int_from_bytes [a; b])); lia.
Qed.

Lemma length_string_of_list_byte (l : bytes) :
  String.length (string_of_list_byte l) = List.length l.
Proof.
  induction l as [|b l IH]; [reflexivity|].
  cbn [string_of_list_byte List.map string_of_list_ascii String.length List.length].
  unfold string_of_list_byte in IH. now rewrite IH.
Qed.

Lemma decode_utf8_length (lo hi : nat) (res : bytes) (s : string) :
  decode_utf8 (slice lo hi res) = Ret s -> (String.length s <= hi - lo)%nat.
Proof.
  unfold decode_utf8. destruct (utf8_valid _); [|discriminate].
  intros H. inversion H. rewrite length_string_of_list_byte.
  unfold slice. rewrite length_firstn. lia.
Qed.

Lemma decode_utf8_raises (b : bytes) :
  match decode_utf8 b with
  | Ret _ => True
  | Raise ex => ex = UnicodeDecodeError
  | OutOfFuel => False
  end.
Proof.
  unfold decode_utf8. destruct (utf8_valid b); [exact I|reflexivity].
Qed.

Lemma word_hundredths_slice (lo : nat) (res : bytes) :
  word_hundredths (Qmake (int_from_bytes (slice lo (lo + 2) res)) 100).
Proof.
  exists (int_from_bytes (slice lo (lo + 2) res)). split; [|reflexivity].
  pose proof (int_from_bytes_slice lo (lo + 2) res) as H.
  replace (lo + 2 - lo)%nat with 2%nat in H by lia. exact H.
Qed.

Ltac get_steps ser st :=
  unfold request, send_cmd, serial_send, wait_ms, emit, wait_for_response_short,
    serial_receive, subscript, bind, lift, ret;
  cbv beta iota; cbn [sends receives reads trace fst snd];
  destruct (send_result ser (sends st)) as [?|] eqn:Hs; cbv beta iota;
  [exact I|];
  cbn [sends receives reads trace fst snd];
  let e := fresh "e" in
  let d := fresh "d" in
  destruct (receive_result ser (receives st)) as [e [d|]] eqn:Hr; cbv beta iota;
  cbn [sends receives reads trace fst snd];
  [ destruct e as [?|]; [exact I|];
    match goal with
    | |- context [success_and_opcode ?r ?o] =>
        destruct (success_and_opcode r o); cbv beta iota; cbn [fst];
        [|exact I]
    end
  | left; repeat split; reflexivity ].

(** X9. Whatever the port does, each get operation ends in one of three
    ways: it returns an error string and no value; it returns no error and a
    value, whose numbers are within the range of the fields they were read
    from (a temperature that is never negative, transmit powers between 0 and
    655.35, signed 16-bit tag powers, a name out of a fixed list for the
    operating state and the reply reason); or it raises.  It raises
    [AttributeError] exactly out of a response that is [None], and beyond
    that only [get_version] and [get_op_region] can raise, on text that is
    not UTF-8, and [get_temp], on a quotient too large for a float. *)
Theorem get_operations_outcomes (ser : SerialPort) (st : state) :
  get_outcome ser st version_in_range (eq UnicodeDecodeError)
    (fst (get_version ser st))
  /\ get_outcome ser st hundredths (eq OverflowError) (fst (get_temp ser st))
  /\ get_outcome ser st region_in_range (eq UnicodeDecodeError)
       (fst (get_op_region ser st))
  /\ get_outcome ser st tx_power_in_range never (fst (get_tx_power ser st))
  /\ get_outcome ser st anything never (fst (get_ant_enables ser st))
  /\ get_outcome ser st (fun s => In s op_state_names) never
       (fst (get_op_state ser st))
  /\ get_outcome ser st anything never (fst (get_event_mask ser st))
  /\ get_outcome ser st tag_report_in_range never (fst (get_tag_report ser st)).
Proof.
  split; [|split; [|split; [|split; [|split; [|split; [|split]]]]]].
  - unfold get_outcome, get_version.
    change (build_cmd "0004" "0004" NoWord) with (Ret get_version_cmd).
    get_steps ser st.
    repeat match goal with
           | |- context [decode_utf8 (slice ?lo ?hi ?r)] =>
               let H := fresh "Hd" in
               pose proof (decode_utf8_raises (slice lo hi r)) as H;
               pose proof (decode_utf8_length lo hi r) as ?;
               destruct (decode_utf8 (slice lo hi r)) as [?|?|];
               cbn [fst]; [|right; now subst|contradiction]
           end.
    unfold version_in_range.
    cbn [FirmwareRev SDKRev SoftwareRev HardwareRev].
    repeat split;
      match goal with
      | H : forall s, Ret ?a = Ret s -> _ |- (String.length ?a <= _)%nat =>
          apply (H a eq_refl)
      end.
  - unfold get_outcome, get_temp.
    change (build_cmd "0004" "0013" NoWord) with (Ret get_temp_cmd).
    get_steps ser st.
    unfold div100.
    match goal with
    | |- context [int_from_bytes ?l] =>
        pose proof (int_from_bytes_nonneg l) as Hn;
        destruct (float_max_bound * 100 <=? int_from_bytes l); cbn [fst];
        [right; reflexivity|exists (int_from_bytes l); now split]
    end.
  - unfold get_outcome, get_op_region.
    change (build_cmd "0004" "0003" NoWord) with (Ret get_op_region_cmd).
    get_steps ser st.
    match goal with
    | |- context [decode_utf8 (slice ?lo ?hi ?r)] =>
        pose proof (decode_utf8_raises (slice lo hi r)) as Hd;
        pose proof (decode_utf8_length lo hi r) as Hl;
        destruct (decode_utf8 (slice lo hi r)) as [s|?|];
        cbn [fst]; [exact (Hl s eq_refl)|right; now subst|contradiction]
    end.
  - unfold get_outcome, get_tx_power.
    change (build_cmd "0004" "0006" NoWord) with (Ret get_tx_power_cmd).
    get_steps ser st.
    rewrite (div100_word 8), (div100_word 10), (div100_word 12), (div100_word 14).
    cbn [fst]. unfold tx_power_in_range.
    cbn [ant1power ant2power ant3power ant4power].
    repeat split; [apply (word_hundredths_slice 8)|apply (word_hundredths_slice 10)
                  |apply (word_hundredths_slice 12)|apply (word_hundredths_slice 14)].
  - unfold get_outcome, get_ant_enables.
    change (build_cmd "0004" "000F" NoWord) with (Ret get_ant_enables_cmd).
    get_steps ser st. exact I.
  - unfold get_outcome, get_op_state.
    change (build_cmd "0004" "000D" NoWord) with (Ret get_op_state_cmd).
    get_steps ser st.
    unfold op_state_of, op_state_names.
    repeat match goal with
           | |- context [?a =? ?b] => destruct (a =? b)
           end; cbn [In]; tauto.
  - unfold get_outcome, get_event_mask.
    change (build_cmd "0004" "0015" NoWord) with (Ret get_event_mask_cmd).
    get_steps ser st. exact I.
  - unfold get_outcome, get_tag_report.
    change (build_cmd "0006" "0009" (WByt "0000")) with (Ret get_tag_report_cmd).
    get_steps ser st.
    unfold tag_report_in_range.
    cbn [replyReason powerRSSIRaw powerdBm timestamp antenna epcLength].
    split; [|split; [|split; [|split; [|split]]]].
    + unfold reply_reason_of, reply_reason_names.
      repeat match goal with
             | |- context [?a =? ?b] => destruct (a =? b)
             end; cbn [In]; tauto.
    + apply (int_from_bytes_signed_slice 10).
    + apply (int_from_bytes_signed_slice 12).
    + apply (int_from_bytes_slice 14 18).
    + apply (int_from_bytes_slice 18 20).
    + apply int_from_bytes_nonneg.
Qed.

(** ** More on the trimming of the response *)

Lemma trim_response_single_frame (set_response : pyobj) (body extra : bytes) :
  marker_count (body ++ extra) = 0%nat ->
  (2 <= List.length body)%nat ->
  int_from_bytes (slice 0 2 body) = Z.of_nat (List.length body) ->
  trim_response set_response ((UHFBytes.FRAMING_BYTES ++ body) ++ extra)
  = UHFBytes.FRAMING_BYTES ++ body.
Proof.
  intros Hm Hlen Hfield.
  rewrite trim_response_few.
  - unfold cut_to_length.
    assert (Hs : slice 2 4 ((UHFBytes.FRAMING_BYTES ++ body) ++ extra)
                 = slice 0 2 body).
    { destruct body as [|a [|b body]]; cbn [List.length] in Hlen; try lia.
      reflexivity. }
    rewrite Hs, Hfield.
    replace (Z.to_nat (Z.of_nat (List.length body) + 2))
      with (List.length (UHFBytes.FRAMING_BYTES ++ body) + 0)%nat
      by (rewrite length_app; cbn [List.length UHFBytes.FRAMING_BYTES]; lia).
    rewrite firstn_app_2. cbn [firstn]. apply app_nil_r.
  - rewrite <- app_assoc.
    change (UHFBytes.FRAMING_BYTES ++ body ++ extra)
      with ([] ++ UHFBytes.FRAMING_BYTES ++ body ++ extra).
    rewrite (marker_count_app [] (body ++ extra) eq_refl), Hm. lia.
Qed.

(** X10. A buffer that starts with the framing bytes of a frame whose
    length field is right, and in which the framing pattern occurs nowhere
    else (not in the rest of the frame, not in the bytes that follow it, not
    across the two), comes out of [wait_for_response_short] as that frame,
    whole and without the bytes that follow, whatever opcode is expected. *)
Theorem wait_for_response_short_keeps_frame (ser : SerialPort) (st : state)
  (set_response : pyobj) (rec_timeout : Z) (error : option string)
  (body extra : bytes) :
  receive_result ser (receives st)
  = (error, Some ((UHFBytes.FRAMING_BYTES ++ body) ++ extra)) ->
  marker_count (body ++ extra) = 0%nat ->
  (2 <= List.length body)%nat ->
  int_from_bytes (slice 0 2 body) = Z.of_nat (List.length body) ->
  fst (wait_for_response_short ser set_response rec_timeout st)
  = Ret (error, UHFBytes.FRAMING_BYTES ++ body).
Proof.
  intros Hr Hm Hlen Hfield.
  unfold wait_for_response_short, serial_receive, bind, lift, ret.
  rewrite Hr. cbn [fst].
  now rewrite (trim_response_single_frame set_response body extra Hm Hlen Hfield).
Qed.

Lemma wait_for_response_short_keeps_frame_witness :
  fst (wait_for_response_short
         (scripted [received (temp_response ++ [x00; x0d; x0a])])
         (PyBytes UHFBytes.GET_VERSION) REC_TIMEOUT initial_state)
  = Ret (None, temp_response).
Proof.
  apply (wait_for_response_short_keeps_frame
           (scripted [received (temp_response ++ [x00; x0d; x0a])])
           initial_state (PyBytes UHFBytes.GET_VERSION) REC_TIMEOUT None
           [x00; x08; x80; x13; x00; x00; x10; x64] [x00; x0d; x0a]).
  - reflexivity.
  - reflexivity.
  - cbn [List.length]. lia.
  - reflexivity.
Defined.

Lemma cut_to_length_length (res : bytes) :
  (List.length (cut_to_length res) <= List.length res)%nat
  /\ Z.of_nat (List.length (cut_to_length res)) <= 65537.
Proof.
  unfold cut_to_length. rewrite length_firstn.
  pose proof (int_from_bytes_slice 2 4 res) as H.
  change (256 ^ Z.of_nat (4 - 2)) with 65536 in H. lia.
Qed.

(** X11. The response [wait_for_response_short] returns is never longer
    than what the port returned, holds at most 65537 bytes, and is empty
    only when the port returned the empty bytes: the trimming drops bytes,
    it never makes a response out of nothing nor loses one entirely. *)
Theorem wait_for_response_short_shrinks (ser : SerialPort) (st : state)
  (set_response : pyobj) (rec_timeout : Z) (error : option string) (data : bytes) :
  receive_result ser (receives st) = (error, Some data) ->
  exists res,
    fst (wait_for_response_short ser set_response rec_timeout st) = Ret (error, res)
    /\ (List.length res <= List.length data)%nat
    /\ Z.of_nat (List.length res) <= 65537
    /\ (res = [] <-> data = []).
Proof.
  intros Hr.
  exists (trim_response set_response data). split.
  { unfold wait_for_response_short, serial_receive, bind, lift, ret.
    now rewrite Hr. }
  assert (Hlen : (List.length (trim_response set_response data)
                  <= List.length data)%nat
                 /\ Z.of_nat (List.length (trim_response set_response data))
                    <= 65537).
  { destruct (Nat.le_gt_cases (marker_count data) 1) as [Hfew|Hmany].
    - rewrite (trim_response_few set_response data Hfew).
      apply cut_to_length_length.
    - destruct (trim_response_many set_response data)
        as (f0 & f1 & f2 & rest & Hd & _ & _ & _ & _ & Ht); [lia|].
      rewrite Ht. split; [|apply cut_to_length_length].
      eapply Nat.le_trans; [apply cut_to_length_length|].
      rewrite Hd.
      destruct (py_eq (slice 4 6 (UHFBytes.FRAMING_BYTES ++ f2)) set_response);
        rewrite !length_app; cbn [List.length UHFBytes.FRAMING_BYTES]; lia. }
  split; [apply Hlen|]. split; [apply Hlen|].
  rewrite <- (trim_response_empty set_response data).
  rewrite bytes_eqb_eq. reflexivity.
Qed.

Lemma wait_for_response_short_shrinks_witness :
  exists res,
    fst (wait_for_response_short
           (scripted [received (keep_alive_reply ++ temp_response)])
           (PyBytes UHFBytes.GET_TEMP) REC_TIMEOUT initial_state)
    = Ret (None, res)
    /\ (List.length res <= List.length (keep_alive_reply ++ temp_response))%nat
    /\ Z.of_nat (List.length res) <= 65537
    /\ (res = [] <-> keep_alive_reply ++ temp_response = []).
Proof.
  apply (wait_for_response_short_shrinks
           (scripted [received (keep_alive_reply ++ temp_response)])
           initial_state (PyBytes UHFBytes.GET_TEMP) REC_TIMEOUT None
           (keep_alive_reply ++ temp_response)).
  reflexivity.
Defined.

Lemma trim_response_first_of_two (set_response : pyobj) (stray target : bytes) :
  marker_count stray = 0%nat ->
  marker_count target = 0%nat ->
  py_eq (slice 4 6 (UHFBytes.FRAMING_BYTES ++ target)) set_response = false ->
  trim_response set_response
    ((UHFBytes.FRAMING_BYTES ++ stray) ++ (UHFBytes.FRAMING_BYTES ++ target))
  = cut_to_length (UHFBytes.FRAMING_BYTES ++ stray).
Proof.
  intros Hs Ht He. unfold trim_response, bytes_split.
  rewrite <- app_assoc.
  change (UHFBytes.FRAMING_BYTES ++ stray ++ UHFBytes.FRAMING_BYTES ++ target)
    with ([] ++ UHFBytes.FRAMING_BYTES ++ stray ++ UHFBytes.FRAMING_BYTES ++ target).
  rewrite (split_at_marker [] eq_refl [] (stray ++ UHFBytes.FRAMING_BYTES ++ target)).
  rewrite (split_at_marker stray Hs), (split_no_marker target Ht).
  cbn [List.length Nat.ltb Nat.leb nth rev app].
  rewrite He. reflexivity.
Qed.

(** X12. [keep_alive] awaits its response with the int [REC_TIMEOUT] in
    the place of the expected opcode, which no frame matches: out of a
    buffer of two frames it always judges the first one.  So when the reply
    to the keep-alive comes behind a frame of another opcode, [keep_alive]
    reports that the module could not be kept alive, after a single
    command. *)
Theorem keep_alive_judges_first_frame (ser : SerialPort) (fuel : nat) (st : state)
  (stray target : bytes) :
  (0 < fuel)%nat ->
  send_result ser (sends st) = None ->
  receive_result ser (receives st)
  = (None, Some ((UHFBytes.FRAMING_BYTES ++ stray)
                   ++ (UHFBytes.FRAMING_BYTES ++ target))) ->
  marker_count stray = 0%nat ->
  marker_count target = 0%nat ->
  exists st',
    keep_alive ser fuel st
    = (Ret (if success_and_opcode (cut_to_length (UHFBytes.FRAMING_BYTES ++ stray))
                 UHFBytes.KEEP_ALIVE
            then (None, Some true)
            else (Some "Unable to keep UHF module alive", None)), st')
    /\ sent_cmds (trace st') = sent_cmds (trace st) ++ [keep_alive_cmd].
Proof.
  intros Hfuel Hs Hr Hstray Htarget.
  destruct fuel as [|fuel]; [lia|].
  rewrite keep_alive_loop. cbn [while_]. unfold retry_cond at 1.
  change (0 <? 15) with true. cbv iota.
  unfold retry_body at 1, send_cmd, serial_send, wait_ms, emit,
    wait_for_response_short, serial_receive, bind, lift, ret.
  rewrite Hs. cbn [sends receives reads trace]. rewrite Hr.
  destruct (bytes_eqb (trim_response (PyInt REC_TIMEOUT)
                         ((UHFBytes.FRAMING_BYTES ++ stray)
                            ++ UHFBytes.FRAMING_BYTES ++ target)) []) eqn:E.
  { apply trim_response_empty in E. discriminate. }
  cbn [negb]. cbv iota beta.
  rewrite (trim_response_first_of_two (PyInt REC_TIMEOUT) stray target Hstray Htarget)
    by reflexivity.
  eexists. split.
  - destruct (success_and_opcode _ _); reflexivity.
  - cbn [trace]. rewrite !sent_cmds_app. cbn [sent_cmds]. now rewrite app_nil_r.
Qed.

Lemma keep_alive_judges_first_frame_witness :
  exists st',
    keep_alive (scripted [received (temp_response ++ keep_alive_reply)]) 16
      initial_state
    = (Ret (Some "Unable to keep UHF module alive", None), st')
    /\ sent_cmds (trace st') = sent_cmds (trace initial_state) ++ [keep_alive_cmd].
Proof.
  apply (keep_alive_judges_first_frame
           (scripted [received (temp_response ++ keep_alive_reply)]) 16
           initial_state
           [x00; x08; x80; x13; x00; x00; x10; x64]
           [x00; x06; x80; x01; x00; x00]);
    [lia|reflexivity|reflexivity|reflexivity|reflexivity].
Defined.

(** ** Building commands *)

Lemma all_bits_spec (f : Z -> bool) (k : nat) :
  forall acc, all_bits k f acc = true ->
  forall z, acc * 2 ^ Z.of_nat k <= z < (acc + 1) * 2 ^ Z.of_nat k -> f z = true.
Proof.
  induction k as [|k IH]; intros acc H z Hz.
  - cbn [all_bits] in H. change (2 ^ Z.of_nat 0) with 1 in Hz.
    replace z with acc by lia. exact H.
  - cbn [all_bits] in H. apply andb_prop in H as [H0 H1].
    rewrite Nat2Z.inj_succ, Z.pow_succ_r in Hz by lia.
    destruct (Z.lt_ge_cases z ((2 * acc + 1) * 2 ^ Z.of_nat k)).
    + apply (IH (2 * acc) H0). lia.
    + apply (IH (2 * acc + 1) H1). lia.
Qed.

Lemma hex4_all : all_bits 16 hex4_ok 0 = true.
Proof. vm_compute. reflexivity. Qed.

Lemma hex4_shape (n : Z) :
  0 <= n < 65536 ->
  exists a b c d ha hb hc hd,
    int_to_hex_string n 4 = String a (String b (String c (String d EmptyString)))
    /\ hex_digit a = Some ha /\ hex_digit b = Some hb
    /\ hex_digit c = Some hc /\ hex_digit d = Some hd
    /\ is_space a = false /\ is_space c = false
    /\ 16 * ha + hb = n / 256 /\ 16 * hc + hd = n mod 256
    /\ ha < 16 /\ hb < 16 /\ hc < 16 /\ hd < 16.
Proof.
  intros Hn.
  pose proof (all_bits_spec hex4_ok 16 0 hex4_all n) as H.
  change (2 ^ Z.of_nat 16) with 65536 in H. specialize (H ltac:(lia)).
  unfold hex4_ok in H.
  destruct (int_to_hex_string n 4) as [|a [|b [|c [|d [|]]]]]; try discriminate.
  destruct (hex_digit a) as [ha|] eqn:Ha; [|discriminate].
  destruct (hex_digit b) as [hb|] eqn:Hb; [|discriminate].
  destruct (hex_digit c) as [hc|] eqn:Hc; [|discriminate].
  destruct (hex_digit d) as [hd|] eqn:Hd; [|discriminate].
  repeat (apply andb_prop in H; destruct H as [H ?]).
  exists a, b, c, d, ha, hb, hc, hd.
  repeat match goal with
         | H : negb _ = true |- _ => apply negb_true_iff in H
         | H : (_ =? _) = true |- _ => apply Z.eqb_eq in H
         | H : (_ <? _) = true |- _ => apply Z.ltb_lt in H
         end.
  repeat split; try assumption; reflexivity.
Qed.

Lemma be_digits_2 (n : Z) :
  0 <= n < 65536 ->
  be_digits 2 n = [byte_of_Z (n / 256); byte_of_Z (n mod 256)].
Proof.
  intros Hn. cbn [be_digits app].
  rewrite (Z.mod_small (n / 256) 256); [reflexivity|].
  split; [apply Z.div_pos; lia|apply Z.div_lt_upper_bound; lia].
Qed.

Lemma fromhex_hex4 (n : Z) (rest : string) :
  0 <= n < 65536 ->
  fromhex (int_to_hex_string n 4 ++ rest)
  = rbind (fromhex rest) (fun r => Ret (be_digits 2 n ++ r)).
Proof.
  intros Hn.
  destruct (hex4_shape n Hn)
    as (a & b & c & d & ha & hb & hc & hd & -> & Ha & Hb & Hc & Hd & Hsa & Hsc
        & Hhi & Hlo & _).
  rewrite (be_digits_2 n Hn).
  cbn [String.append fromhex]. rewrite Hsa, Ha, Hb, Hsc, Hc, Hd, Hhi, Hlo.
  destruct (fromhex rest); reflexivity.
Qed.

Lemma int_of_str_hex4 (n : Z) :
  0 <= n < 65536 -> int_of_str (int_to_hex_string n 4) 16 = Ret n.
Proof.
  intros Hn.
  destruct (hex4_shape n Hn)
    as (a & b & c & d & ha & hb & hc & hd & -> & Ha & Hb & Hc & Hd & _ & _
        & Hhi & Hlo & Hla & Hlb & Hlc & Hld).
  unfold int_of_str. cbn [digits_value]. rewrite Ha, Hb, Hc, Hd.
  apply Z.ltb_lt in Hla, Hlb, Hlc, Hld. rewrite Hla, Hlb, Hlc, Hld.
  f_equal. pose proof (Z.div_mod n 256 ltac:(lia)). lia.
Qed.

Lemma byte_val_of_Z (z : Z) : 0 <= z < 256 -> byte_val (byte_of_Z z) = z.
Proof.
  intros Hz. unfold byte_val, byte_of_Z.
  destruct (Byte.of_N (Z.to_N z)) as [b|] eqn:E.
  - apply Byte.to_of_N in E. rewrite E. lia.
  - apply Byte.of_N_None_iff in E. lia.
Qed.

Lemma int_from_bytes_be_digits_2 (n : Z) :
  0 <= n < 65536 -> int_from_bytes (be_digits 2 n) = n.
Proof.
  intros Hn. rewrite (be_digits_2 n Hn). unfold int_from_bytes. cbn [fold_left].
  rewrite !byte_val_of_Z.
  - pose proof (Z.div_mod n 256 ltac:(lia)). lia.
  - apply Z.mod_pos_bound. lia.
  - split; [apply Z.div_pos; lia|apply Z.div_lt_upper_bound; lia].
Qed.

Lemma fromhex_hex4_nil (n : Z) :
  0 <= n < 65536 -> fromhex (int_to_hex_string n 4) = Ret (be_digits 2 n).
Proof.
  intros Hn.
  assert (E : (int_to_hex_string n 4 ++ "")%string = int_to_hex_string n 4).
  { induction (int_to_hex_string n 4) as [|c s IH]; [reflexivity|].
    cbn [String.append]. now rewrite IH. }
  rewrite <- E, fromhex_hex4 by exact Hn.
  cbn [fromhex rbind]. now rewrite app_nil_r.
Qed.

(** X13. For a 16-bit value, [int_to_hex_string] gives four hexadecimal
    digits that [int(..., 16)] reads back as the value and that
    [bytes.fromhex] turns into its two bytes, most significant first. *)
Theorem int_to_hex_string_round_trip (n : Z) :
  0 <= n < 65536 ->
  String.length (int_to_hex_string n 4) = 4%nat
  /\ int_of_str (int_to_hex_string n 4) 16 = Ret n
  /\ fromhex (int_to_hex_string n 4) = Ret (be_digits 2 n)
  /\ int_from_bytes (be_digits 2 n) = n.
Proof.
  intros Hn. split; [|split; [|split]].
  - destruct (hex4_shape n Hn) as (a & b & c & d & _ & _ & _ & _ & -> & _).
    reflexivity.
  - apply int_of_str_hex4, Hn.
  - apply fromhex_hex4_nil, Hn.
  - apply int_from_bytes_be_digits_2, Hn.
Qed.

Lemma int_to_hex_string_round_trip_witness :
  String.length (int_to_hex_string 8 4) = 4%nat
  /\ int_of_str (int_to_hex_string 8 4) 16 = Ret 8
  /\ fromhex (int_to_hex_string 8 4) = Ret (be_digits 2 8)
  /\ int_from_bytes (be_digits 2 8) = 8.
Proof.
  apply (int_to_hex_string_round_trip 8). lia.
Defined.

Lemma fromhex_msg_str (len op : Z) :
  0 <= len < 65536 -> 0 <= op < 65536 ->
  fromhex ("F6 28" ++ " " ++ int_to_hex_string len 4 ++ " "
             ++ int_to_hex_string op 4)
  = Ret (header len op).
Proof.
  intros Hlen Hop.
  assert (H : forall rest bs,
             fromhex rest = Ret bs ->
             fromhex ("F6 28" ++ " " ++ rest) = Ret (xf6 :: x28 :: bs)).
  { intros rest bs E. simpl. rewrite E. reflexivity. }
  apply H. rewrite (fromhex_hex4 len _ Hlen).
  cbn [String.append]. change (fromhex (String " " ?s)) with (fromhex s).
  rewrite (fromhex_hex4_nil op Hop). reflexivity.
Qed.

Lemma padded_length (len : Z) (m : bytes) :
  Z.of_nat (List.length (padded len m)) = Z.max (Z.of_nat (List.length m)) len.
Proof.
  unfold padded. rewrite length_app, repeat_length. lia.
Qed.

(** X14. [build_cmd], given a length and an opcode written with
    [int_to_hex_string]: without words the command is the six-byte header,
    framing bytes, length and opcode, most significant byte first; with
    words, these follow the header, and zeros are added while the command
    is shorter than the length, framing bytes counted.  So the command has
    the length its length field announces, which leaves the two framing
    bytes out, exactly when the words alone fill it.  A word outside the
    range of its bytes raises [OverflowError]. *)
Theorem build_cmd_layout (len op : Z) :
  0 <= len < 65536 -> 0 <= op < 65536 ->
  let build := build_cmd (int_to_hex_string len 4) (int_to_hex_string op 4) in
  build NoWord = Ret (header len op)
  /\ (forall s,
         build (WStr s) = Ret (padded len (header len op ++ str_encode s ++ [x00])))
  /\ (forall w1,
         fits 2 w1 ->
         build (WInt w1) = Ret (padded len (header len op ++ be_digits 2 w1)))
  /\ (forall w1 w2 w3 w4,
         fits 2 w1 -> fits 2 w2 -> fits 2 w3 -> fits 2 w4 ->
         build (WInt4 w1 w2 w3 w4)
         = Ret (padded len (header len op ++ be_digits 2 w1 ++ be_digits 2 w2
                              ++ be_digits 2 w3 ++ be_digits 2 w4)))
  /\ (forall w1,
         fits 4 w1 ->
         build (WInt32 w1) = Ret (padded len (header len op ++ be_digits 4 w1)))
  /\ (forall w1, ~ fits 2 w1 -> build (WInt w1) = Raise OverflowError)
  /\ (forall w1, ~ fits 4 w1 -> build (WInt32 w1) = Raise OverflowError)
  /\ (forall m,
         Z.of_nat (List.length (padded len m))
         = Z.max (Z.of_nat (List.length m)) len
         /\ (Z.of_nat (List.length (padded len m)) = len + 2
             <-> Z.of_nat (List.length m) = len + 2)).
Proof.
  intros Hlen Hop build. unfold build, build_cmd.
  rewrite (fromhex_msg_str len op Hlen Hop), (int_of_str_hex4 len Hlen).
  assert (Hfit : forall n v, fits n v -> to_bytes v n = Ret (be_digits n v)).
  { intros n v [H0 H1]. unfold to_bytes.
    apply Z.leb_le in H0. apply Z.ltb_lt in H1. now rewrite H0, H1. }
  assert (Hunfit : forall n v, ~ fits n v -> to_bytes v n = Raise OverflowError).
  { intros n v H. unfold to_bytes, fits in *.
    destruct (Z.leb_spec 0 v); [|reflexivity].
    destruct (Z.ltb_spec v (256 ^ Z.of_nat n)); [lia|reflexivity]. }
  split; [reflexivity|].
  split; [reflexivity|].
  split; [intros w1 H1; rewrite (Hfit _ _ H1); reflexivity|].
  split.
  { intros w1 w2 w3 w4 H1 H2 H3 H4.
    rewrite (Hfit _ _ H1), (Hfit _ _ H2), (Hfit _ _ H3), (Hfit _ _ H4).
    reflexivity. }
  split; [intros w1 H1; rewrite (Hfit _ _ H1); reflexivity|].
  split; [intros w1 H1; rewrite (Hunfit _ _ H1); reflexivity|].
  split; [intros w1 H1; rewrite (Hunfit _ _ H1); reflexivity|].
  intros m. rewrite padded_length. split; [reflexivity|lia].
Qed.

Lemma build_cmd_layout_witness :
  let build := build_cmd (int_to_hex_string 12 4) (int_to_hex_string 5 4) in
  build NoWord = Ret (header 12 5)
  /\ (forall s,
         build (WStr s) = Ret (padded 12 (header 12 5 ++ str_encode s ++ [x00])))
  /\ (forall w1,
         fits 2 w1 ->
         build (WInt w1) = Ret (padded 12 (header 12 5 ++ be_digits 2 w1)))
  /\ (forall w1 w2 w3 w4,
         fits 2 w1 -> fits 2 w2 -> fits 2 w3 -> fits 2 w4 ->
         build (WInt4 w1 w2 w3 w4)
         = Ret (padded 12 (header 12 5 ++ be_digits 2 w1 ++ be_digits 2 w2
                             ++ be_digits 2 w3 ++ be_digits 2 w4)))
  /\ (forall w1,
         fits 4 w1 ->
         build (WInt32 w1) = Ret (padded 12 (header 12 5 ++ be_digits 4 w1)))
  /\ (forall w1, ~ fits 2 w1 -> build (WInt w1) = Raise OverflowError)
  /\ (forall w1, ~ fits 4 w1 -> build (WInt32 w1) = Raise OverflowError)
  /\ (forall m,
         Z.of_nat (List.length (padded 12 m))
         = Z.max (Z.of_nat (List.length m)) 12
         /\ (Z.of_nat (List.length (padded 12 m)) = 12 + 2
             <-> Z.of_nat (List.length m) = 12 + 2)).
Proof.
  apply (build_cmd_layout 12 5); lia.
Defined.

Lemma str_len_le (s : string) :
  0 <= str_len s <= Z.of_nat (List.length (str_encode s)).
Proof.
  unfold str_len. split; [lia|].
  apply Nat2Z.inj_le, filter_length_le.
Qed.

(** X15. The command of [set_op_region]: header, the region in UTF-8 and a
    zero byte, handed to the port once whatever the port answers.  Its
    length field counts the characters of the region, not its bytes, so the
    command has the length it announces exactly when the region is ASCII. *)
Theorem set_op_region_command (ser : SerialPort) (st : state) (region : string) :
  str_len region < 65531 ->
  let msg := header (5 + str_len region) 2 ++ str_encode region ++ [x00] in
  build_cmd (int_to_hex_string (4 + str_len region + 1) 4) "0002" (WStr region)
  = Ret msg
  /\ sent_cmds (trace (snd (set_op_region ser region st)))
     = sent_cmds (trace st) ++ [msg]
  /\ (int_from_bytes (slice 2 4 msg) + 2 = Z.of_nat (List.length msg)
      <-> str_len region = Z.of_nat (List.length (str_encode region))).
Proof.
  intros Hlen msg.
  pose proof (str_len_le region) as Hle.
  assert (Hn : 0 <= 5 + str_len region < 65536) by lia.
  assert (Hb : build_cmd (int_to_hex_string (4 + str_len region + 1) 4) "0002"
                 (WStr region) = Ret msg).
  { replace (4 + str_len region + 1) with (5 + str_len region) by lia.
    change "0002" with (int_to_hex_string 2 4).
    destruct (build_cmd_layout (5 + str_len region) 2 Hn ltac:(lia))
      as (_ & Hstr & _).
    rewrite Hstr. unfold padded, msg.
    replace (Z.to_nat _) with 0%nat; [now rewrite app_nil_r|].
    rewrite !length_app. unfold header. rewrite !length_app.
    cbn [List.length UHFBytes.FRAMING_BYTES be_digits app]. lia. }
  split; [exact Hb|]. split.
  - unfold set_op_region. rewrite Hb.
    unfold send_cmd, serial_send, wait_for_response_short, serial_receive,
      subscript, bind, lift, ret.
    cbv beta iota. cbn [sends receives reads trace fst snd].
    destruct (send_result ser (sends st)) as [e|]; cbv beta iota;
      cbn [sends receives reads trace fst snd].
    + now rewrite sent_cmds_app.
    + destruct (receive_result ser (receives st)) as [e [d|]]; cbv beta iota;
        cbn [sends receives reads trace fst snd].
      * destruct e as [e|];
          [|destruct (success_and_opcode _ _);
            [|destruct (negb _)]];
          cbn [snd trace]; rewrite !sent_cmds_app; cbn [sent_cmds];
          now rewrite app_nil_r.
      * rewrite !sent_cmds_app. cbn [sent_cmds]. now rewrite app_nil_r.
  - unfold msg, header. rewrite (be_digits_2 (5 + str_len region) Hn).
    cbn [UHFBytes.FRAMING_BYTES app slice skipn firstn Nat.sub].
    rewrite <- (be_digits_2 (5 + str_len region) Hn),
      (int_from_bytes_be_digits_2 _ Hn).
    cbn [List.length]. rewrite !length_app. cbn [List.length be_digits app]. lia.
Qed.

Lemma set_op_region_command_witness :
  let msg := header (5 + str_len "FCC") 2 ++ str_encode "FCC" ++ [x00] in
  build_cmd (int_to_hex_string (4 + str_len "FCC" + 1) 4) "0002" (WStr "FCC")
  = Ret msg
  /\ sent_cmds (trace (snd (set_op_region (scripted []) "FCC" initial_state)))
     = sent_cmds (trace initial_state) ++ [msg]
  /\ (int_from_bytes (slice 2 4 msg) + 2 = Z.of_nat (List.length msg)
      <-> str_len "FCC" = Z.of_nat (List.length (str_encode "FCC"))).
Proof.
  apply (set_op_region_command (scripted []) initial_state "FCC").
  vm_compute. reflexivity.
Defined.

(** ** Transmit powers *)

(** X16. [set_tx_power] on a power whose hundredfold does not fit 16 bits,
    a negative power or one above 655: [to_bytes] raises [OverflowError]
    while the command is built, before anything is handed to the port. *)
Theorem set_tx_power_out_of_range (ser : SerialPort) (fuel : nat) (st : state)
  (p1 p2 p3 p4 : Z) :
  ~ powers_fit p1 p2 p3 p4 ->
  set_tx_power ser fuel p1 p2 p3 p4 st = (Raise OverflowError, st).
Proof.
  intros Hout. unfold set_tx_power, build_cmd, lift, bind.
  match goal with
  | |- context [fromhex ?s] => set (h := fromhex s); vm_compute in h; subst h
  end.
  cbn [rbind]. unfold to_bytes.
  destruct ((0 <=? p1 * 100) && (p1 * 100 <? 256 ^ Z.of_nat 2)) eqn:E1;
    [|reflexivity].
  destruct ((0 <=? p2 * 100) && (p2 * 100 <? 256 ^ Z.of_nat 2)) eqn:E2;
    [|reflexivity].
  destruct ((0 <=? p3 * 100) && (p3 * 100 <? 256 ^ Z.of_nat 2)) eqn:E3;
    [|reflexivity].
  destruct ((0 <=? p4 * 100) && (p4 * 100 <? 256 ^ Z.of_nat 2)) eqn:E4;
    [|reflexivity].
  exfalso. apply Hout. unfold powers_fit, fits.
  apply andb_prop in E1 as [? ?], E2 as [? ?], E3 as [? ?], E4 as [? ?].
  repeat match goal with
         | H : (_ <=? _) = true |- _ => apply Z.leb_le in H
         | H : (_ <? _) = true |- _ => apply Z.ltb_lt in H
         end.
  repeat split; assumption.
Qed.

Lemma set_tx_power_out_of_range_witness :
  set_tx_power (scripted []) 6 30 (-1) 30 30 initial_state
  = (Raise OverflowError, initial_state).
Proof.
  apply (set_tx_power_out_of_range (scripted []) 6 initial_state 30 (-1) 30 30).
  unfold powers_fit, fits. lia.
Defined.

Lemma byte_of_Z_inj (z : Z) (b : byte) :
  0 <= z < 256 -> byte_of_Z z = b -> z = byte_val b.
Proof.
  intros Hz <-. now rewrite byte_val_of_Z.
Qed.

Lemma word_bytes (w : Z) :
  fits 2 w ->
  0 <= w / 256 < 256 /\ 0 <= w mod 256 < 256 /\ w = 256 * (w / 256) + w mod 256.
Proof.
  unfold fits. change (256 ^ Z.of_nat 2) with 65536. intros Hw.
  split; [split; [apply Z.div_pos; lia|apply Z.div_lt_upper_bound; lia]|].
  split; [apply Z.mod_pos_bound; lia|apply Z.div_mod; lia].
Qed.

Lemma low_byte_not_f6 (w : Z) :
  fits 2 w -> w mod 256 <> 246 -> Byte.eqb xf6 (byte_of_Z (w mod 256)) = false.
Proof.
  intros Hw Hne. destruct (word_bytes w Hw) as (_ & Hlo & _).
  destruct (Byte.eqb xf6 (byte_of_Z (w mod 256))) eqn:E; [|reflexivity].
  apply Byte.byte_dec_bl in E. symmetry in E.
  apply (byte_of_Z_inj _ _ Hlo) in E. exfalso. apply Hne. exact E.
Qed.

Lemma word_not_marker (w : Z) :
  fits 2 w -> w <> 63016 ->
  Byte.eqb xf6 (byte_of_Z (w / 256)) && (Byte.eqb x28 (byte_of_Z (w mod 256)) && true)
  = false.
Proof.
  intros Hw Hne. destruct (word_bytes w Hw) as (Hhi & Hlo & Hsum).
  destruct (Byte.eqb xf6 (byte_of_Z (w / 256))) eqn:E1; [|reflexivity].
  destruct (Byte.eqb x28 (byte_of_Z (w mod 256))) eqn:E2; [|reflexivity].
  apply Byte.byte_dec_bl in E1, E2. symmetry in E1, E2.
  apply (byte_of_Z_inj _ _ Hhi) in E1. apply (byte_of_Z_inj _ _ Hlo) in E2.
  change (byte_val xf6) with 246 in E1. change (byte_val x28) with 40 in E2.
  exfalso. apply Hne. lia.
Qed.

Lemma hundredfold_clean (p : Z) :
  (p * 100) mod 256 <> 246 /\ p * 100 <> 63016.
Proof.
  split; [|lia].
  intros H. pose proof (Z.div_mod (p * 100) 256 ltac:(lia)) as Hd.
  rewrite H in Hd. lia.
Qed.

Lemma tx_power_response_clean (w1 w2 w3 w4 : Z) :
  fits 2 w1 -> fits 2 w2 -> fits 2 w3 -> fits 2 w4 ->
  w1 mod 256 <> 246 -> w2 mod 256 <> 246 -> w3 mod 256 <> 246 ->
  w1 <> 63016 -> w2 <> 63016 -> w3 <> 63016 -> w4 <> 63016 ->
  forall set_response,
    trim_response set_response (tx_power_response w1 w2 w3 w4)
    = tx_power_response w1 w2 w3 w4.
Proof.
  intros H1 H2 H3 H4 L1 L2 L3 M1 M2 M3 M4 set_response.
  assert (F1 : 0 <= w1 < 65536) by exact H1.
  assert (F2 : 0 <= w2 < 65536) by exact H2.
  assert (F3 : 0 <= w3 < 65536) by exact H3.
  assert (F4 : 0 <= w4 < 65536) by exact H4.
  unfold tx_power_response, response_frame.
  rewrite (be_digits_2 w1 F1), (be_digits_2 w2 F2), (be_digits_2 w3 F3),
    (be_digits_2 w4 F4).
  cbn [List.length app UHFBytes.GET_TX_POWER UHFBytes.STATUS_SUCCESS Nat.add].
  change (be_digits 2 (Z.of_nat 14)) with [x00; x0e].
  match goal with
  | |- trim_response _ (UHFBytes.FRAMING_BYTES ++ ?b) = _ =>
      rewrite <- (app_nil_r (UHFBytes.FRAMING_BYTES ++ b));
      rewrite (trim_response_single_frame set_response b []);
      [now rewrite app_nil_r| | |]
  end.
  - rewrite app_nil_r. unfold marker_count.
    cbn [occurrences starts_with UHFBytes.FRAMING_BYTES app].
    rewrite (word_not_marker w1 H1 M1), (word_not_marker w2 H2 M2),
      (word_not_marker w3 H3 M3), (word_not_marker w4 H4 M4),
      (low_byte_not_f6 w1 H1 L1), (low_byte_not_f6 w2 H2 L2),
      (low_byte_not_f6 w3 H3 L3), ?andb_false_r.
    reflexivity.
  - cbn [List.length app]. lia.
  - reflexivity.
Qed.

Lemma build_cmd_tx_power (p1 p2 p3 p4 : Z) :
  powers_fit p1 p2 p3 p4 ->
  build_cmd "000C" "0005" (WInt4 (p1 * 100) (p2 * 100) (p3 * 100) (p4 * 100))
  = Ret (set_tx_power_cmd p1 p2 p3 p4).
Proof.
  intros (H1 & H2 & H3 & H4). unfold build_cmd.
  match goal with
  | |- context [fromhex ?s] => set (h := fromhex s); vm_compute in h; subst h
  end.
  assert (Hfit : forall v, fits 2 v -> to_bytes v 2 = Ret (be_digits 2 v)).
  { intros v [Ha Hb]. unfold to_bytes.
    apply Z.leb_le in Ha. apply Z.ltb_lt in Hb. now rewrite Ha, Hb. }
  rewrite (Hfit _ H1), (Hfit _ H2), (Hfit _ H3), (Hfit _ H4).
  cbn [rbind]. change (int_of_str "000C" 16) with (Ret 12). cbn [rbind].
  unfold set_tx_power_cmd.
  rewrite (be_digits_2 (p1 * 100)), (be_digits_2 (p2 * 100)),
    (be_digits_2 (p3 * 100)), (be_digits_2 (p4 * 100)) by exact H1 || assumption.
  reflexivity.
Qed.

(** X17. Transmit powers written and read back.  For four int powers
    between 0 and 655 dBm, the command of [set_tx_power] is the header
    [F6 28 00 0C 00 05] followed by the four powers in hundredths, two
    bytes each; and when the reader answers GetTxPower with these four
    words, [get_tx_power] returns the four powers: no such payload holds
    the framing bytes, so the trimming leaves the response whole. *)
Theorem tx_power_round_trip (ser : SerialPort) (st : state) (p1 p2 p3 p4 : Z) :
  0 <= p1 <= 655 -> 0 <= p2 <= 655 -> 0 <= p3 <= 655 -> 0 <= p4 <= 655 ->
  send_result ser (sends st) = None ->
  receive_result ser (receives st)
  = (None, Some (tx_power_response (p1 * 100) (p2 * 100) (p3 * 100) (p4 * 100))) ->
  build_cmd "000C" "0005" (WInt4 (p1 * 100) (p2 * 100) (p3 * 100) (p4 * 100))
  = Ret (set_tx_power_cmd p1 p2 p3 p4)
  /\ exists v,
      fst (get_tx_power ser st) = Ret (None, Some v)
      /\ Qeq (ant1power v) (inject_Z p1) /\ Qeq (ant2power v) (inject_Z p2)
      /\ Qeq (ant3power v) (inject_Z p3) /\ Qeq (ant4power v) (inject_Z p4).
Proof.
  intros R1 R2 R3 R4 Hs Hr.
  assert (H1 : fits 2 (p1 * 100)) by (unfold fits; lia).
  assert (H2 : fits 2 (p2 * 100)) by (unfold fits; lia).
  assert (H3 : fits 2 (p3 * 100)) by (unfold fits; lia).
  assert (H4 : fits 2 (p4 * 100)) by (unfold fits; lia).
  split.
  - apply build_cmd_tx_power. exact (conj H1 (conj H2 (conj H3 H4))).
  - destruct (hundredfold_clean p1) as [L1 M1].
    destruct (hundredfold_clean p2) as [L2 M2].
    destruct (hundredfold_clean p3) as [L3 M3].
    destruct (hundredfold_clean p4) as [L4 M4].
    unfold get_tx_power.
    change (build_cmd "0004" "0006" NoWord) with (Ret get_tx_power_cmd).
    unfold request, send_cmd, serial_send, wait_ms, emit, wait_for_response_short,
      serial_receive, subscript, bind, lift, ret.
    cbv beta iota. cbn [sends receives reads trace fst snd].
    rewrite Hs. cbv beta iota. cbn [sends receives reads trace fst snd].
    rewrite Hr. cbv beta iota.
    rewrite (tx_power_response_clean _ _ _ _ H1 H2 H3 H4 L1 L2 L3 M1 M2 M3 M4).
    rewrite (div100_word 8), (div100_word 10), (div100_word 12), (div100_word 14).
    assert (Hok : success_and_opcode
                    (tx_power_response (p1 * 100) (p2 * 100) (p3 * 100) (p4 * 100))
                    UHFBytes.GET_TX_POWER = true) by reflexivity.
    rewrite Hok. cbn [fst].
    eexists. split; [reflexivity|].
    cbn [ant1power ant2power ant3power ant4power].
    assert (Hw : forall lo p, fits 2 (p * 100) ->
                   slice lo (lo + 2)
                     (tx_power_response (p1 * 100) (p2 * 100) (p3 * 100) (p4 * 100))
                   = be_digits 2 (p * 100) ->
                   Qeq (Qmake (int_from_bytes
                          (slice lo (lo + 2)
                             (tx_power_response (p1 * 100) (p2 * 100) (p3 * 100)
                                (p4 * 100)))) 100) (inject_Z p)).
    { intros lo p Hp ->. rewrite (int_from_bytes_be_digits_2 _ Hp).
      unfold Qeq, inject_Z. cbn [Qnum Qden]. lia. }
    repeat split;
      [apply (Hw 8%nat p1 H1)|apply (Hw 10%nat p2 H2)
      |apply (Hw 12%nat p3 H3)|apply (Hw 14%nat p4 H4)]; reflexivity.
Qed.

Lemma tx_power_round_trip_witness :
  build_cmd "000C" "0005" (WInt4 (30 * 100) (30 * 100) (27 * 100) (0 * 100))
  = Ret (set_tx_power_cmd 30 30 27 0)
  /\ exists v,
      fst (get_tx_power
             (scripted [received (tx_power_response (30 * 100) (30 * 100)
                                    (27 * 100) (0 * 100))])
             initial_state)
      = Ret (None, Some v)
      /\ Qeq (ant1power v) (inject_Z 30) /\ Qeq (ant2power v) (inject_Z 30)
      /\ Qeq (ant3power v) (inject_Z 27) /\ Qeq (ant4power v) (inject_Z 0).
Proof.
  apply (tx_power_round_trip
           (scripted [received (tx_power_response (30 * 100) (30 * 100)
                                  (27 * 100) (0 * 100))])
           initial_state 30 30 27 0);
    [lia|lia|lia|lia|reflexivity|reflexivity].
Defined.

(** ** Bits and codes *)

(** X18. [bit_status x n], written [x & 1 << n != 0], reads the shift
    before the conjunction and the conjunction before the comparison: for
    [n >= 0] it is bit [n] of [x] in two's complement. *)
Theorem bit_status_testbit (x n : Z) :
  0 <= n -> bit_status x n = Z.testbit x n.
Proof.
  intros Hn. unfold bit_status.
  rewrite Z.shiftl_1_l.
  destruct (Z.testbit x n) eqn:E.
  - apply negb_true_iff, Z.eqb_neq. intros H.
    assert (Hb : Z.testbit (Z.land x (2 ^ n)) n = true).
    { rewrite Z.land_spec, E, Z.pow2_bits_true by exact Hn. reflexivity. }
    rewrite H, Z.bits_0 in Hb. discriminate.
  - apply negb_false_iff, Z.eqb_eq, Z.bits_inj'. intros m Hm.
    rewrite Z.land_spec, Z.bits_0.
    destruct (Z.eq_dec n m) as [<-|Hne].
    + now rewrite E.
    + rewrite (Z.pow2_bits_false n m Hne). apply andb_false_r.
Qed.

Lemma bit_status_testbit_witness :
  bit_status 37 5 = Z.testbit 37 5.
Proof.
  apply (bit_status_testbit 37 5). lia.
Defined.

Lemma code_param_all : all_bits 16 code_param_ok 0 = true.
Proof. vm_compute. reflexivity. Qed.

(** X19. [code_to_param] on a 16-bit code, given as an int or as the hex
    string [int_to_hex_string] makes of it: both give the same name, one of
    the seven parameter names for the codes 1 to 7 and
    ['Response_Not_Defined'] for every other code. *)
Theorem code_to_param_names (z : Z) :
  0 <= z < 65536 ->
  code_to_param (CodeInt z) = param_name z
  /\ code_to_param (CodeStr (int_to_hex_string z 4)) = param_name z
  /\ (param_name z = OPParams.RESPONSE_NOT_DEFINED <-> ~ 1 <= z <= 7).
Proof.
  intros Hz.
  pose proof (all_bits_spec code_param_ok 16 0 code_param_all z) as H.
  change (2 ^ Z.of_nat 16) with 65536 in H. specialize (H ltac:(lia)).
  unfold code_param_ok in H. apply andb_prop in H as [H1 H2].
  apply String.eqb_eq in H1, H2.
  split; [exact H1|]. split; [exact H2|].
  unfold param_name.
  destruct (Z.leb_spec 1 z); destruct (Z.leb_spec z 7); cbn [andb];
    try (split; [intros _; lia|reflexivity]).
  assert (Hc : z = 1 \/ z = 2 \/ z = 3 \/ z = 4 \/ z = 5 \/ z = 6 \/ z = 7) by lia.
  split; [|intros Hn; exfalso; apply Hn; lia].
  destruct Hc as [->|[->|[->|[->|[->|[->| ->]]]]]]; discriminate.
Qed.

Lemma code_to_param_names_witness :
  code_to_param (CodeInt 3) = param_name 3
  /\ code_to_param (CodeStr (int_to_hex_string 3 4)) = param_name 3
  /\ (param_name 3 = OPParams.RESPONSE_NOT_DEFINED <-> ~ 1 <= 3 <= 7).
Proof.
  apply (code_to_param_names 3). lia.
Defined.

(** ** An order to read without parameters *)

Lemma while_done {S : Type} (fuel : nat) (cond : S -> bool)
  (body : S -> M (S * bool)) (s : S) (st : state) :
  cond s = false -> while_ fuel cond body s st = (Ret s, st).
Proof.
  intros H. destruct fuel; cbn [while_]; now rewrite H.
Qed.

(** X20. A turn of [start_reading] whose order to read comes with a
    dictionary that lacks the parameters, such as [{}]: the keep-alive is
    run once.  If it returned no error, looking up ["tagReport"] raises
    [KeyError], nothing is emitted and no request was sent; if it returned
    an error, the parameters are not looked at and the turn emits its
    metadata as usual. *)
Theorem cycle_without_params (ser : SerialPort)
  (producer : nat -> option uhf_params * bool) (fuel : nat) (st : state) :
  (15 < fuel)%nat ->
  returns_bytes ser ->
  producer (reads st) = (None, true) ->
  exists error_keep_alive alive s_ka st',
    runs ser (keep_alive ser fuel) keep_alive_cmd (after_read st)
      (error_keep_alive, alive) s_ka
    /\ cycle ser producer fuel st
       = (match error_keep_alive with
          | None => Raise KeyError
          | Some _ => Ret tt
          end, st')
    /\ requests (trace st') = requests (trace st)
    /\ emitted (trace st')
       = emitted (trace st)
           ++ match error_keep_alive with
              | None => []
              | Some _ => [aggregate (skipped error_keep_alive alive)]
              end.
Proof.
  intros Hfuel Hbytes Hprod.
  destruct (keep_alive_runs ser fuel Hfuel Hbytes (after_read st))
    as (e & a & s_ka & Hrun).
  destruct (runs_quiet ser _ _ _ _ _ Hrun) as (u & Hu & Hrequ & Hemu).
  pose proof Hrun as (Heq & _ & _).
  exists e, a, s_ka.
  unfold cycle, awaiting_start, set_uhf_params_cleared, bind.
  destruct fuel as [|f]; [lia|]. cbn [while_ negb].
  unfold get_uhf_params. rewrite Hprod. cbv beta iota.
  change {| sends := sends st; receives := receives st; reads := S (reads st);
            trace := trace st ++ [ParamsRead] |} with (after_read st).
  rewrite Heq. unfold wait_ms, emit, ret. cbv beta iota.
  rewrite while_done by reflexivity. cbv beta iota.
  assert (Hreq : forall tl,
             requests (((trace s_ka ++ [Waited 1000]) ++ [ParamsCleared]) ++ tl)
             = requests (trace st) ++ requests tl).
  { intros tl. rewrite Hu. unfold after_read. cbn [trace].
    rewrite !requests_app, Hrequ. cbn. now rewrite !app_nil_r. }
  assert (Hem : forall tl,
             emitted (((trace s_ka ++ [Waited 1000]) ++ [ParamsCleared]) ++ tl)
             = emitted (trace st) ++ emitted tl).
  { intros tl. rewrite Hu. unfold after_read. cbn [trace].
    rewrite !emitted_app, Hemu. cbn. now rewrite !app_nil_r. }
  destruct e as [e|].
  - eexists. split; [exact Hrun|]. split; [reflexivity|].
    cbn [trace]. split; [rewrite Hreq|rewrite Hem]; cbn; now rewrite ?app_nil_r.
  - eexists. split; [exact Hrun|].
    unfold configure_and_read, lift. split; [reflexivity|].
    cbn [trace]. rewrite <- (app_nil_r (_ ++ [ParamsCleared])).
    split; [rewrite Hreq|rewrite Hem]; cbn; now rewrite ?app_nil_r.
Qed.

Lemma cycle_without_params_witness :
  exists error_keep_alive alive s_ka st',
    runs (scripted [received keep_alive_reply])
      (keep_alive (scripted [received keep_alive_reply]) 16) keep_alive_cmd
      (after_read initial_state) (error_keep_alive, alive) s_ka
    /\ cycle (scripted [received keep_alive_reply]) start_empty 16 initial_state
       = (match error_keep_alive with
          | None => Raise KeyError
          | Some _ => Ret tt
          end, st')
    /\ requests (trace st') = requests (trace initial_state)
    /\ emitted (trace st')
       = emitted (trace initial_state)
           ++ match error_keep_alive with
              | None => []
              | Some _ => [aggregate (skipped error_keep_alive alive)]
              end.
Proof.
  apply (cycle_without_params (scripted [received keep_alive_reply]) start_empty
           16 initial_state).
  - lia.
  - apply scripted_returns_bytes. repeat constructor; discriminate.
  - reflexivity.
Defined.

(** ** The audio signal *)

Lemma get_tag_report_value (ser : SerialPort) (st : state)
  (e : option string) (v : tag_report_info) (st' : state) :
  get_tag_report ser st = (Ret (e, Some v), st') -> e = None.
Proof.
  unfold get_tag_report.
  change (build_cmd "0006" "0009" (WByt "0000")) with (Ret get_tag_report_cmd).
  unfold request, send_cmd, serial_send, wait_ms, emit, wait_for_response_short,
    serial_receive, subscript, bind, lift, ret.
  cbv beta iota. cbn [sends receives reads trace fst snd].
  destruct (send_result ser (sends st)) as [?|]; cbv beta iota; [discriminate|].
  cbn [sends receives reads trace fst snd].
  destruct (receive_result ser (receives st)) as [e0 [d|]]; cbv beta iota;
    [|discriminate].
  destruct e0 as [?|]; [discriminate|].
  destruct (success_and_opcode _ _); intros H; now inversion H.
Qed.

Lemma polled_outcomes (ser : SerialPort) (st : state)
  (outs : list (option string * option tag_report_info)) (st' : state) :
  polled ser st outs st' ->
  forall o, In o outs -> snd o <> None -> fst o = None.
Proof.
  induction 1 as [|st outs st1 o st2 Hp IH Hrun]; intros o' Hin Hv.
  - contradiction.
  - apply in_app_or in Hin as [Hin|[<-|[]]]; [now apply IH|].
    destruct Hrun as (Heq & _). destruct o as [e [v|]]; [|now elim Hv].
    cbn [fst]. exact (get_tag_report_value ser _ _ _ _ Heq).
Qed.

(** X21. The audio signal of a tag reading.  [read_tags] emits
    [signal_tag_detected_audio] at most once, as its very last step, after
    the reader was set back to idle, exactly when the sound is on and the
    last poll left no error; a poll that returned a tag report left none, so
    with the sound on every report found is signalled. *)
Theorem read_tags_audio (ser : SerialPort) (fuel : nat) (sound : bool) (st : state) :
  (10 < fuel)%nat ->
  returns_bytes ser ->
  exists e_idle e_get op_st i e_tag tag st' t,
    read_tags ser fuel sound st
    = (Ret (e_idle, e_get, op_st, (i, e_tag, tag)), st')
    /\ Forall (port_event ser) t
    /\ last (requests t) [] = set_idle_cmd
    /\ trace st'
       = trace st ++ t
           ++ (if sound && not_error e_tag then [TagDetectedAudio] else [])
    /\ (tag <> None -> e_tag = None).
Proof.
  intros Hfuel Hbytes.
  destruct (read_tags_steps ser fuel sound st Hfuel Hbytes)
    as (e_read & s1 & e_get & op_st & s2 & outs & s3 & e_idle & s4 & s5
        & H1 & H2 & Hp & Hlen & Hnone & Hten & H4 & _ & H5 & Hrun).
  destruct (runs_trace ser _ _ _ _ _ H1) as (t1 & Ht1 & Hf1 & Hr1).
  destruct (runs_trace ser _ _ _ _ _ H2) as (t2 & Ht2 & Hf2 & Hr2).
  destruct (polled_trace ser _ _ _ Hp) as (_ & t3 & Ht3 & Hf3 & Hr3).
  destruct (runs_trace ser _ _ _ _ _ H4) as (t4 & Ht4 & Hf4 & Hr4).
  exists e_idle, e_get, op_st, (Z.of_nat (List.length outs)),
    (fst (last outs (None, None))), (snd (last outs (None, None))), s5,
    (t1 ++ t2 ++ t3 ++ t4).
  split; [exact Hrun|]. split; [|split; [|split]].
  - repeat (apply Forall_app; split); assumption.
  - rewrite !requests_app, Hr4, !app_assoc. apply last_last.
  - rewrite H5, Ht4, Ht3, Ht2, Ht1. now rewrite <- !app_assoc.
  - apply (polled_outcomes ser _ _ _ Hp).
    destruct outs as [|o outs]; [cbn [List.length] in Hlen; lia|].
    destruct (@exists_last _ (o :: outs) ltac:(discriminate)) as (l' & a & ->).
    rewrite last_last. apply in_or_app. right. now left.
Qed.

Lemma read_tags_audio_witness :
  exists e_idle e_get op_st i e_tag tag st' t,
    read_tags (scripted []) 11 true initial_state
    = (Ret (e_idle, e_get, op_st, (i, e_tag, tag)), st')
    /\ Forall (port_event (scripted [])) t
    /\ last (requests t) [] = set_idle_cmd
    /\ trace st'
       = trace initial_state ++ t
           ++ (if true && not_error e_tag then [TagDetectedAudio] else [])
    /\ (tag <> None -> e_tag = None).
Proof.
  apply (read_tags_audio (scripted []) 11 true initial_state).
  - lia.
  - apply scripted_returns_bytes. constructor.
Defined.

(** ** Set operations that are answered at once *)

Lemma set_answered (ser : SerialPort) (fuel : nat) (msg response : bytes)
  (check : bytes -> bool) (failure : string) (st : state)
  (e : option string) (d : bytes) :
  send_result ser (sends st) = None ->
  receive_result ser (receives st) = (e, Some d) ->
  d <> [] ->
  bind (request_set ser fuel msg response)
    (fun x =>
       match x with
       | (error, res) =>
           match error with
           | None =>
               bind (subscript res)
                 (fun res => if check res then ret (Some failure) else ret error)
           | Some _ => ret error
           end
       end) st
  = (Ret match e with
         | Some _ => e
         | None =>
             if check (trim_response (PyBytes response) d) then Some failure
             else None
         end,
     after_answer st msg [Waited 1000] e d).
Proof.
  intros Hs Hr Hd.
  unfold request_set, send_cmd, serial_send, wait_ms, emit, wait_for_response_short,
    serial_receive, subscript, bind, lift, ret, after_answer.
  cbv beta iota. cbn [sends receives reads trace]. rewrite Hs. cbv beta iota.
  cbn [sends receives reads trace]. rewrite Hr. cbv beta iota.
  destruct (bytes_eqb (trim_response (PyBytes response) d) []) eqn:E.
  { apply trim_response_empty in E. contradiction. }
  rewrite <- !app_assoc. cbn [app].
  destruct e as [x|]; [reflexivity|].
  destruct (check (trim_response (PyBytes response) d)); reflexivity.
Qed.

Lemma set_verdict_check (response : bytes) (failure : string)
  (e : option string) (res : bytes) :
  set_verdict response e res
    match e with
    | Some _ => e
    | None =>
        if negb (bytes_eqb (slice 6 8 res) UHFBytes.STATUS_SUCCESS)
           && bytes_eqb (slice 4 6 res) response
        then Some failure
        else None
    end.
Proof.
  unfold set_verdict. destruct e as [x|].
  - split; [reflexivity|]. split; [discriminate|]. intros [H _]. discriminate.
  - split; [discriminate|].
    destruct (bytes_eqb (slice 6 8 res) UHFBytes.STATUS_SUCCESS) eqn:E1;
      destruct (bytes_eqb (slice 4 6 res) response) eqn:E2; cbn [negb andb].
    + apply bytes_eqb_eq in E1. split; auto.
    + apply bytes_eqb_eq in E1. split; auto.
    + apply bytes_eqb_eq in E2. split; [discriminate|].
      intros [_ [H|H]]; [|contradiction].
      apply bytes_eqb_eq in H. congruence.
    + split; [|reflexivity]. intros _. split; [reflexivity|]. right.
      intros H. apply bytes_eqb_eq in H. congruence.
Qed.

(** X22. A set operation with the long wait, when its command goes out and
    the port answers at once with bytes that are not empty: it hands its
    command to the port, waits a second, reads once and sends no keep-alive.
    It returns the error of the port if there is one; otherwise it returns
    an error of its own only when the response echoes its opcode with a
    status other than success, and none on any other response. *)
Theorem set_operations_answered (ser : SerialPort) (fuel : nat) (st : state)
  (e : option string) (d : bytes) :
  send_result ser (sends st) = None ->
  receive_result ser (receives st) = (e, Some d) ->
  d <> [] ->
  (forall op_state cmd,
      build_cmd "0006" "000C" (WByt op_state) = Ret cmd ->
      exists r,
        set_op_state ser fuel op_state st
        = (Ret r, after_answer st cmd [Waited 1000] e d)
        /\ set_verdict UHFBytes.SET_OP_STATE e
             (trim_response (PyBytes UHFBytes.SET_OP_STATE) d) r)
  /\ (forall p1 p2 p3 p4,
         powers_fit p1 p2 p3 p4 ->
         exists r,
           set_tx_power ser fuel p1 p2 p3 p4 st
           = (Ret r, after_answer st (set_tx_power_cmd p1 p2 p3 p4) [Waited 1000] e d)
           /\ set_verdict UHFBytes.SET_TX_POWER e
                (trim_response (PyBytes UHFBytes.SET_TX_POWER) d) r)
  /\ (forall a1 a2 a3 a4 : bool,
         exists r,
           set_ant_enables ser fuel (Z.b2z a1) (Z.b2z a2) (Z.b2z a3) (Z.b2z a4) st
           = (Ret r,
              after_answer st (set_ant_enables_cmd a1 a2 a3 a4) [Waited 1000] e d)
           /\ set_verdict UHFBytes.SET_ANT_ENABLES e
                (trim_response (PyBytes UHFBytes.SET_ANT_ENABLES) d) r).
Proof.
  intros Hs Hr Hd. split; [|split].
  - intros op_state cmd Hb. unfold set_op_state.
    unfold bind at 1, lift. rewrite Hb.
    rewrite (set_answered ser fuel cmd UHFBytes.SET_OP_STATE
               (fun res => negb (bytes_eqb (slice 6 8 res) UHFBytes.STATUS_SUCCESS)
                           && bytes_eqb (slice 4 6 res) UHFBytes.SET_OP_STATE)
               _ st e d Hs Hr Hd).
    eexists. split; [reflexivity|]. apply set_verdict_check.
  - intros p1 p2 p3 p4 Hfit. unfold set_tx_power.
    unfold bind at 1, lift. rewrite (build_cmd_tx_power p1 p2 p3 p4 Hfit).
    rewrite (set_answered ser fuel _ UHFBytes.SET_TX_POWER
               (fun res => negb (bytes_eqb (slice 6 8 res) UHFBytes.STATUS_SUCCESS)
                           && bytes_eqb (slice 4 6 res) UHFBytes.SET_TX_POWER)
               _ st e d Hs Hr Hd).
    eexists. split; [reflexivity|]. apply set_verdict_check.
  - intros a1 a2 a3 a4. unfold set_ant_enables.
    assert (Hb : exists v,
               ant_enables_vector (Z.b2z a1) (Z.b2z a2) (Z.b2z a3) (Z.b2z a4) = Ret v
               /\ build_cmd "0006" "000E" (WInt v)
                  = Ret (set_ant_enables_cmd a1 a2 a3 a4)).
    { destruct a1, a2, a3, a4; eexists; split; reflexivity. }
    destruct Hb as (v & Hv & Hb).
    unfold bind at 1, lift. rewrite Hv. unfold bind at 1. rewrite Hb.
    rewrite (set_answered ser fuel _ UHFBytes.SET_ANT_ENABLES
               (fun res => negb (bytes_eqb (slice 6 8 res) UHFBytes.STATUS_SUCCESS)
                           && bytes_eqb (slice 4 6 res) UHFBytes.SET_ANT_ENABLES)
               _ st e d Hs Hr Hd).
    eexists. split; [reflexivity|]. apply set_verdict_check.
Qed.

Lemma set_operations_answered_witness :
  exists r,
    set_tx_power
      (scripted [received (response_frame UHFBytes.SET_TX_POWER
                             UHFBytes.STATUS_INVALID_POWER_LEVEL [])])
      6 30 30 30 30 initial_state
    = (Ret r,
       after_answer initial_state (set_tx_power_cmd 30 30 30 30) [Waited 1000] None
         (response_frame UHFBytes.SET_TX_POWER UHFBytes.STATUS_INVALID_POWER_LEVEL []))
    /\ set_verdict UHFBytes.SET_TX_POWER None
         (trim_response (PyBytes UHFBytes.SET_TX_POWER)
            (response_frame UHFBytes.SET_TX_POWER
               UHFBytes.STATUS_INVALID_POWER_LEVEL [])) r.
Proof.
  apply (set_operations_answered
           (scripted [received (response_frame UHFBytes.SET_TX_POWER
                                  UHFBytes.STATUS_INVALID_POWER_LEVEL [])])
           6 initial_state None
           (response_frame UHFBytes.SET_TX_POWER
              UHFBytes.STATUS_INVALID_POWER_LEVEL [])).
  - reflexivity.
  - reflexivity.
  - discriminate.
  - unfold powers_fit, fits. cbn. lia.
Defined.

(** X23. [keep_alive] when its command goes out and the port answers at
    once with bytes that are not empty: one command, one reading, no wait.
    It reports the module alive exactly when the port gave no error and the
    response has the status success and the opcode of the keep-alive; it
    never returns [False] for the aliveness, which is [True] or [None], and
    it returns an error exactly when the aliveness is [None]. *)
Theorem keep_alive_answered (ser : SerialPort) (fuel : nat) (st : state)
  (e : option string) (d : bytes) :
  (0 < fuel)%nat ->
  send_result ser (sends st) = None ->
  receive_result ser (receives st) = (e, Some d) ->
  d <> [] ->
  exists error alive,
    keep_alive ser fuel st
    = (Ret (error, alive), after_answer st keep_alive_cmd [] e d)
    /\ (alive = Some true
        <-> e = None
            /\ slice 6 8 (trim_response (PyInt REC_TIMEOUT) d)
               = UHFBytes.STATUS_SUCCESS
            /\ slice 4 6 (trim_response (PyInt REC_TIMEOUT) d)
               = UHFBytes.KEEP_ALIVE)
    /\ (alive = Some true \/ alive = None)
    /\ (error = None <-> alive = Some true)
    /\ (forall x, e = Some x -> error = e).
Proof.
  intros Hfuel Hs Hr Hd.
  destruct fuel as [|fuel]; [lia|].
  rewrite keep_alive_loop. cbn [while_]. unfold retry_cond at 1.
  change (0 <? 15) with true. cbv iota.
  unfold retry_body at 1, send_cmd, serial_send, wait_ms, emit,
    wait_for_response_short, serial_receive, bind, lift, ret, after_answer.
  rewrite Hs. cbn [sends receives reads trace]. rewrite Hr.
  destruct (bytes_eqb (trim_response (PyInt REC_TIMEOUT) d) []) eqn:E.
  { apply trim_response_empty in E. contradiction. }
  cbn [negb]. cbv iota beta. rewrite <- !app_assoc. cbn [app].
  destruct e as [x|].
  - exists (Some x), None. split; [reflexivity|].
    split; [split; [discriminate|intros [H _]; discriminate]|].
    split; [now right|]. split; [split; discriminate|].
    intros y Hy. reflexivity.
  - unfold success_and_opcode.
    destruct (bytes_eqb (slice 6 8 (trim_response (PyInt REC_TIMEOUT) d))
                UHFBytes.STATUS_SUCCESS) eqn:E1;
      destruct (bytes_eqb (slice 4 6 (trim_response (PyInt REC_TIMEOUT) d))
                  UHFBytes.KEEP_ALIVE) eqn:E2; cbn [andb].
    + apply bytes_eqb_eq in E1, E2. exists None, (Some true).
      split; [reflexivity|]. split; [split; auto|].
      split; [now left|]. split; [split; reflexivity|discriminate].
    + exists (Some "Unable to keep UHF module alive"), None.
      split; [reflexivity|]. split.
      * split; [discriminate|]. intros (_ & _ & H).
        apply bytes_eqb_eq in H. congruence.
      * split; [now right|]. split; [split; discriminate|discriminate].
    + exists (Some "Unable to keep UHF module alive"), None.
      split; [reflexivity|]. split.
      * split; [discriminate|]. intros (_ & H & _).
        apply bytes_eqb_eq in H. congruence.
      * split; [now right|]. split; [split; discriminate|discriminate].
    + exists (Some "Unable to keep UHF module alive"), None.
      split; [reflexivity|]. split.
      * split; [discriminate|]. intros (_ & H & _).
        apply bytes_eqb_eq in H. congruence.
      * split; [now right|]. split; [split; discriminate|discriminate].
Qed.

Lemma keep_alive_answered_witness :
  exists error alive,
    keep_alive (scripted [received keep_alive_reply]) 16 initial_state
    = (Ret (error, alive),
       after_answer initial_state keep_alive_cmd [] None keep_alive_reply)
    /\ (alive = Some true
        <-> @None string = None
            /\ slice 6 8 (trim_response (PyInt REC_TIMEOUT) keep_alive_reply)
               = UHFBytes.STATUS_SUCCESS
            /\ slice 4 6 (trim_response (PyInt REC_TIMEOUT) keep_alive_reply)
               = UHFBytes.KEEP_ALIVE)
    /\ (alive = Some true \/ alive = None)
    /\ (error = None <-> alive = Some true)
    /\ (forall x, @None string = Some x -> error = None).
Proof.
  apply (keep_alive_answered (scripted [received keep_alive_reply]) 16
           initial_state None keep_alive_reply);
    [lia|reflexivity|reflexivity|discriminate].
Defined.

(** ** Operational parameters *)

Lemma be_digits_length (n : nat) : forall v, List.length (be_digits n v) = n.
Proof.
  induction n as [|n IH]; intros v; [reflexivity|].
  cbn [be_digits]. rewrite length_app, IH. cbn [List.length]. lia.
Qed.

Lemma int_from_bytes_snoc (l : bytes) (b : byte) :
  int_from_bytes (l ++ [b]) = int_from_bytes l * 256 + byte_val b.
Proof.
  unfold int_from_bytes. now rewrite fold_left_app.
Qed.

Lemma int_from_bytes_be_digits (n : nat) :
  forall v, fits n v -> int_from_bytes (be_digits n v) = v.
Proof.
  unfold fits. induction n as [|n IH]; intros v Hv.
  - change (256 ^ Z.of_nat 0) with 1 in Hv. cbn [be_digits]. unfold int_from_bytes.
    cbn [fold_left]. lia.
  - rewrite Nat2Z.inj_succ, Z.pow_succ_r in Hv by lia.
    cbn [be_digits]. rewrite int_from_bytes_snoc, IH, byte_val_of_Z.
    + pose proof (Z.div_mod v 256 ltac:(lia)). lia.
    + apply Z.mod_pos_bound. lia.
    + split; [apply Z.div_pos; lia|apply Z.div_lt_upper_bound; lia].
Qed.

Lemma marker_count_skip (a : byte) (l : bytes) :
  Byte.eqb xf6 a = false -> marker_count (a :: l) = marker_count l.
Proof.
  intros H. unfold marker_count.
  cbn [occurrences starts_with UHFBytes.FRAMING_BYTES]. now rewrite H.
Qed.

(** X24. An operational parameter written and read back.  For a code from
    1 to 7 and a 32-bit value, the command of [set_operational_param] is the
    header [F6 28 00 0A 00 0A] followed by the two bytes of the code and the
    four bytes of the value; and when the reader answers GetOpParams with
    that code and that value, [get_operational_params] returns the value and
    the name of the code that is in the response, whatever code was asked
    for, provided the four bytes of the value do not hold the framing
    bytes. *)
Theorem operational_param_round_trip (ser : SerialPort) (st : state) (k v : Z)
  (code : string) (msg : bytes) :
  1 <= k <= 7 ->
  fits 4 v ->
  marker_count (be_digits 4 v) = 0%nat ->
  build_cmd "0006" "000B" (WByt code) = Ret msg ->
  send_result ser (sends st) = None ->
  receive_result ser (receives st) = (None, Some (op_param_response k v)) ->
  build_cmd "000A" "000A" (WUint32 (int_to_hex_string k 4) v)
  = Ret (header 10 10 ++ be_digits 2 k ++ be_digits 4 v)
  /\ fst (get_operational_params ser code st)
     = Ret (None, Some {| param := param_name k; value := v |}).
Proof.
  intros Hk Hv Hm Hb Hs Hr.
  assert (Hk16 : 0 <= k < 65536) by lia.
  split.
  - unfold build_cmd.
    match goal with
    | |- context [fromhex ?s] =>
        match s with
        | context [int_to_hex_string] => fail 1
        | _ => set (h := fromhex s); vm_compute in h; subst h
        end
    end.
    cbn [rbind]. rewrite (fromhex_hex4_nil k Hk16). cbn [rbind].
    destruct Hv as [Hv0 Hv1]. unfold to_bytes.
    apply Z.leb_le in Hv0. apply Z.ltb_lt in Hv1. rewrite Hv0, Hv1.
    cbn [andb rbind]. change (int_of_str "000A" 16) with (Ret 10). cbn [rbind].
    replace (Z.to_nat _) with 0%nat; [now rewrite app_nil_r|].
    rewrite !length_app, !be_digits_length. cbn [List.length]. lia.
  - assert (Htrim : trim_response (PyBytes UHFBytes.GET_OP_PARAMS)
                      (op_param_response k v)
                    = op_param_response k v).
    { unfold op_param_response, response_frame.
      rewrite !length_app, !be_digits_length.
      cbn [List.length UHFBytes.GET_OP_PARAMS UHFBytes.STATUS_SUCCESS Nat.add].
      change (be_digits 2 (Z.of_nat 12)) with [x00; x0c].
      rewrite (be_digits_2 k Hk16).
      match goal with
      | |- trim_response _ (UHFBytes.FRAMING_BYTES ++ ?b) = _ =>
          rewrite <- (app_nil_r (UHFBytes.FRAMING_BYTES ++ b));
          rewrite (trim_response_single_frame _ b []);
          [now rewrite app_nil_r| | |]
      end.
      - rewrite app_nil_r. cbn [app].
        assert (Hc : k = 1 \/ k = 2 \/ k = 3 \/ k = 4 \/ k = 5 \/ k = 6 \/ k = 7)
          by lia.
        destruct Hc as [->|[->|[->|[->|[->|[->| ->]]]]]];
          rewrite !marker_count_skip by reflexivity; exact Hm.
      - cbn [app List.length UHFBytes.GET_OP_PARAMS UHFBytes.STATUS_SUCCESS]. lia.
      - cbn [app List.length slice skipn firstn Nat.sub UHFBytes.GET_OP_PARAMS
               UHFBytes.STATUS_SUCCESS].
        rewrite be_digits_length. reflexivity. }
    unfold get_operational_params. unfold bind at 1, lift. rewrite Hb.
    unfold request, send_cmd, serial_send, wait_ms, emit, wait_for_response_short,
      serial_receive, subscript, bind, lift, ret.
    cbv beta iota. cbn [sends receives reads trace fst snd].
    rewrite Hs. cbv beta iota. cbn [sends receives reads trace fst snd].
    rewrite Hr. cbv beta iota. rewrite Htrim.
    assert (Hok : success_and_opcode (op_param_response k v) UHFBytes.GET_OP_PARAMS
                  = true) by reflexivity.
    rewrite Hok. cbn [fst].
    assert (Hcode : slice 8 10 (op_param_response k v) = be_digits 2 k)
      by reflexivity.
    assert (Hval : skipn 10 (op_param_response k v) = be_digits 4 v)
      by reflexivity.
    rewrite Hcode, Hval, (int_from_bytes_be_digits_2 k Hk16),
      (int_from_bytes_be_digits 4 v Hv).
    pose proof (all_bits_spec code_param_ok 16 0 code_param_all k) as Hp.
    change (2 ^ Z.of_nat 16) with 65536 in Hp. specialize (Hp ltac:(lia)).
    unfold code_param_ok in Hp. apply andb_prop in Hp as [Hp _].
    apply String.eqb_eq in Hp. now rewrite Hp.
Qed.

Lemma operational_param_round_trip_witness :
  build_cmd "000A" "000A" (WUint32 (int_to_hex_string 3 4) 50000)
  = Ret (header 10 10 ++ be_digits 2 3 ++ be_digits 4 50000)
  /\ fst (get_operational_params
            (scripted [received (op_param_response 3 50000)])
            OPParams.TAG_TIMEOUT_CODE initial_state)
     = Ret (None, Some {| param := param_name 3; value := 50000 |}).
Proof.
  apply (operational_param_round_trip
           (scripted [received (op_param_response 3 50000)]) initial_state
           3 50000 OPParams.TAG_TIMEOUT_CODE
           [xf6; x28; x00; x06; x00; x0b; x00; x01]).
  - lia.
  - unfold fits. cbn. lia.
  - reflexivity.
  - reflexivity.
  - reflexivity.
  - reflexivity.
Defined.

(** ** The event mask *)

(** X25. [set_event_mask], answered at once with bytes that are not empty:
    its command is the header [F6 28 00 08 00 14] and the six flags packed
    into four bytes.  It compares the four bytes 6-9 of the response with the
    two bytes of the success status, so it takes the status for success only
    in a response that ends after its eighth byte; a longer response that
    echoes the opcode is reported as a failure whatever its status. *)
Theorem set_event_mask_answered (ser : SerialPort) (fuel : nat) (st : state)
  (e : option string) (d : bytes) (s r p t c o : bool) :
  send_result ser (sends st) = None ->
  receive_result ser (receives st) = (e, Some d) ->
  d <> [] ->
  let res := trim_response (PyBytes UHFBytes.SET_EVENT_MASK) d in
  exists error,
    set_event_mask ser fuel (Z.b2z s) (Z.b2z r) (Z.b2z p) (Z.b2z t) (Z.b2z c)
      (Z.b2z o) st
    = (Ret error, after_answer st (set_event_mask_cmd s r p t c o) [Waited 1000] e d)
    /\ (forall x, e = Some x -> error = e)
    /\ (error = None
        <-> e = None
            /\ ((slice 6 8 res = UHFBytes.STATUS_SUCCESS /\ List.length res = 8%nat)
                \/ slice 4 6 res <> UHFBytes.SET_EVENT_MASK)).
Proof.
  intros Hs Hr Hd res. unfold set_event_mask.
  assert (Hb : exists m,
             create_event_mask (Z.b2z s) (Z.b2z r) (Z.b2z p) (Z.b2z t) (Z.b2z c)
               (Z.b2z o) = Ret m
             /\ build_cmd "0008" "0014" (WInt32 m)
                = Ret (set_event_mask_cmd s r p t c o)).
  { destruct s, r, p, t, c, o; eexists; split; reflexivity. }
  destruct Hb as (m & Hm & Hb).
  unfold bind at 1, lift. rewrite Hm. unfold bind at 1. rewrite Hb.
  rewrite (set_answered ser fuel _ UHFBytes.SET_EVENT_MASK
             (fun res => negb (bytes_eqb (slice 6 10 res) UHFBytes.STATUS_SUCCESS)
                         && bytes_eqb (slice 4 6 res) UHFBytes.SET_EVENT_MASK)
             _ st e d Hs Hr Hd).
  fold res. eexists. split; [reflexivity|].
  assert (Hstatus : slice 6 10 res = UHFBytes.STATUS_SUCCESS
                    <-> slice 6 8 res = UHFBytes.STATUS_SUCCESS
                        /\ List.length res = 8%nat).
  { unfold slice. generalize res. intros l.
    destruct l as [|b0 [|b1 [|b2 [|b3 [|b4 [|b5 [|b6 [|b7 [|b8 l]]]]]]]]];
      cbn [skipn firstn Nat.sub List.length UHFBytes.STATUS_SUCCESS];
      try (split; [discriminate|intros [H _]; discriminate]).
    - split; [intros H; split; [exact H|reflexivity]|intros [H _]; exact H].
    - split; [|intros [_ H]; discriminate].
      destruct l; discriminate. }
  destruct e as [x|].
  - split; [reflexivity|]. split; [discriminate|]. intros [H _]. discriminate.
  - split; [discriminate|]. rewrite <- Hstatus.
    destruct (bytes_eqb (slice 6 10 res) UHFBytes.STATUS_SUCCESS) eqn:E1;
      destruct (bytes_eqb (slice 4 6 res) UHFBytes.SET_EVENT_MASK) eqn:E2;
      cbn [negb andb].
    + apply bytes_eqb_eq in E1. split; auto.
    + apply bytes_eqb_eq in E1. split; auto.
    + apply bytes_eqb_eq in E2. split; [discriminate|].
      intros [_ [H|H]]; [|contradiction].
      apply bytes_eqb_eq in H. congruence.
    + split; [|reflexivity]. intros _. split; [reflexivity|]. right.
      intros H. apply bytes_eqb_eq in H. congruence.
Qed.

Lemma set_event_mask_answered_witness :
  let res := trim_response (PyBytes UHFBytes.SET_EVENT_MASK)
               (response_frame UHFBytes.SET_EVENT_MASK UHFBytes.STATUS_SUCCESS
                  [x00; x00]) in
  exists error,
    set_event_mask
      (scripted [received (response_frame UHFBytes.SET_EVENT_MASK
                             UHFBytes.STATUS_SUCCESS [x00; x00])])
      6 (Z.b2z true) (Z.b2z true) (Z.b2z false) (Z.b2z false) (Z.b2z false)
      (Z.b2z true) initial_state
    = (Ret error,
       after_answer initial_state (set_event_mask_cmd true true false false false true)
         [Waited 1000] None
         (response_frame UHFBytes.SET_EVENT_MASK UHFBytes.STATUS_SUCCESS [x00; x00]))
    /\ (forall x, @None string = Some x -> error = None)
    /\ (error = None
        <-> @None string = None
            /\ ((slice 6 8 res = UHFBytes.STATUS_SUCCESS /\ List.length res = 8%nat)
                \/ slice 4 6 res <> UHFBytes.SET_EVENT_MASK)).
Proof.
  apply (set_event_mask_answered
           (scripted [received (response_frame UHFBytes.SET_EVENT_MASK
                                  UHFBytes.STATUS_SUCCESS [x00; x00])])
           6 initial_state None
           (response_frame UHFBytes.SET_EVENT_MASK UHFBytes.STATUS_SUCCESS [x00; x00])
           true true false false false true);
    [reflexivity|reflexivity|discriminate].
Defined.
